(** * Farmers Payment Module: submission and settlement pipeline

    A shallow embedding of the database-facing callbacks of [app.py]
    ([log_activity], [submit_to_admin], [save_admin_note],
    [handle_payment_processing], [show_ipn_toast]) together with the
    properties of the batch life cycle that hold of them.

    Conventions of the embedding.
    - The SQLite file is a record of tables; a table is the list of its rows
      in rowid order.  INTEGER columns are [Z], TEXT columns are [string],
      a nullable column is an [option].  Amounts are whole numbers of
      Tanzanian shillings, as the data table sends them: JSON integers
      within the range of int64, which pandas holds in an int64 column.
    - A callback is a computation in the monad [M]: it threads the [world]
      (the database file, the clock, the random generator) and either returns
      or raises a Python exception.
    - A [sqlite3] connection is the private view of the database held by the
      caller; statements change the view, [commit] writes it to the file.
    - Every statement sent to SQLite may raise: the [faults] oracle of the
      world says which calls do. *)

From Stdlib Require Import ZArith QArith List String Bool Lia DecimalString.
Import ListNotations.

Open Scope string_scope.
Open Scope Z_scope.

(* ================================================================== *)
(** ** Tables *)
(* ================================================================== *)

Record user := mk_user {
  u_id : Z;
  u_username : string;
  u_password : string;
  u_role : string;
  u_cooperative_name : string
}.

(** A value as SQLite holds it in a column of REAL affinity.  A number bound
    to a statement is stored as a number; an object that offers its bytes
    through the buffer protocol, as a [numpy.int64] does, is stored as a BLOB
    of those bytes. *)
Inductive sql_value :=
| sql_real (r : Z)
| sql_blob (bytes : list Z).

Coercion sql_real : Z >-> sql_value.

(** The eight bytes of an int64, least significant first; a sum that leaves
    the range of int64 wraps around. *)
Definition int64_le (n : Z) : list Z :=
  map (fun k => Z.land (Z.shiftr (n mod 2 ^ 64) (8 * k)) 255)
      [0; 1; 2; 3; 4; 5; 6; 7].

(** What [sqlite3] binds for a [numpy.int64]: its bytes. *)
Definition numpy_int64 (n : Z) : sql_value := sql_blob (int64_le n).

Record submission_batch := mk_batch {
  b_id : Z;
  b_cooperative_id : Z;
  b_filename : string;
  b_record_count : Z;
  b_total_amount : sql_value;
  b_submission_timestamp : Z;
  b_status : string;
  b_admin_notes : option string;
  b_cooperative_notes : option string
}.

Record farmer_payment := mk_payment {
  p_id : Z;
  p_batch_id : Z;
  p_farmer_name : string;
  p_bank_name : string;
  p_account_number : string;
  p_amount : Z;
  p_status : string;
  p_failure_reason : option string
}.

Record payment_history_row := mk_history {
  h_id : Z;
  h_batch_id : Z;
  h_cooperative_name : string;
  h_filename : string;
  h_record_count : Z;
  h_total_amount : sql_value;
  h_processing_timestamp : Z
}.

Record activity_log := mk_log {
  l_id : Z;
  l_timestamp : Z;
  l_user_id : Z;
  l_cooperative_name : string;
  l_action : string;
  l_details : string
}.

(** The database file.  The [seq_*] fields are the AUTOINCREMENT counters
    SQLite keeps in [sqlite_sequence]: the largest rowid ever handed out. *)
Record db := mk_db {
  users : list user;
  submission_batches : list submission_batch;
  farmer_payments : list farmer_payment;
  payment_history : list payment_history_row;
  activity_logs : list activity_log;
  seq_batches : Z;
  seq_payments : Z;
  seq_history : Z;
  seq_logs : Z
}.

(* ================================================================== *)
(** ** The world and the callback monad *)
(* ================================================================== *)

Record world := mk_world {
  disk : db;                 (* committed content of the database file *)
  ticks : nat;               (* number of SQLite calls made so far *)
  faults : nat -> option string; (* the error message the k-th SQLite call
                                    raises with, if it raises *)
  clock : Z;                 (* what [datetime.now()] returns next *)
  draws : nat;               (* number of random draws made so far *)
  tape_random : nat -> Q;    (* what [random.random()] returns at a draw *)
  tape_choice : nat -> nat   (* raw index [random.choice] uses at a draw *)
}.

(** Python exceptions, with the message [str(e)] gives. *)
Inductive exn :=
| sqlite3_Error (msg : string)
| TypeError (msg : string)
| IndexError (msg : string)
| NameError (msg : string).

Definition str_exn (e : exn) : string :=
  match e with
  | sqlite3_Error msg => msg
  | TypeError msg => msg
  | IndexError msg => msg
  | NameError msg => msg
  end.

Definition not_subscriptable : exn :=
  TypeError "'NoneType' object is not subscriptable".
Definition index_out_of_range : exn :=
  IndexError "list index out of range".

Inductive result (A : Type) :=
| Ok (a : A)
| Raise (e : exn).
Arguments Ok {A} a.
Arguments Raise {A} e.

Definition M (A : Type) : Type := world -> result A * world.

Definition ret {A} (a : A) : M A := fun w => (Ok a, w).

Definition bind {A B} (c : M A) (k : A -> M B) : M B :=
  fun w => match c w with
           | (Ok a, w') => k a w'
           | (Raise e, w') => (Raise e, w')
           end.

Definition raise {A} (e : exn) : M A := fun w => (Raise e, w).

(** [try: body except Exception as e: handler e] *)
Definition try_except {A} (body : M A) (handler : exn -> M A) : M A :=
  fun w => match body w with
           | (Ok a, w') => (Ok a, w')
           | (Raise e, w') => handler e w'
           end.

(** [try: body finally: fin] *)
Definition try_finally {A} (body : M A) (fin : M unit) : M A :=
  fun w => match body w with
           | (r, w') => match fin w' with
                        | (Ok _, w'') => (r, w'')
                        | (Raise e, w'') => (Raise e, w'')
                        end
           end.

Declare Scope py_scope.
Delimit Scope py_scope with py.
Notation "x <- c ;; k" := (bind c (fun x => k))
  (at level 61, c at next level, right associativity) : py_scope.
Notation "' pat <- c ;; k" := (bind c (fun x => match x with pat => k end))
  (at level 61, pat pattern, c at next level, right associativity) : py_scope.
Notation "c ;; k" := (bind c (fun _ => k))
  (at level 61, right associativity) : py_scope.
Open Scope py_scope.

(** *** The clock *)

Definition datetime_now : M Z :=
  fun w => (Ok (clock w),
            mk_world (disk w) (ticks w) (faults w) (clock w + 1)
                     (draws w) (tape_random w) (tape_choice w)).

(** *** The random generator *)

Definition next_draw (w : world) : world :=
  mk_world (disk w) (ticks w) (faults w) (clock w)
           (S (draws w)) (tape_random w) (tape_choice w).

Definition random_random : M Q :=
  fun w => (Ok (tape_random w (draws w)), next_draw w).

(** [random.choice(seq)]: IndexError on an empty sequence, otherwise the
    element at an index below [len(seq)]. *)
Definition random_choice {A} (seq : list A) : M A :=
  fun w => match nth_error seq (Nat.modulo (tape_choice w (draws w)) (List.length seq)) with
           | Some a => (Ok a, next_draw w)
           | None => (Raise (IndexError "Cannot choose from an empty sequence"), w)
           end.

Definition Qlt_bool (x y : Q) : bool := negb (Qle_bool y x).

(** *** SQLite connections *)

Definition sqlite_call : M unit :=
  fun w =>
    let w' := mk_world (disk w) (S (ticks w)) (faults w) (clock w)
                       (draws w) (tape_random w) (tape_choice w) in
    match faults w (ticks w) with
    | Some msg => (Raise (sqlite3_Error msg), w')
    | None => (Ok tt, w')
    end.

(** [sqlite3.connect(...)]: a fresh view of the committed database. *)
Definition connect : M db := fun w => (Ok (disk w), w).

(** [cursor.execute] of a SELECT: the answer computed on the view. *)
Definition query {A} (conn : db) (q : db -> A) : M A :=
  sqlite_call ;; ret (q conn).

(** [cursor.execute] of an INSERT or UPDATE: the changed view. *)
Definition execute (conn : db) (stmt : db -> db) : M db :=
  sqlite_call ;; ret (stmt conn).

(** [conn.commit()] *)
Definition commit (conn : db) : M unit :=
  sqlite_call ;;
  fun w => (Ok tt, mk_world conn (ticks w) (faults w) (clock w)
                            (draws w) (tape_random w) (tape_choice w)).

(** [conn.rollback()]: the view goes back to the committed database. *)
Definition rollback (conn : db) : M db := fun w => (Ok (disk w), w).

(** [conn.close()]: what was not committed is lost with the view. *)
Definition close (conn : db) : M unit := ret tt.

(* ================================================================== *)
(** ** SQL statements *)
(* ================================================================== *)

Definition set_batches (d : db) (x : list submission_batch) (s : Z) : db :=
  mk_db (users d) x (farmer_payments d) (payment_history d)
        (activity_logs d) s (seq_payments d) (seq_history d) (seq_logs d).

Definition set_payments (d : db) (x : list farmer_payment) (s : Z) : db :=
  mk_db (users d) (submission_batches d) x (payment_history d)
        (activity_logs d) (seq_batches d) s (seq_history d) (seq_logs d).

Definition set_history (d : db) (x : list payment_history_row) (s : Z) : db :=
  mk_db (users d) (submission_batches d) (farmer_payments d) x
        (activity_logs d) (seq_batches d) (seq_payments d) s (seq_logs d).

Definition set_logs (d : db) (x : list activity_log) (s : Z) : db :=
  mk_db (users d) (submission_batches d) (farmer_payments d) (payment_history d)
        x (seq_batches d) (seq_payments d) (seq_history d) s.

(** SELECT cooperative_name FROM users WHERE id = ?  (fetchone) *)
Definition select_cooperative_name (user_id : Z) (d : db) : option string :=
  option_map u_cooperative_name (find (fun u => u_id u =? user_id) (users d)).

(** INSERT INTO activity_logs (timestamp, user_id, cooperative_name, action,
    details) VALUES (?, ?, ?, ?, ?) *)
Definition insert_activity_log (ts user_id : Z) (cooperative_name action details : string)
    (d : db) : db :=
  let id := seq_logs d + 1 in
  set_logs d (activity_logs d ++ [mk_log id ts user_id cooperative_name action details]) id.

(** INSERT INTO submission_batches (cooperative_id, filename, record_count,
    total_amount, submission_timestamp, status, cooperative_notes)
    VALUES (?, ?, ?, ?, ?, ?, ?);  admin_notes is left NULL. *)
Definition insert_submission_batch (cooperative_id : Z) (filename : string)
    (record_count : Z) (total_amount : sql_value) (ts : Z) (status : string)
    (cooperative_notes : option string) (d : db) : db :=
  let id := seq_batches d + 1 in
  set_batches d
    (submission_batches d ++
       [mk_batch id cooperative_id filename record_count total_amount ts status
                 None cooperative_notes])
    id.

(** [cursor.lastrowid] after an insert into submission_batches. *)
Definition lastrowid_batches (d : db) : Z := seq_batches d.

(** INSERT INTO farmer_payments (farmer_name, bank_name, account_number,
    amount, batch_id) VALUES (?, ?, ?, ?, ?);  status takes its DEFAULT
    'pending' and failure_reason is left NULL. *)
Definition insert_farmer_payment (farmer_name bank_name account_number : string)
    (amount batch_id : Z) (d : db) : db :=
  let id := seq_payments d + 1 in
  set_payments d
    (farmer_payments d ++
       [mk_payment id batch_id farmer_name bank_name account_number amount
                   "pending" None])
    id.

(** UPDATE submission_batches SET admin_notes = ? WHERE id = ? *)
Definition update_admin_notes (note : option string) (batch_id : Z) (d : db) : db :=
  set_batches d
    (map (fun b => if b_id b =? batch_id
                   then mk_batch (b_id b) (b_cooperative_id b) (b_filename b)
                          (b_record_count b) (b_total_amount b)
                          (b_submission_timestamp b) (b_status b)
                          note (b_cooperative_notes b)
                   else b)
         (submission_batches d))
    (seq_batches d).

(** UPDATE submission_batches SET status = 'processed' WHERE id = ? *)
Definition update_status_processed (batch_id : Z) (d : db) : db :=
  set_batches d
    (map (fun b => if b_id b =? batch_id
                   then mk_batch (b_id b) (b_cooperative_id b) (b_filename b)
                          (b_record_count b) (b_total_amount b)
                          (b_submission_timestamp b) "processed"
                          (b_admin_notes b) (b_cooperative_notes b)
                   else b)
         (submission_batches d))
    (seq_batches d).

(** SELECT u.cooperative_name, b.filename, b.record_count, b.total_amount
    FROM submission_batches b JOIN users u ON b.cooperative_id = u.id
    WHERE b.id = ?  (fetchone) *)
Definition select_batch_info (batch_id : Z) (d : db)
    : option (string * string * Z * sql_value) :=
  match find (fun b => b_id b =? batch_id) (submission_batches d) with
  | Some b =>
      match find (fun u => u_id u =? b_cooperative_id b) (users d) with
      | Some u => Some (u_cooperative_name u, b_filename b, b_record_count b,
                        b_total_amount b)
      | None => None
      end
  | None => None
  end.

(** SELECT id FROM farmer_payments WHERE batch_id = ?  (fetchall) *)
Definition select_payment_ids (batch_id : Z) (d : db) : list Z :=
  map p_id (filter (fun p => p_batch_id p =? batch_id) (farmer_payments d)).

(** UPDATE farmer_payments SET status = ?, failure_reason = ? WHERE id = ? *)
Definition set_outcome (status : string) (failure_reason : option string)
    (p : farmer_payment) : farmer_payment :=
  mk_payment (p_id p) (p_batch_id p) (p_farmer_name p) (p_bank_name p)
             (p_account_number p) (p_amount p) status failure_reason.

Definition update_payment (u : string * option string * Z) (p : farmer_payment)
    : farmer_payment :=
  let '(status, failure_reason, pid) := u in
  if p_id p =? pid then set_outcome status failure_reason p else p.

Definition update_farmer_payment (u : string * option string * Z) (d : db) : db :=
  set_payments d (map (update_payment u) (farmer_payments d)) (seq_payments d).

(** [cursor.executemany(stmt, payments)]: the statement once per tuple, in order. *)
Definition executemany_update_farmer_payment
    (payments : list (string * option string * Z)) (d : db) : db :=
  fold_left (fun d u => update_farmer_payment u d) payments d.

(** INSERT INTO payment_history (batch_id, cooperative_name, filename,
    record_count, total_amount, processing_timestamp) VALUES (?, ?, ?, ?, ?, ?) *)
Definition insert_payment_history (batch_id : Z) (cooperative_name filename : string)
    (record_count : Z) (total_amount : sql_value) (ts : Z) (d : db) : db :=
  let id := seq_history d + 1 in
  set_history d
    (payment_history d ++
       [mk_history id batch_id cooperative_name filename record_count total_amount ts])
    id.

(* ================================================================== *)
(** ** What the browser sends and receives *)
(* ================================================================== *)

(** The logged-in user kept in the [user-session] store. *)
Record session := mk_session {
  s_id : Z;
  s_username : string;
  s_role : string;
  s_cooperative_name : string
}.

(** One row of the editable data table. *)
Record table_row := mk_row {
  farmer_name : string;
  bank_name : string;
  account_number : string;
  amount : Z
}.

(** The value of a callback output: [dash.no_update] or a new value. *)
Inductive upd (A : Type) :=
| no_update
| set (a : A).
Arguments no_update {A}.
Arguments set {A} a.

(** The pieces of layout the callbacks return. *)
Inductive component :=
| empty_div                                     (* html.Div() *)
| empty_text                                    (* the empty string *)
| animation_step (progress : Z) (caption : string)
| payment_processed.                            (* progress 100, "Payment Processed!" *)

(** The component property that fired the callback. *)
Inductive prop_id :=
| pay_now_btn (index : Z)
| save_note_btn (index : Z)
| payment_interval
| payment_close_button
| other_prop.

Record triggered := mk_triggered {
  t_prop_id : prop_id;
  t_value : option Z
}.

(** The instant payment notification kept in the [ipn-data-store]. *)
Record ipn := mk_ipn {
  coop : string;
  success : Z;
  failed : Z;
  total : Z
}.

Definition str_Z (z : Z) : string := NilZero.string_of_int (Z.to_int z).

(** Python truth value of a click counter: [None] and [0] are false. *)
Definition truthy (n : option Z) : bool :=
  match n with
  | Some n => negb (n =? 0)
  | None => false
  end.

(** [session_data['id']] *)
Definition session_id (session_data : option session) : M Z :=
  match session_data with
  | Some s => ret (s_id s)
  | None => raise not_subscriptable
  end.

(* ================================================================== *)
(** ** Callbacks *)
(* ================================================================== *)

(** [log_activity(user_id, action, details)] *)
Definition log_activity (user_id : Z) (action details : string) : M unit :=
  conn <- connect ;;
  row <- query conn (select_cooperative_name user_id) ;;
  cooperative_name <- match row with
                      | Some c => ret c
                      | None => raise not_subscriptable
                      end ;;
  now <- datetime_now ;;
  conn <- execute conn (insert_activity_log now user_id cooperative_name action details) ;;
  commit conn ;;
  close conn.

(** [df_to_db.to_sql('farmer_payments', conn, if_exists='append', index=False)]:
    one INSERT per row of the frame, in order, through the caller's connection. *)
Fixpoint to_sql (conn : db) (batch_id : Z) (df : list table_row) : M db :=
  match df with
  | [] => ret conn
  | r :: df' =>
      conn <- execute conn
                (insert_farmer_payment (farmer_name r) (bank_name r)
                   (account_number r) (amount r) batch_id) ;;
      to_sql conn batch_id df'
  end.

(** [df['amount'].sum()]: the sum of an int64 column, a [numpy.int64]. *)
Definition sum_amount (df : list table_row) : Z :=
  fold_right (fun r acc => amount r + acc) 0 df.

Definition len {A} (l : list A) : Z := Z.of_nat (List.length l).

Definition submit_outputs : Type :=
  string * bool * string * upd component * upd Z.

(** [submit_to_admin(n_clicks, table_data, submission_data_store,
    session_data, coop_note)];  [submission_data_store] is given by the
    file name it holds, if any. *)
Definition submit_to_admin (n_clicks : option Z) (table_data : list table_row)
    (submission_data_store : option string) (session_data : option session)
    (coop_note : option string) : M submit_outputs :=
  if negb (truthy n_clicks) || (match table_data with [] => true | _ => false end)
  then ret ("", false, "", no_update, no_update)
  else
    let df := table_data in
    let filename := match submission_data_store with
                    | Some f => f
                    | None => "uploaded_file"
                    end in
    conn <- connect ;;
    try_finally
      (try_except
         (uid <- session_id session_data ;;
          now <- datetime_now ;;
          conn <- execute conn
                    (insert_submission_batch uid filename (len df)
                       (numpy_int64 (sum_amount df)) now "pending_approval"
                       coop_note) ;;
          let batch_id := lastrowid_batches conn in
          conn <- to_sql conn batch_id df ;;
          commit conn ;;
          uid <- session_id session_data ;;
          log_activity uid "Data Submission"
            ("Submitted '" ++ filename ++ "' with " ++ str_Z (len df) ++ " records.") ;;
          now <- datetime_now ;;
          ret ("Successfully submitted " ++ str_Z (len df) ++ " records.",
               true, "success", set empty_div, set now))
         (fun e =>
            rollback conn ;;
            ret ("Database error: " ++ str_exn e, true, "danger",
                 no_update, no_update)))
      (close conn).

(** [any(n_clicks)] *)
Definition any (n_clicks : list (option Z)) : bool := existsb truthy n_clicks.

(** [save_admin_note(n_clicks, notes)], fired by [callback_context.triggered]. *)
Definition save_admin_note (ctx_triggered : list triggered)
    (n_clicks : list (option Z)) (notes : list (option string))
    : M (bool * string * string) :=
  if negb (any n_clicks) then ret (false, "", "")
  else
    ctx <- match ctx_triggered with
           | t :: _ => ret t
           | [] => raise index_out_of_range
           end ;;
    batch_id <- match t_prop_id ctx with
                | pay_now_btn i | save_note_btn i => ret i
                | _ => raise (NameError "name is not defined")
                end ;;
    note_value <- match notes with
                  | n :: _ => ret n
                  | [] => raise index_out_of_range
                  end ;;
    try_except
      (conn <- connect ;;
       conn <- execute conn (update_admin_notes note_value batch_id) ;;
       commit conn ;;
       close conn ;;
       ret (true, "Response saved successfully!", "success"))
      (fun e => ret (true, "Error saving response: " ++ str_exn e, "danger")).

Definition reasons : list string := ["Invalid Account"; "Bank Error"; "Name Mismatch"].

(** The loop over the fetched payment ids: one draw of [random.random()]
    per id, and one of [random.choice(reasons)] when the payment fails. *)
Fixpoint draw_outcomes (pids : list Z) (payments : list (string * option string * Z))
    (success failed : Z) : M (list (string * option string * Z) * Z * Z) :=
  match pids with
  | [] => ret (payments, success, failed)
  | pid :: pids' =>
      r <- random_random ;;
      if Qlt_bool r (95 # 100)
      then draw_outcomes pids' (payments ++ [("paid", None, pid)]) (success + 1) failed
      else
        reason <- random_choice reasons ;;
        draw_outcomes pids' (payments ++ [("failed", Some reason, pid)])
                      success (failed + 1)
  end.

Definition payment_outputs : Type :=
  upd bool * upd bool * upd component * upd bool * upd (option Z) * upd ipn.

(** The branch of [handle_payment_processing] taken at the fifth tick of the
    payment interval: the batch is marked processed, every payment of the
    batch is paid or failed, and the history row is written. *)
Definition process_batch (batch_id : Z) (session_data : option session)
    : M payment_outputs :=
  conn <- connect ;;
  batch_info <- query conn (select_batch_info batch_id) ;;
  conn <- execute conn (update_status_processed batch_id) ;;
  pids <- query conn (select_payment_ids batch_id) ;;
  '(payments, success, failed) <- draw_outcomes pids [] 0 0 ;;
  conn <- execute conn (executemany_update_farmer_payment payments) ;;
  conn <- match batch_info with
          | Some (coop_name, filename, record_count, total_amount) =>
              now <- datetime_now ;;
              execute conn
                (insert_payment_history batch_id coop_name filename record_count
                   total_amount now)
          | None => ret conn
          end ;;
  commit conn ;;
  close conn ;;
  uid <- session_id session_data ;;
  match batch_info with
  | None => raise not_subscriptable
  | Some (coop_name, filename, record_count, total_amount) =>
      log_activity uid "Payment Processed"
        ("Processed '" ++ filename ++ "' for " ++ coop_name ++ ". Success: "
           ++ str_Z success ++ ", Failed: " ++ str_Z failed ++ ".") ;;
      ret (set true, set true, set payment_processed, set false, set None,
           set (mk_ipn coop_name success failed record_count))
  end.

Definition no_updates : payment_outputs :=
  (no_update, no_update, no_update, no_update, no_update, no_update).

(** [handle_payment_processing(pay_clicks, n_intervals, close_clicks,
    batch_id, session_data)], fired by [callback_context.triggered]. *)
Definition handle_payment_processing (ctx_triggered : list triggered)
    (n_intervals : Z) (batch_id : option Z) (session_data : option session)
    : M payment_outputs :=
  match ctx_triggered with
  | [] => ret no_updates
  | t :: _ =>
      match t_prop_id t, t_value t, batch_id with
      | pay_now_btn new_batch_id, Some _, _ =>
          ret (set true, set false, set (animation_step 5 "Initiating..."),
               set true, set (Some new_batch_id), no_update)
      | payment_interval, _, Some batch_id =>
          if n_intervals <? 4 then
            let progress := (n_intervals + 1) * 25 in
            ret (set true, set false, set (animation_step progress "Processing..."),
                 set true, set (Some batch_id), no_update)
          else process_batch batch_id session_data
      | payment_close_button, _, _ =>
          ret (set false, set true, set empty_text, set true, set None, no_update)
      | _, _, _ => ret no_updates
      end
  end.

(** [show_ipn_toast(data)] *)
Definition show_ipn_toast (data : option ipn) : bool * string * string * string :=
  match data with
  | None => (false, "", "", "")
  | Some data =>
      let header := "IPN: Transaction Complete" in
      let icon := if failed data >? 0 then "warning" else "success" in
      let body := coop data ++ ": Paid " ++ str_Z (success data) ++ "/"
                    ++ str_Z (total data) ++ " farmers. ("
                    ++ str_Z (failed data) ++ " failed)" in
      (true, header, body, icon)
  end.

(* ================================================================== *)
(** ** Notions used by the statements *)
(* ================================================================== *)

(** No SQLite call raises. *)
Definition fault_free (w : world) : Prop := forall k, faults w k = None.

(** A payment after a settlement attempt: paid without a reason, or failed
    with one of the three reasons. *)
Definition resolved (status : string) (failure_reason : option string) : Prop :=
  (status = "paid" /\ failure_reason = None) \/
  (status = "failed" /\ exists r, In r reasons /\ failure_reason = Some r).

Definition resolved_update (u : string * option string * Z) : Prop :=
  resolved (fst (fst u)) (snd (fst u)).

(** The tuples the loop of [draw_outcomes] appends for the ids [pids] when
    the generator stands at draw [d], and the draw it stops at. *)
Fixpoint outcomes (tr : nat -> Q) (tc : nat -> nat) (d : nat) (pids : list Z)
    : list (string * option string * Z) * nat :=
  match pids with
  | [] => ([], d)
  | pid :: pids' =>
      if Qlt_bool (tr d) (95 # 100)
      then let '(us, d') := outcomes tr tc (S d) pids' in
           (("paid", None, pid) :: us, d')
      else let '(us, d') := outcomes tr tc (S (S d)) pids' in
           (("failed", Some (nth (Nat.modulo (tc (S d)) 3) reasons ""), pid) :: us, d')
  end.

Fixpoint count_status (st : string) (us : list (string * option string * Z)) : Z :=
  match us with
  | [] => 0
  | (s, _, _) :: us' => (if String.eqb s st then 1 else 0) + count_status st us'
  end.

(** All the updates of a list applied to one row, in order. *)
Definition apply_updates (us : list (string * option string * Z)) (p : farmer_payment)
    : farmer_payment :=
  fold_left (fun p u => update_payment u p) us p.

(** The rows [to_sql] appends for a frame, given the last id handed out. *)
Fixpoint new_payments (seq batch_id : Z) (df : list table_row) : list farmer_payment :=
  match df with
  | [] => []
  | r :: df' =>
      mk_payment (seq + 1) batch_id (farmer_name r) (bank_name r) (account_number r)
                 (amount r) "pending" None
      :: new_payments (seq + 1) batch_id df'
  end.

(** The first SQLite call that raises among the [n] calls from call [t] on:
    how many calls succeed before it, and its message. *)
Fixpoint first_fault (f : nat -> option string) (t n : nat) : option (nat * string) :=
  match n with
  | O => None
  | S n' =>
      match f t with
      | Some msg => Some (O, msg)
      | None => match first_fault f (S t) n' with
                | Some (k, msg) => Some (S k, msg)
                | None => None
                end
      end
  end.


(** Foreign keys of the payments point at batches that were created. *)
Definition payments_reference_batches (d : db) : Prop :=
  Forall (fun p => p_batch_id p <= seq_batches d) (farmer_payments d).

(** Payment ids are unique and were handed out by the AUTOINCREMENT counter. *)
Definition payment_ids_issued (d : db) : Prop :=
  NoDup (map p_id (farmer_payments d)) /\
  Forall (fun p => p_id p <= seq_payments d) (farmer_payments d).

(** The two invariants of the payments table. *)
Definition well_formed (d : db) : Prop :=
  payments_reference_batches d /\ payment_ids_issued d.

(** The payments of a batch, in table order. *)
Definition payments_of (batch_id : Z) (d : db) : list farmer_payment :=
  filter (fun p => p_batch_id p =? batch_id) (farmer_payments d).

Definition row_of_payment (p : farmer_payment) : table_row :=
  mk_row (p_farmer_name p) (p_bank_name p) (p_account_number p) (p_amount p).

Definition sum_p_amount (ps : list farmer_payment) : Z :=
  fold_right (fun p acc => p_amount p + acc) 0 ps.

(** The outcomes [process_batch] draws for a batch. *)
Definition drawn (batch_id : Z) (w : world) : list (string * option string * Z) :=
  fst (outcomes (tape_random w) (tape_choice w) (draws w)
         (select_payment_ids batch_id (disk w))).

(** What [process_batch] has committed when it closes its connection, in a
    world where no SQLite call raises. *)
Definition settled (batch_id : Z) (w : world) : db :=
  let d1 := update_status_processed batch_id (disk w) in
  let d2 := executemany_update_farmer_payment (drawn batch_id w) d1 in
  match select_batch_info batch_id (disk w) with
  | Some (cn, fn, rc, ta) => insert_payment_history batch_id cn fn rc ta (clock w) d2
  | None => d2
  end.

(** What [process_batch] returns or raises in such a world. *)
Definition settle_result (batch_id : Z) (session_data : option session) (w : world)
    : result payment_outputs :=
  match session_data, select_batch_info batch_id (disk w) with
  | Some s, Some (cn, fn, rc, ta) =>
      match select_cooperative_name (s_id s) (disk w) with
      | Some _ =>
          Ok (set true, set true, set payment_processed, set false, set None,
              set (mk_ipn cn (count_status "paid" (drawn batch_id w))
                          (count_status "failed" (drawn batch_id w)) rc))
      | None => Raise not_subscriptable
      end
  | _, _ => Raise not_subscriptable
  end.

(** Two databases that differ at most in their activity log. *)
Definition same_but_logs (d d' : db) : Prop :=
  users d' = users d /\
  submission_batches d' = submission_batches d /\
  farmer_payments d' = farmer_payments d /\
  payment_history d' = payment_history d /\
  seq_batches d' = seq_batches d /\
  seq_payments d' = seq_payments d /\
  seq_history d' = seq_history d.

(** The instruction a payment row carries: settlement must not touch it. *)
Definition same_instruction (p p' : farmer_payment) : Prop :=
  p_id p' = p_id p /\ p_batch_id p' = p_batch_id p /\
  row_of_payment p' = row_of_payment p.

(** The batch row with its status replaced. *)
Definition with_status (st : string) (b : submission_batch) : submission_batch :=
  mk_batch (b_id b) (b_cooperative_id b) (b_filename b) (b_record_count b)
           (b_total_amount b) (b_submission_timestamp b) st
           (b_admin_notes b) (b_cooperative_notes b).

(** What UPDATE ... SET status = 'processed' WHERE id = ? does to a row. *)
Definition mark_processed (bid : Z) (b : submission_batch) : submission_batch :=
  if b_id b =? bid then with_status "processed" b else b.


(** The name under which a submission is filed. *)
Definition filename_of (submission_data_store : option string) : string :=
  match submission_data_store with
  | Some f => f
  | None => "uploaded_file"
  end.

(** The batch row a submission inserts. *)
Definition new_batch (s : session) (submission_data_store coop_note : option string)
    (df : list table_row) (w : world) : submission_batch :=
  mk_batch (seq_batches (disk w) + 1) (s_id s) (filename_of submission_data_store)
           (len df) (numpy_int64 (sum_amount df)) (clock w) "pending_approval" None
           coop_note.

(** The view of a connection after [to_sql] has appended a frame. *)
Definition appended (conn : db) (batch_id : Z) (df : list table_row) : db :=
  set_payments conn
    (farmer_payments conn ++ new_payments (seq_payments conn) batch_id df)
    (seq_payments conn + len df).

(** What a submission commits. *)
Definition submitted (s : session) (submission_data_store coop_note : option string)
    (df : list table_row) (w : world) : db :=
  appended
    (insert_submission_batch (s_id s) (filename_of submission_data_store) (len df)
       (numpy_int64 (sum_amount df)) (clock w) "pending_approval" coop_note (disk w))
    (seq_batches (disk w) + 1) df.

(** What [submit_to_admin] returns when its transaction is rolled back. *)
Definition error_outputs (msg : string) : submit_outputs :=
  ("Database error: " ++ msg, true, "danger", no_update, no_update).

(** What [submit_to_admin] returns when it does nothing. *)
Definition closed_alert : submit_outputs := ("", false, "", no_update, no_update).

(** The SQLite calls that persist a submission: the INSERT of the batch, one
    INSERT per row, and the commit. *)
Definition persisting_calls (df : list table_row) : nat := S (S (List.length df)).

(** Two batch rows that differ at most in the admin's note. *)
Definition same_but_note (b b' : submission_batch) : Prop :=
  b_id b' = b_id b /\
  b_cooperative_id b' = b_cooperative_id b /\
  b_filename b' = b_filename b /\
  b_record_count b' = b_record_count b /\
  b_total_amount b' = b_total_amount b /\
  b_submission_timestamp b' = b_submission_timestamp b /\
  b_status b' = b_status b /\
  b_cooperative_notes b' = b_cooperative_notes b.

(* ================================================================== *)
(** ** Users, login and the pages *)
(* ================================================================== *)

Definition set_users (d : db) (x : list user) : db :=
  mk_db x (submission_batches d) (farmer_payments d) (payment_history d)
        (activity_logs d) (seq_batches d) (seq_payments d) (seq_history d) (seq_logs d).

(** The id AUTOINCREMENT gives the next user.  The program never deletes a
    row, so the largest id handed out is the largest id in the table. *)
Definition next_user_id (d : db) : Z :=
  1 + fold_right (fun u m => Z.max (u_id u) m) 0 (users d).

(** INSERT OR IGNORE INTO users (username, password, role, cooperative_name)
    VALUES (?, ?, ?, ?);  username is UNIQUE. *)
Definition insert_or_ignore_user (row : string * string * string * string) (d : db)
    : db :=
  let '(username, password, role, cooperative_name) := row in
  if existsb (fun u => String.eqb (u_username u) username) (users d) then d
  else set_users d
         (users d ++ [mk_user (next_user_id d) username password role cooperative_name]).

(** CREATE TABLE IF NOT EXISTS ...: the tables of [db] are always there. *)
Definition create_table_if_not_exists (d : db) : db := d.

(** SELECT COUNT( * ) from users *)
Definition select_count_users (d : db) : Z := len (users d).

(** The users [init_db] adds to an empty table; [sha256] stands for
    [hashlib.sha256(s.encode()).hexdigest()]. *)
Definition users_to_add (sha256 : string -> string)
    : list (string * string * string * string) :=
  let admin_password := sha256 "admin123" in
  let coop_password := sha256 "coop123" in
  [("admin", admin_password, "admin", "Farmers Payment Module Admin");
   ("kcu", coop_password, "cooperative", "Kilimanjaro Cooperative Union");
   ("mbeyacof", coop_password, "cooperative", "Mbeya Coffee Union");
   ("dodoma_coop", coop_password, "cooperative", "Dodoma Grain Cooperative");
   ("tanga_coop", coop_password, "cooperative", "Tanga Sisal Cooperative");
   ("iringa_coop", coop_password, "cooperative", "Iringa Maize Cooperative");
   ("morogoro_coop", coop_password, "cooperative", "Morogoro Rice Cooperative");
   ("ruvuma_coop", coop_password, "cooperative", "Ruvuma Cashew Cooperative")].

(** The loop [for user in users_to_add: cursor.execute(INSERT OR IGNORE ...)]. *)
Fixpoint insert_users (conn : db) (rows : list (string * string * string * string))
    : M db :=
  match rows with
  | [] => ret conn
  | row :: rows' =>
      conn <- execute conn (insert_or_ignore_user row) ;;
      insert_users conn rows'
  end.

(** [init_db()] *)
Definition init_db (sha256 : string -> string) : M unit :=
  conn <- connect ;;
  conn <- execute conn create_table_if_not_exists ;;   (* users *)
  conn <- execute conn create_table_if_not_exists ;;   (* submission_batches *)
  conn <- execute conn create_table_if_not_exists ;;   (* farmer_payments *)
  conn <- execute conn create_table_if_not_exists ;;   (* payment_history *)
  conn <- execute conn create_table_if_not_exists ;;   (* activity_logs *)
  count <- query conn select_count_users ;;
  conn <- (if count =? 0 then insert_users conn (users_to_add sha256) else ret conn) ;;
  commit conn ;;
  close conn.

(** SELECT id, password, role, cooperative_name FROM users WHERE username = ?
    (fetchone) *)
Definition select_user_by_username (username : string) (d : db) : option user :=
  find (fun u => String.eqb (u_username u) username) (users d).

(** The session dictionary built for a user row. *)
Definition session_of (username : string) (u : user) : session :=
  mk_session (u_id u) username (u_role u) (u_cooperative_name u).

(** [authenticate_user(username, password)] *)
Definition authenticate_user (sha256 : string -> string) (username password : string)
    : M (option session) :=
  conn <- connect ;;
  user <- query conn (select_user_by_username username) ;;
  close conn ;;
  match user with
  | Some u =>
      if String.eqb (u_password u) (sha256 password)
      then ret (Some (session_of username u))
      else ret None
  | None => ret None
  end.

(** Python truth value of a text input: [None] and the empty string are false. *)
Definition truthy_str (s : option string) : bool :=
  match s with
  | Some s => negb (String.eqb s "")
  | None => false
  end.

Definition str_of (s : option string) : string :=
  match s with
  | Some s => s
  | None => ""
  end.

(** [dbc.Alert(message, color=color)] *)
Record alert := mk_alert {
  a_message : string;
  a_color : string
}.

(** [handle_login(n_clicks, username, password)] *)
Definition handle_login (sha256 : string -> string) (n_clicks : option Z)
    (username password : option string) : M (upd (option session) * option alert) :=
  if negb (truthy_str username) || negb (truthy_str password)
  then ret (no_update, Some (mk_alert "Fields cannot be empty." "warning"))
  else
    user <- authenticate_user sha256 (str_of username) (str_of password) ;;
    match user with
    | Some user =>
        log_activity (s_id user) "Login"
          ("User '" ++ s_username user ++ "' logged in.") ;;
        ret (set (Some user), None)
    | None => ret (set None, Some (mk_alert "Invalid credentials." "danger"))
    end.

(** [handle_logout(n_clicks)] *)
Definition handle_logout (n_clicks : option Z) : upd (option session) :=
  if truthy n_clicks then set None else no_update.

(** The three layouts, by what tells them apart. *)
Inductive page :=
| login_layout
| admin_layout
| cooperative_layout (brand : string).

(** [display_page(session_data)] *)
Definition display_page (session_data : option session) : page :=
  match session_data with
  | Some s =>
      if String.eqb (s_role s) "admin" then admin_layout
      else if String.eqb (s_role s) "cooperative"
           then cooperative_layout (s_cooperative_name s)
           else login_layout
  | None => login_layout
  end.

(* ================================================================== *)
(** ** The admin's dashboard *)
(* ================================================================== *)

(** [not session_data or session_data.get("role") != "admin"], negated. *)
Definition is_admin (session_data : option session) : bool :=
  match session_data with
  | Some s => String.eqb (s_role s) "admin"
  | None => false
  end.

(** SELECT SUM(amount) FROM farmer_payments WHERE status = 'paid';  NULL when
    no row is paid. *)
Definition select_sum_paid (d : db) : option Z :=
  match filter (fun p => String.eqb (p_status p) "paid") (farmer_payments d) with
  | [] => None
  | paid => Some (sum_p_amount paid)
  end.

(** SELECT COUNT(id) FROM farmer_payments WHERE status = 'paid' *)
Definition select_count_paid (d : db) : Z :=
  len (filter (fun p => String.eqb (p_status p) "paid") (farmer_payments d)).

(** SELECT COUNT(id) FROM submission_batches WHERE status = 'pending_approval' *)
Definition select_count_pending (d : db) : Z :=
  len (filter (fun b => String.eqb (b_status b) "pending_approval")
              (submission_batches d)).

(** SELECT COUNT(id) FROM users WHERE role = 'cooperative' *)
Definition select_count_cooperatives (d : db) : Z :=
  len (filter (fun u => String.eqb (u_role u) "cooperative") (users d)).

(** [x or 0] *)
Definition or_0 (x : option Z) : Z :=
  match x with
  | Some z => z
  | None => 0
  end.

(** The figures on the cards of [update_kpi_cards]. *)
Record kpi := mk_kpi {
  kpi_tmx_amount_received : Z;
  kpi_deposit_date : Z;
  kpi_total_paid : Z;
  kpi_farmers_paid_count : Z;
  kpi_pending_submissions : Z;
  kpi_coop_count : Z
}.

(** [update_kpi_cards(session_data, ipn_data, submission_trigger)] *)
Definition update_kpi_cards (session_data : option session) : M (option kpi) :=
  if negb (is_admin session_data) then ret None
  else
    conn <- connect ;;
    let tmx_amount_received := 500000000 in
    total_paid <- query conn select_sum_paid ;;
    farmers_paid_count <- query conn select_count_paid ;;
    pending_submissions <- query conn select_count_pending ;;
    coop_count <- query conn select_count_cooperatives ;;
    close conn ;;
    now <- datetime_now ;;
    ret (Some (mk_kpi tmx_amount_received now (or_0 total_paid) farmers_paid_count
                      pending_submissions coop_count)).

(** ORDER BY key DESC, by insertion; rows with equal keys keep their order. *)
Fixpoint insert_desc {A} (key : A -> Z) (x : A) (l : list A) : list A :=
  match l with
  | [] => [x]
  | y :: l' => if key y <=? key x then x :: l else y :: insert_desc key x l'
  end.

Definition order_by_desc {A} (key : A -> Z) (l : list A) : list A :=
  fold_right (insert_desc key) [] l.

(** SELECT b.id, u.cooperative_name, b.filename, b.record_count, b.total_amount
    FROM submission_batches b JOIN users u ON b.cooperative_id = u.id
    WHERE b.status = 'pending_approval' ORDER BY b.submission_timestamp DESC;
    a row is kept as the batch and the user it joins. *)
Definition select_pending_batches (d : db) : list (submission_batch * user) :=
  order_by_desc (fun r => b_submission_timestamp (fst r))
    (flat_map
       (fun b => map (pair b)
                     (filter (fun u => u_id u =? b_cooperative_id b) (users d)))
       (filter (fun b => String.eqb (b_status b) "pending_approval")
               (submission_batches d))).

(** One card of the dashboard; [card_index] is the index of its two buttons,
    View Details and Pay Now. *)
Record card := mk_card {
  card_cooperative_name : string;
  card_filename : string;
  card_record_count : Z;
  card_total_amount : Z;
  card_index : Z
}.

(** [f"{row['total_amount']:,.2f}"]: a number is formatted, here kept as
    the number; bytes have no such format. *)
Definition format_amount (v : sql_value) : M Z :=
  match v with
  | sql_real r => ret r
  | sql_blob _ =>
      raise (TypeError "unsupported format string passed to bytes.__format__")
  end.

(** The card of one row of the selection. *)
Definition card_of (r : submission_batch * user) : M card :=
  total_amount <- format_amount (b_total_amount (fst r)) ;;
  ret (mk_card (u_cooperative_name (snd r)) (b_filename (fst r))
               (b_record_count (fst r)) total_amount (b_id (fst r))).

(** The comprehension [[dbc.Card(...) for _, row in batches_df.iterrows()]]. *)
Fixpoint render_cards (rows : list (submission_batch * user)) : M (list card) :=
  match rows with
  | [] => ret []
  | r :: rows' =>
      cd <- card_of r ;;
      cards <- render_cards rows' ;;
      ret (cd :: cards)
  end.

Inductive dashboard :=
| no_pending_submissions                  (* the alert "No pending submissions found." *)
| pending_submissions (cards : list card).

(** [render_admin_dashboard(session_data, ipn_data, submission_trigger)] *)
Definition render_admin_dashboard (session_data : option session)
    : M (option dashboard) :=
  if negb (is_admin session_data) then ret None
  else
    conn <- connect ;;
    batches_df <- query conn select_pending_batches ;;
    close conn ;;
    match batches_df with
    | [] => ret (Some no_pending_submissions)
    | _ =>
        cards <- render_cards batches_df ;;
        ret (Some (pending_submissions cards))
    end.

(** The id of a button of a pattern-matching callback, as decoded from
    [callback_context.triggered[0]['prop_id']]. *)
Record pattern_id := mk_pattern_id {
  pat_type : string;
  pat_index : Z
}.

(** SELECT farmer_name, bank_name, account_number, amount FROM farmer_payments
    WHERE batch_id = ? *)
Definition select_payment_rows (batch_id : Z) (d : db) : list table_row :=
  map row_of_payment (payments_of batch_id d).

(** SELECT admin_notes, cooperative_notes FROM submission_batches WHERE id = ? *)
Definition select_notes (batch_id : Z) (d : db)
    : list (option string * option string) :=
  map (fun b => (b_admin_notes b, b_cooperative_notes b))
      (filter (fun b => b_id b =? batch_id) (submission_batches d)).

(** What the details dialog shows. *)
Record details := mk_details {
  det_batch_id : Z;                  (* header, and index of the note widgets *)
  det_rows : list table_row;         (* the data table *)
  det_coop_note : option string;     (* the cooperative's note, if it has one *)
  det_admin_note : string            (* value of the admin's text area *)
}.

(** [toggle_details_modal(n_clicks)], fired by [callback_context.triggered]. *)
Definition toggle_details_modal (ctx_triggered : list pattern_id)
    (n_clicks : list (option Z)) : M (bool * option details) :=
  if negb (any n_clicks) then ret (false, None)
  else
    t <- match ctx_triggered with
         | t :: _ => ret t
         | [] => raise index_out_of_range
         end ;;
    let batch_id := pat_index t in
    conn <- connect ;;
    df <- query conn (select_payment_rows batch_id) ;;
    notes_df <- query conn (select_notes batch_id) ;;
    close conn ;;
    notes <- match notes_df with
             | r :: _ => ret r
             | [] => raise (IndexError "single positional indexer is out-of-bounds")
             end ;;
    let admin_note := str_of (fst notes) in
    let coop_note := snd notes in
    ret (true,
         Some (mk_details batch_id df
                 (if truthy_str coop_note then coop_note else None) admin_note)).

(** One row of the results dialog. *)
Record result_row := mk_result_row {
  r_farmer_name : string;
  r_bank_name : string;
  r_account_number : string;
  r_amount : Z;
  r_status : string;
  r_failure_reason : option string
}.

(** SELECT farmer_name, bank_name, account_number, amount, status,
    failure_reason FROM farmer_payments WHERE batch_id = ? *)
Definition select_payment_results (batch_id : Z) (d : db) : list result_row :=
  map (fun p => mk_result_row (p_farmer_name p) (p_bank_name p) (p_account_number p)
                              (p_amount p) (p_status p) (p_failure_reason p))
      (payments_of batch_id d).

(** [show_coop_results_modal(n_clicks)], fired by [callback_context.triggered]:
    the batch id of the header and the rows of the table. *)
Definition show_coop_results_modal (ctx_triggered : list pattern_id)
    (n_clicks : list (option Z)) : M (bool * option (Z * list result_row)) :=
  if negb (any n_clicks) then ret (false, None)
  else
    t <- match ctx_triggered with
         | t :: _ => ret t
         | [] => raise index_out_of_range
         end ;;
    let batch_id := pat_index t in
    conn <- connect ;;
    df <- query conn (select_payment_results batch_id) ;;
    close conn ;;
    ret (true, Some (batch_id, df)).

(* ================================================================== *)
(** ** Sample stores *)
(* ================================================================== *)

Definition sample_users : list user :=
  [mk_user 1 "admin" "240be518" "admin" "Farmers Payment Module Admin";
   mk_user 2 "kcu" "5e884898" "cooperative" "Kilimanjaro Cooperative Union"].

Definition admin_session : option session :=
  Some (mk_session 1 "admin" "admin" "Farmers Payment Module Admin").

Definition kcu_session : option session :=
  Some (mk_session 2 "kcu" "cooperative" "Kilimanjaro Cooperative Union").

(** A freshly initialised database: the users and nothing else. *)
Definition fresh_db : db := mk_db sample_users [] [] [] [] 0 0 0 0.

(** One pending batch of one payment of 1000, its total recorded as a
    number. *)
Definition pending_db : db :=
  mk_db sample_users
    [mk_batch 1 2 "farmers.csv" 1 1000 10 "pending_approval" None None]
    [mk_payment 1 1 "Asha Mrema" "CRDB" "0150331" 1000 "pending" None]
    [] [] 1 1 0 0.

(** The same batch once it has been processed and its payment paid. *)
Definition processed_db : db :=
  mk_db sample_users
    [mk_batch 1 2 "farmers.csv" 1 1000 10 "processed" None None]
    [mk_payment 1 1 "Asha Mrema" "CRDB" "0150331" 1000 "paid" None]
    [mk_history 1 1 "Kilimanjaro Cooperative Union" "farmers.csv" 1 1000 20]
    [] 1 1 1 0.

Definition no_faults : nat -> option string := fun _ => None.

(** A generator whose [random.random()] always returns 0: every payment is paid. *)
Definition always_paid : nat -> Q := fun _ => 0 # 1.

(** A generator whose [random.random()] always returns 0.99: every payment fails. *)
Definition always_failed : nat -> Q := fun _ => 99 # 100.

(** A data table with one row that no validation would let through. *)
Definition invalid_rows : list table_row := [mk_row "" "" "" (-5)].

(** The three payments of 1000, 2500 and 750. *)
Definition three_rows : list table_row :=
  [mk_row "Asha Mrema" "CRDB" "0150331" 1000;
   mk_row "Baraka Mushi" "NMB" "2204117" 2500;
   mk_row "Neema Swai" "NBC" "0119920" 750].

(** SQLite raises at the given call and at no other. *)
Definition fault_at (n : nat) : nat -> option string :=
  fun k => if Nat.eqb k n then Some "database is locked" else None.

Definition faulty_world (d : db) (n : nat) : world :=
  mk_world d 0 (fault_at n) 100 0 (fun _ => 0 # 1) (fun _ => 0%nat).


Definition sample_world (d : db) (tr : nat -> Q) : world :=
  mk_world d 0 no_faults 100 0 tr (fun _ => 0%nat).

(** A stand-in for SHA-256 that agrees with the passwords stored in
    [sample_users]. *)
Definition sample_sha256 (s : string) : string :=
  if String.eqb s "admin123" then "240be518"
  else if String.eqb s "coop123" then "5e884898"
  else s.

(** A database file with no user yet. *)
Definition blank_db : db := mk_db [] [] [] [] [] 0 0 0 0.

(** The users table [init_db] leaves in a database that had no user. *)
Definition initial_users (sha256 : string -> string) : list user :=
  [mk_user 1 "admin" (sha256 "admin123") "admin" "Farmers Payment Module Admin";
   mk_user 2 "kcu" (sha256 "coop123") "cooperative" "Kilimanjaro Cooperative Union";
   mk_user 3 "mbeyacof" (sha256 "coop123") "cooperative" "Mbeya Coffee Union";
   mk_user 4 "dodoma_coop" (sha256 "coop123") "cooperative" "Dodoma Grain Cooperative";
   mk_user 5 "tanga_coop" (sha256 "coop123") "cooperative" "Tanga Sisal Cooperative";
   mk_user 6 "iringa_coop" (sha256 "coop123") "cooperative" "Iringa Maize Cooperative";
   mk_user 7 "morogoro_coop" (sha256 "coop123") "cooperative"
           "Morogoro Rice Cooperative";
   mk_user 8 "ruvuma_coop" (sha256 "coop123") "cooperative" "Ruvuma Cashew Cooperative"].

(** The username, the password and the role of each default account. *)
Definition default_credentials : list (string * string * string) :=
  [("admin", "admin123", "admin");
   ("kcu", "coop123", "cooperative");
   ("mbeyacof", "coop123", "cooperative");
   ("dodoma_coop", "coop123", "cooperative");
   ("tanga_coop", "coop123", "cooperative");
   ("iringa_coop", "coop123", "cooperative");
   ("morogoro_coop", "coop123", "cooperative");
   ("ruvuma_coop", "coop123", "cooperative")].

(** Two databases that differ at most in their users. *)
Definition same_but_users (d d' : db) : Prop :=
  submission_batches d' = submission_batches d /\
  farmer_payments d' = farmer_payments d /\
  payment_history d' = payment_history d /\
  activity_logs d' = activity_logs d /\
  seq_batches d' = seq_batches d /\
  seq_payments d' = seq_payments d /\
  seq_history d' = seq_history d /\
  seq_logs d' = seq_logs d.

(** The cards a dashboard shows. *)
Definition cards_of (dash : dashboard) : list card :=
  match dash with
  | no_pending_submissions => []
  | pending_submissions cards => cards
  end.

(** The number of rows of a results table in a given status. *)
Definition count_rows (st : string) (rows : list result_row) : Z :=
  len (filter (fun r => String.eqb (r_status r) st) rows).

(** Batch ids were handed out by the AUTOINCREMENT counter. *)
Definition batch_ids_issued (d : db) : Prop :=
  Forall (fun b => b_id b <= seq_batches d) (submission_batches d).

(** Every payment belongs to a batch that is in the batches table. *)
Definition foreign_keys_hold (d : db) : Prop :=
  Forall (fun p => In (p_batch_id p) (map b_id (submission_batches d)))
         (farmer_payments d).




(** Two databases with the same batches, payments and counters for them. *)
Definition same_batches_and_payments (d d' : db) : Prop :=
  submission_batches d' = submission_batches d /\
  farmer_payments d' = farmer_payments d /\
  seq_batches d' = seq_batches d /\
  seq_payments d' = seq_payments d.

(* ================================================================== *)
(** ** Running the primitives *)
(* ================================================================== *)

(** Steps through the SQLite calls of a callback in a world where [H] says
    that no call raises. *)
Ltac run_sqlite H :=
  unfold connect, query, execute, commit, close, rollback, sqlite_call, datetime_now,
         session_id, bind, ret, raise;
  repeat (progress (cbn [disk ticks faults clock draws tape_random tape_choice];
                    rewrite ?H)).

Lemma random_choice_reasons w :
  random_choice reasons w =
  (Ok (nth (Nat.modulo (tape_choice w (draws w)) 3) reasons ""), next_draw w).
Proof.
  unfold random_choice. simpl List.length.
  assert (Hlt : (Nat.modulo (tape_choice w (draws w)) 3 < 3)%nat)
    by (apply Nat.mod_upper_bound; discriminate).
  destruct (Nat.modulo (tape_choice w (draws w)) 3) as [|[|[|n]]]; try reflexivity.
  lia.
Qed.

Lemma nth_reasons_In k : In (nth (Nat.modulo k 3) reasons "") reasons.
Proof.
  apply nth_In. change (List.length reasons) with 3%nat.
  apply Nat.mod_upper_bound. discriminate.
Qed.

Lemma count_status_cons st s r i us :
  count_status st ((s, r, i) :: us) =
  (if String.eqb s st then 1 else 0) + count_status st us.
Proof. reflexivity. Qed.

Lemma draw_outcomes_run pids :
  forall payments s f dk t fl c d tr tc,
    draw_outcomes pids payments s f (mk_world dk t fl c d tr tc) =
    (Ok ((payments ++ fst (outcomes tr tc d pids))%list,
         s + count_status "paid" (fst (outcomes tr tc d pids)),
         f + count_status "failed" (fst (outcomes tr tc d pids))),
     mk_world dk t fl c (snd (outcomes tr tc d pids)) tr tc).
Proof.
  induction pids as [|pid pids IH]; intros.
  - simpl. rewrite app_nil_r, !Z.add_0_r. reflexivity.
  - cbn [draw_outcomes outcomes]. unfold bind at 1. unfold random_random at 1.
    cbn [tape_random draws].
    destruct (Qlt_bool (tr d) (95 # 100)).
    + unfold next_draw; cbn [disk ticks faults clock draws tape_random tape_choice].
      rewrite IH.
      destruct (outcomes tr tc (S d) pids) as [us d'] eqn:E. cbn [fst snd].
      rewrite <- app_assoc. cbn [app]. rewrite !count_status_cons.
      change (String.eqb "paid" "paid") with true.
      change (String.eqb "paid" "failed") with false.
      rewrite Z.add_0_l, Z.add_assoc. reflexivity.
    + unfold bind at 1. rewrite random_choice_reasons.
      unfold next_draw; cbn [disk ticks faults clock draws tape_random tape_choice].
      rewrite IH.
      destruct (outcomes tr tc (S (S d)) pids) as [us d'] eqn:E. cbn [fst snd].
      rewrite <- app_assoc. cbn [app]. rewrite !count_status_cons.
      change (String.eqb "failed" "paid") with false.
      change (String.eqb "failed" "failed") with true.
      rewrite Z.add_0_l, Z.add_assoc. reflexivity.
Qed.

Lemma outcomes_pids tr tc pids : forall d,
  map snd (fst (outcomes tr tc d pids)) = pids.
Proof.
  induction pids as [|pid pids IH]; intros d; simpl; [reflexivity|].
  destruct (Qlt_bool (tr d) (95 # 100)).
  - specialize (IH (S d)). destruct (outcomes tr tc (S d) pids). simpl in *. now f_equal.
  - specialize (IH (S (S d))). destruct (outcomes tr tc (S (S d)) pids). simpl in *.
    now f_equal.
Qed.

Lemma outcomes_resolved tr tc pids : forall d,
  Forall resolved_update (fst (outcomes tr tc d pids)).
Proof.
  induction pids as [|pid pids IH]; intros d; simpl; [constructor|].
  destruct (Qlt_bool (tr d) (95 # 100)).
  - specialize (IH (S d)). destruct (outcomes tr tc (S d) pids). simpl in *.
    constructor; [left; split; reflexivity | assumption].
  - specialize (IH (S (S d))). destruct (outcomes tr tc (S (S d)) pids). simpl in *.
    constructor; [|assumption].
    right. split; [reflexivity|]. eexists. split; [apply nth_reasons_In | reflexivity].
Qed.

Lemma log_activity_run uid action details dk t fl c d tr tc :
  (forall k, fl k = None) ->
  log_activity uid action details (mk_world dk t fl c d tr tc) =
  match select_cooperative_name uid dk with
  | Some cn =>
      (Ok tt, mk_world (insert_activity_log c uid cn action details dk)
                       (S (S (S t))) fl (c + 1) d tr tc)
  | None => (Raise not_subscriptable, mk_world dk (S t) fl c d tr tc)
  end.
Proof.
  intros H. unfold log_activity. run_sqlite H.
  destruct (select_cooperative_name uid dk); run_sqlite H; reflexivity.
Qed.

Lemma executemany_spec us : forall d,
  executemany_update_farmer_payment us d =
  set_payments d (map (apply_updates us) (farmer_payments d)) (seq_payments d).
Proof.
  unfold executemany_update_farmer_payment, apply_updates.
  induction us as [|u us IH]; intros d.
  - cbn [fold_left]. rewrite map_id. destruct d; reflexivity.
  - cbn [fold_left]. rewrite IH. unfold update_farmer_payment, set_payments.
    cbn [farmer_payments users submission_batches payment_history activity_logs
         seq_batches seq_payments seq_history seq_logs].
    rewrite map_map. reflexivity.
Qed.

Lemma same_but_logs_refl d : same_but_logs d d.
Proof. repeat split. Qed.

Lemma same_but_logs_insert ts uid cn a dt d :
  same_but_logs d (insert_activity_log ts uid cn a dt d).
Proof. repeat split. Qed.

Lemma settled_users bid w : users (settled bid w) = users (disk w).
Proof.
  unfold settled. rewrite executemany_spec.
  destruct (select_batch_info bid (disk w)) as [[[[cn fn] rc] ta]|]; reflexivity.
Qed.

(** [process_batch] in a world where no SQLite call raises. *)
Lemma process_batch_run bid session dk t fl c d tr tc :
  (forall k, fl k = None) ->
  let w := mk_world dk t fl c d tr tc in
  exists D t' c',
    process_batch bid session w =
    (settle_result bid session w,
     mk_world D t' fl c'
       (snd (outcomes tr tc d (select_payment_ids bid dk))) tr tc)
    /\ same_but_logs (settled bid w) D.
Proof.
  intros H w. subst w. unfold process_batch.
  run_sqlite H. rewrite draw_outcomes_run. run_sqlite H.
  change (select_payment_ids bid (update_status_processed bid dk))
    with (select_payment_ids bid dk).
  unfold settle_result, settled, drawn.
  cbn [disk ticks faults clock draws tape_random tape_choice app].
  rewrite !Z.add_0_l.
  set (us := fst (outcomes tr tc d (select_payment_ids bid dk))).
  destruct (select_batch_info bid dk) as [[[[cn fn] rc] ta]|] eqn:Ei.
  - run_sqlite H. destruct session as [s|].
    + rewrite log_activity_run by exact H.
      replace (select_cooperative_name (s_id s)
                 (insert_payment_history bid cn fn rc ta c
                    (executemany_update_farmer_payment us
                       (update_status_processed bid dk))))
        with (select_cooperative_name (s_id s) dk)
        by (rewrite executemany_spec; reflexivity).
      destruct (select_cooperative_name (s_id s) dk) as [ucn|].
      * do 3 eexists. split; [reflexivity|]. apply same_but_logs_insert.
      * do 3 eexists. split; [reflexivity|]. apply same_but_logs_refl.
    + do 3 eexists. split; [reflexivity|]. apply same_but_logs_refl.
  - run_sqlite H. destruct session as [s|];
      do 3 eexists; (split; [reflexivity|]); apply same_but_logs_refl.
Qed.

(* ================================================================== *)
(** ** Updates applied to one payment row *)
(* ================================================================== *)

Lemma update_payment_id u p : p_id (update_payment u p) = p_id p.
Proof.
  destruct u as [[st fr] pid]. unfold update_payment.
  destruct (p_id p =? pid); reflexivity.
Qed.

Lemma update_payment_batch_id u p : p_batch_id (update_payment u p) = p_batch_id p.
Proof.
  destruct u as [[st fr] pid]. unfold update_payment.
  destruct (p_id p =? pid); reflexivity.
Qed.

Lemma update_payment_row u p :
  row_of_payment (update_payment u p) = row_of_payment p.
Proof.
  destruct u as [[st fr] pid]. unfold update_payment.
  destruct (p_id p =? pid); reflexivity.
Qed.

Lemma update_payment_cases u p :
  (p_id p = snd u /\ update_payment u p = set_outcome (fst (fst u)) (snd (fst u)) p)
  \/ (p_id p <> snd u /\ update_payment u p = p).
Proof.
  destruct u as [[st fr] pid]. unfold update_payment. cbn [fst snd].
  destruct (Z.eqb_spec (p_id p) pid); [left | right]; split; auto.
Qed.

Lemma apply_updates_cons u us p :
  apply_updates (u :: us) p = apply_updates us (update_payment u p).
Proof. reflexivity. Qed.

Lemma apply_updates_id us : forall p, p_id (apply_updates us p) = p_id p.
Proof.
  induction us as [|u us IH]; intros p; [reflexivity|].
  rewrite apply_updates_cons, IH. apply update_payment_id.
Qed.

Lemma apply_updates_batch_id us : forall p,
  p_batch_id (apply_updates us p) = p_batch_id p.
Proof.
  induction us as [|u us IH]; intros p; [reflexivity|].
  rewrite apply_updates_cons, IH. apply update_payment_batch_id.
Qed.

Lemma apply_updates_row us : forall p,
  row_of_payment (apply_updates us p) = row_of_payment p.
Proof.
  induction us as [|u us IH]; intros p; [reflexivity|].
  rewrite apply_updates_cons, IH. apply update_payment_row.
Qed.

(** A row no update names is left as it is. *)
Lemma apply_updates_untouched us : forall p,
  ~ In (p_id p) (map snd us) -> apply_updates us p = p.
Proof.
  induction us as [|u us IH]; intros p Hn; [reflexivity|].
  rewrite apply_updates_cons.
  destruct (update_payment_cases u p) as [[He _] | [_ Hu]].
  - exfalso. apply Hn. left. symmetry. exact He.
  - rewrite Hu. apply IH. intros Hin. apply Hn. right. exact Hin.
Qed.

(** A row some update names ends resolved, whatever it was before. *)
Lemma apply_updates_resolved us : forall p,
  Forall resolved_update us ->
  resolved (p_status p) (p_failure_reason p) \/ In (p_id p) (map snd us) ->
  resolved (p_status (apply_updates us p)) (p_failure_reason (apply_updates us p)).
Proof.
  induction us as [|u us IH]; intros p Hall Hp.
  - destruct Hp as [Hp | []]. exact Hp.
  - rewrite apply_updates_cons. inversion Hall as [|u' us' Hu Hus]; subst.
    apply IH; [exact Hus|].
    destruct (update_payment_cases u p) as [[He Hup] | [Hne Hup]]; rewrite Hup.
    + left. exact Hu.
    + destruct Hp as [Hp | [Hp | Hp]].
      * left. exact Hp.
      * exfalso. apply Hne. symmetry. exact Hp.
      * right. exact Hp.
Qed.




(* ================================================================== *)
(** ** The tables after a settlement *)
(* ================================================================== *)

Lemma settled_payments bid w :
  farmer_payments (settled bid w) =
  map (apply_updates (drawn bid w)) (farmer_payments (disk w)).
Proof.
  unfold settled. rewrite executemany_spec.
  destruct (select_batch_info bid (disk w)) as [[[[cn fn] rc] ta]|]; reflexivity.
Qed.

Lemma settled_batches bid w :
  submission_batches (settled bid w) =
  submission_batches (update_status_processed bid (disk w)).
Proof.
  unfold settled. rewrite executemany_spec.
  destruct (select_batch_info bid (disk w)) as [[[[cn fn] rc] ta]|]; reflexivity.
Qed.

Lemma settled_history bid w :
  payment_history (settled bid w) =
  match select_batch_info bid (disk w) with
  | Some (cn, fn, rc, ta) =>
      (payment_history (disk w) ++
         [mk_history (seq_history (disk w) + 1) bid cn fn rc ta (clock w)])%list
  | None => payment_history (disk w)
  end.
Proof.
  unfold settled. rewrite executemany_spec.
  destruct (select_batch_info bid (disk w)) as [[[[cn fn] rc] ta]|]; reflexivity.
Qed.

Lemma drawn_pids bid w : map snd (drawn bid w) = select_payment_ids bid (disk w).
Proof. apply outcomes_pids. Qed.

Lemma drawn_resolved bid w : Forall resolved_update (drawn bid w).
Proof. apply outcomes_resolved. Qed.

(** What [process_batch] leaves on disk, table by table. *)
Lemma process_batch_disk bid session w :
  fault_free w ->
  same_but_logs (settled bid w) (disk (snd (process_batch bid session w))).
Proof.
  intros H. destruct w as [dk t fl c d tr tc].
  destruct (process_batch_run bid session dk t fl c d tr tc H) as (D & t' & c' & E & S).
  rewrite E. exact S.
Qed.

Lemma process_batch_result bid session w :
  fault_free w ->
  fst (process_batch bid session w) = settle_result bid session w.
Proof.
  intros H. destruct w as [dk t fl c d tr tc].
  destruct (process_batch_run bid session dk t fl c d tr tc H) as (D & t' & c' & E & S).
  rewrite E. reflexivity.
Qed.

Lemma process_batch_payments bid session w :
  fault_free w ->
  farmer_payments (disk (snd (process_batch bid session w))) =
  map (apply_updates (drawn bid w)) (farmer_payments (disk w)).
Proof.
  intros H. destruct (process_batch_disk bid session w H) as (_ & _ & E & _).
  rewrite E. apply settled_payments.
Qed.

Lemma In_select_payment_ids p bid d :
  In p (farmer_payments d) -> p_batch_id p = bid ->
  In (p_id p) (select_payment_ids bid d).
Proof.
  intros Hin Hb. unfold select_payment_ids. apply in_map.
  apply filter_In. split; [exact Hin|]. apply Z.eqb_eq. exact Hb.
Qed.

Lemma resolved_reason_iff st fr :
  resolved st fr ->
  (fr <> None <-> st = "failed") /\ (st = "paid" -> fr = None).
Proof.
  intros [[Hs Hf] | [Hs [r [_ Hf]]]]; subst; repeat split;
    intros; try discriminate; try congruence.
Qed.

Lemma Forall2_map_r {A B} (R : A -> B -> Prop) (f : A -> B) (l : list A) :
  (forall x, In x l -> R x (f x)) -> Forall2 R l (map f l).
Proof.
  induction l as [|a l IH]; intros H; cbn [map]; constructor.
  - apply H. left. reflexivity.
  - apply IH. intros x Hx. apply H. right. exact Hx.
Qed.

Lemma NoDup_map_eq {A B} (f : A -> B) (l : list A) :
  NoDup (map f l) -> forall x y, In x l -> In y l -> f x = f y -> x = y.
Proof.
  induction l as [|a l IH]; intros Hnd x y Hx Hy E; [destruct Hx|].
  cbn [map] in Hnd. inversion Hnd as [|b m Hnotin Hnd']; subst.
  destruct Hx as [Hx | Hx], Hy as [Hy | Hy]; subst.
  - reflexivity.
  - exfalso. apply Hnotin. rewrite E. apply in_map. exact Hy.
  - exfalso. apply Hnotin. rewrite <- E. apply in_map. exact Hx.
  - apply IH; assumption.
Qed.

(* ================================================================== *)
(** ** Settlement and the line items *)
(* ================================================================== *)

(** C7.  After a settlement pass, every line item of the batch has a failure
    reason if and only if its status is [failed]; a [paid] item has none. *)
Theorem settlement_failure_reason_iff_failed w bid session :
  fault_free w ->
  Forall (fun p => (p_failure_reason p <> None <-> p_status p = "failed") /\
                   (p_status p = "paid" -> p_failure_reason p = None))
         (payments_of bid (disk (snd (process_batch bid session w)))).
Proof.
  intros H. apply Forall_forall. intros p Hp.
  unfold payments_of in Hp. apply filter_In in Hp. destruct Hp as [Hin Hb].
  rewrite (process_batch_payments bid session w H) in Hin.
  apply in_map_iff in Hin. destruct Hin as [q [Eq Hq]]. subst p.
  rewrite apply_updates_batch_id in Hb. apply Z.eqb_eq in Hb.
  apply resolved_reason_iff. apply apply_updates_resolved.
  - apply drawn_resolved.
  - right. rewrite drawn_pids. apply In_select_payment_ids; assumption.
Qed.

Lemma settlement_failure_reason_iff_failed_witness :
  Forall (fun p => (p_failure_reason p <> None <-> p_status p = "failed") /\
                   (p_status p = "paid" -> p_failure_reason p = None))
         (payments_of 1
            (disk (snd (process_batch 1 admin_session
                          (sample_world pending_db always_failed))))).
Proof.
  apply (settlement_failure_reason_iff_failed
           (sample_world pending_db always_failed) 1 admin_session).
  intros k. reflexivity.
Defined.

(** C4, as the code has it.  Settlement draws one outcome for every line item
    of the batch, whatever the item's status, in the order of the table; each
    outcome is [paid] or [failed] with one of the three reasons, and is written
    to the row with that id.  With ids unique, every row of the batch ends
    resolved and keeps its instruction, and the rows of other batches are
    untouched. *)
Theorem settlement_resolves_every_payment w bid session :
  fault_free w ->
  NoDup (map p_id (farmer_payments (disk w))) ->
  (exists us,
      map snd us = map p_id (payments_of bid (disk w)) /\
      Forall resolved_update us /\
      farmer_payments (disk (snd (process_batch bid session w))) =
      map (apply_updates us) (farmer_payments (disk w))) /\
  Forall2 (fun p p' =>
             same_instruction p p' /\
             (p_batch_id p = bid -> resolved (p_status p') (p_failure_reason p')) /\
             (p_batch_id p <> bid -> p' = p))
          (farmer_payments (disk w))
          (farmer_payments (disk (snd (process_batch bid session w)))).
Proof.
  intros H Hnd. rewrite (process_batch_payments bid session w H). split.
  - exists (drawn bid w). split; [apply drawn_pids|].
    split; [apply drawn_resolved | reflexivity].
  - apply Forall2_map_r. intros p Hp. split; [|split].
    + repeat split.
      * apply apply_updates_id.
      * apply apply_updates_batch_id.
      * apply apply_updates_row.
    + intros Hb. apply apply_updates_resolved; [apply drawn_resolved|].
      right. rewrite drawn_pids. apply In_select_payment_ids; assumption.
    + intros Hb. apply apply_updates_untouched. rewrite drawn_pids.
      unfold select_payment_ids. intros Hin. apply in_map_iff in Hin.
      destruct Hin as [q [Eid Hq]]. apply filter_In in Hq. destruct Hq as [Hq Hqb].
      apply Z.eqb_eq in Hqb.
      assert (q = p) by (apply (NoDup_map_eq p_id _ Hnd); assumption).
      subst q. contradiction.
Qed.

Lemma settlement_resolves_every_payment_witness :
  (exists us,
      map snd us = map p_id (payments_of 1 processed_db) /\
      Forall resolved_update us /\
      farmer_payments
        (disk (snd (process_batch 1 admin_session
                      (sample_world processed_db always_failed)))) =
      map (apply_updates us) (farmer_payments processed_db)) /\
  Forall2 (fun p p' =>
             same_instruction p p' /\
             (p_batch_id p = 1 -> resolved (p_status p') (p_failure_reason p')) /\
             (p_batch_id p <> 1 -> p' = p))
          (farmer_payments processed_db)
          (farmer_payments
             (disk (snd (process_batch 1 admin_session
                           (sample_world processed_db always_failed))))).
Proof.
  apply (settlement_resolves_every_payment
           (sample_world processed_db always_failed) 1 admin_session).
  - intros k. reflexivity.
  - cbn. constructor; [intros [] | constructor].
Defined.

(** C4 fails as stated: a line item that is already [paid] is read again and
    resolved again, here to [failed]. *)
Lemma settlement_rereads_paid_item :
  payments_of 1 processed_db =
    [mk_payment 1 1 "Asha Mrema" "CRDB" "0150331" 1000 "paid" None] /\
  payments_of 1
    (disk (snd (process_batch 1 admin_session
                  (sample_world processed_db always_failed)))) =
    [mk_payment 1 1 "Asha Mrema" "CRDB" "0150331" 1000 "failed"
                (Some "Invalid Account")].
Proof. split; reflexivity. Qed.

(* ================================================================== *)
(** ** Settlement and the batch row *)
(* ================================================================== *)

Lemma process_batch_batches bid session w :
  fault_free w ->
  submission_batches (disk (snd (process_batch bid session w))) =
  map (mark_processed bid) (submission_batches (disk w)).
Proof.
  intros H. destruct (process_batch_disk bid session w H) as (_ & E & _).
  rewrite E, settled_batches. reflexivity.
Qed.

Lemma process_batch_history bid session w :
  fault_free w ->
  payment_history (disk (snd (process_batch bid session w))) =
  match select_batch_info bid (disk w) with
  | Some (cn, fn, rc, ta) =>
      (payment_history (disk w) ++
         [mk_history (seq_history (disk w) + 1) bid cn fn rc ta (clock w)])%list
  | None => payment_history (disk w)
  end.
Proof.
  intros H. destruct (process_batch_disk bid session w H) as (_ & _ & _ & E & _).
  rewrite E. apply settled_history.
Qed.

Lemma process_batch_users bid session w :
  fault_free w ->
  users (disk (snd (process_batch bid session w))) = users (disk w).
Proof.
  intros H. destruct (process_batch_disk bid session w H) as (E & _).
  rewrite E. apply settled_users.
Qed.

Lemma process_batch_faults bid session w :
  fault_free w -> faults (snd (process_batch bid session w)) = faults w.
Proof.
  intros H. destruct w as [dk t fl c d tr tc].
  destruct (process_batch_run bid session dk t fl c d tr tc H) as (D & t' & c' & E & S).
  rewrite E. reflexivity.
Qed.

Lemma mark_processed_total bid b :
  b_total_amount (mark_processed bid b) = b_total_amount b.
Proof. unfold mark_processed. destruct (b_id b =? bid); reflexivity. Qed.





Lemma select_batch_info_found bid d b u :
  find (fun b => b_id b =? bid) (submission_batches d) = Some b ->
  find (fun u => u_id u =? b_cooperative_id b) (users d) = Some u ->
  select_batch_info bid d =
  Some (u_cooperative_name u, b_filename b, b_record_count b, b_total_amount b).
Proof. intros Hb Hu. unfold select_batch_info. rewrite Hb, Hu. reflexivity. Qed.

Lemma handle_payment_processing_interval v rest n bid session :
  (n <? 4) = false ->
  handle_payment_processing (mk_triggered payment_interval v :: rest) n
    (Some bid) session = process_batch bid session.
Proof.
  intros Hn. unfold handle_payment_processing. cbn [t_prop_id t_value].
  rewrite Hn. destruct v; reflexivity.
Qed.

(** C2, as the code has it.  Neither step of the Pay Now path looks at the
    status of the batch.  The click on Pay Now opens the payment dialog and
    remembers the batch id without touching the database; the fifth tick of
    the payment interval marks the batch [processed] whatever its status was,
    leaves the other batches alone, and, the batch and the users being there,
    returns the notification.  No [InvalidStateError] is raised. *)
Theorem settlement_is_not_guarded_by_status w i v iv rest n cur bid session :
  fault_free w ->
  (n <? 4) = false ->
  handle_payment_processing (mk_triggered (pay_now_btn i) (Some v) :: rest) n cur
    session w =
    (Ok (set true, set false, set (animation_step 5 "Initiating..."),
         set true, set (Some i), no_update), w)
  /\
  let run := handle_payment_processing (mk_triggered payment_interval iv :: rest) n
               (Some bid) session w in
  Forall2 (fun b b' => if b_id b =? bid then b' = with_status "processed" b
                       else b' = b)
          (submission_batches (disk w))
          (submission_batches (disk (snd run)))
  /\
  (forall s, session = Some s ->
             select_batch_info bid (disk w) <> None ->
             select_cooperative_name (s_id s) (disk w) <> None ->
             exists note,
               fst run = Ok (set true, set true, set payment_processed,
                             set false, set None, set note)).
Proof.
  intros H Hn. split; [reflexivity|].
  cbv zeta. rewrite handle_payment_processing_interval by exact Hn. split.
  - rewrite (process_batch_batches bid session w H).
    apply Forall2_map_r. intros b _. unfold mark_processed.
    destruct (b_id b =? bid); reflexivity.
  - intros s Hs Hinfo Hname. subst session.
    rewrite (process_batch_result bid (Some s) w H). unfold settle_result.
    destruct (select_batch_info bid (disk w)) as [[[[cn fn] rc] ta]|];
      [|contradiction].
    destruct (select_cooperative_name (s_id s) (disk w)); [|contradiction].
    eexists. reflexivity.
Qed.

Lemma settlement_is_not_guarded_by_status_witness :
  handle_payment_processing [mk_triggered (pay_now_btn 1) (Some 1)] 4 None
    admin_session (sample_world processed_db always_paid) =
    (Ok (set true, set false, set (animation_step 5 "Initiating..."),
         set true, set (Some 1), no_update),
     sample_world processed_db always_paid)
  /\
  let run := handle_payment_processing [mk_triggered payment_interval (Some 1)] 4
               (Some 1) admin_session (sample_world processed_db always_paid) in
  Forall2 (fun b b' => if b_id b =? 1 then b' = with_status "processed" b
                       else b' = b)
          (submission_batches (disk (sample_world processed_db always_paid)))
          (submission_batches (disk (snd run)))
  /\
  (forall s, admin_session = Some s ->
             select_batch_info 1 (disk (sample_world processed_db always_paid))
               <> None ->
             select_cooperative_name (s_id s)
               (disk (sample_world processed_db always_paid)) <> None ->
             exists note,
               fst run = Ok (set true, set true, set payment_processed,
                             set false, set None, set note)).
Proof.
  apply (settlement_is_not_guarded_by_status
           (sample_world processed_db always_paid) 1 1 (Some 1) [] 4 None 1
           admin_session).
  - intros k. reflexivity.
  - reflexivity.
Defined.

(** C2 fails as stated: on a batch that is already [processed] the processing
    step raises nothing, returns its notification and writes a second history
    row. *)
Lemma processed_batch_is_settled_again :
  map b_status (submission_batches processed_db) = ["processed"] /\
  let run := handle_payment_processing [mk_triggered payment_interval (Some 4)] 4
               (Some 1) admin_session (sample_world processed_db always_paid) in
  fst run = Ok (set true, set true, set payment_processed, set false, set None,
                set (mk_ipn "Kilimanjaro Cooperative Union" 1 0 1)) /\
  List.length (payment_history processed_db) = 1%nat /\
  List.length (payment_history (disk (snd run))) = 2%nat /\
  disk (snd run) <> processed_db.
Proof.
  split; [reflexivity|]. cbv zeta. split; [reflexivity|].
  split; [reflexivity|]. split; [reflexivity|].
  intros E. apply (f_equal (fun d => List.length (payment_history d))) in E.
  vm_compute in E. discriminate.
Qed.

(** C6, as the code has it.  Settlement never changes the total amount
    recorded on a batch, and the history row it writes carries that total as
    read from the batch row.  The notification it returns carries no amount:
    its [total] is the batch's record count, the denominator of "Paid k/n
    farmers". *)
Theorem settlement_keeps_submitted_total w bid s b u :
  fault_free w ->
  find (fun b => b_id b =? bid) (submission_batches (disk w)) = Some b ->
  find (fun u => u_id u =? b_cooperative_id b) (users (disk w)) = Some u ->
  select_cooperative_name (s_id s) (disk w) <> None ->
  let run := process_batch bid (Some s) w in
  map b_total_amount (submission_batches (disk (snd run))) =
    map b_total_amount (submission_batches (disk w))
  /\
  (exists h,
      payment_history (disk (snd run)) = (payment_history (disk w) ++ [h])%list /\
      h_batch_id h = bid /\ h_total_amount h = b_total_amount b /\
      h_record_count h = b_record_count b)
  /\
  (exists note,
      fst run = Ok (set true, set true, set payment_processed, set false,
                    set None, set note) /\
      total note = b_record_count b).
Proof.
  intros H Hb Hu Hs. cbv zeta.
  pose proof (select_batch_info_found bid (disk w) b u Hb Hu) as Hinfo.
  split; [|split].
  - rewrite (process_batch_batches bid (Some s) w H), map_map.
    apply map_ext. intros x. apply mark_processed_total.
  - rewrite (process_batch_history bid (Some s) w H), Hinfo.
    eexists. split; [reflexivity|]. repeat split.
  - rewrite (process_batch_result bid (Some s) w H). unfold settle_result.
    rewrite Hinfo.
    destruct (select_cooperative_name (s_id s) (disk w)); [|contradiction].
    eexists. split; reflexivity.
Qed.

Lemma settlement_keeps_submitted_total_witness :
  let run := process_batch 1 admin_session (sample_world pending_db always_failed) in
  map b_total_amount (submission_batches (disk (snd run))) = [sql_real 1000]
  /\
  (exists h,
      payment_history (disk (snd run)) = ([] ++ [h])%list /\
      h_batch_id h = 1 /\ h_total_amount h = 1000 /\ h_record_count h = 1)
  /\
  (exists note,
      fst run = Ok (set true, set true, set payment_processed, set false,
                    set None, set note) /\
      total note = 1).
Proof.
  apply (settlement_keeps_submitted_total
           (sample_world pending_db always_failed) 1
           (mk_session 1 "admin" "admin" "Farmers Payment Module Admin")
           (mk_batch 1 2 "farmers.csv" 1 1000 10 "pending_approval" None None)
           (mk_user 2 "kcu" "5e884898" "cooperative" "Kilimanjaro Cooperative Union")).
  - intros k. reflexivity.
  - reflexivity.
  - reflexivity.
  - discriminate.
Defined.

(** C6 fails as stated: the result of settling a batch of one payment of 1000
    carries the total 1, the number of records, not the amount 1000 recorded
    on the batch. *)
Lemma notification_total_is_not_the_amount :
  map b_total_amount (submission_batches pending_db) = [sql_real 1000] /\
  fst (process_batch 1 admin_session (sample_world pending_db always_paid)) =
    Ok (set true, set true, set payment_processed, set false, set None,
        set (mk_ipn "Kilimanjaro Cooperative Union" 1 0 1)) /\
  total (mk_ipn "Kilimanjaro Cooperative Union" 1 0 1) <> 1000.
Proof. split; [reflexivity|]. split; [reflexivity|]. discriminate. Qed.

(* ================================================================== *)
(** ** Settling a batch a second time *)
(* ================================================================== *)






(* ================================================================== *)
(** ** SQLite calls that raise *)
(* ================================================================== *)

Lemma first_fault_snoc f n : forall t,
  first_fault f t (S n) =
  match first_fault f t n with
  | Some x => Some x
  | None => match f (t + n)%nat with
            | Some msg => Some (n, msg)
            | None => None
            end
  end.
Proof.
  induction n as [|n IH]; intros t.
  - cbn [first_fault]. rewrite Nat.add_0_r. destruct (f t); reflexivity.
  - change (first_fault f t (S (S n)))
      with (match f t with
            | Some msg => Some (O, msg)
            | None => match first_fault f (S t) (S n) with
                      | Some (k, msg) => Some (S k, msg)
                      | None => None
                      end
            end).
    rewrite IH. cbn [first_fault].
    destruct (f t); [reflexivity|].
    destruct (first_fault f (S t) n) as [[k msg]|]; [reflexivity|].
    replace (S t + n)%nat with (t + S n)%nat by lia.
    destruct (f (t + S n)%nat); reflexivity.
Qed.

Lemma first_fault_none f n : forall t,
  first_fault f t n = None <-> (forall k, (k < n)%nat -> f (t + k)%nat = None).
Proof.
  induction n as [|n IH]; intros t.
  - split; [intros _ k Hk; lia | reflexivity].
  - rewrite first_fault_snoc. split.
    + intros H k Hk.
      destruct (first_fault f t n) as [x|] eqn:E; [discriminate|].
      destruct (f (t + n)%nat) eqn:En; [discriminate|].
      destruct (Nat.eq_dec k n) as [->|Hne]; [exact En|].
      apply (proj1 (IH t) E). lia.
    + intros H.
      rewrite (proj2 (IH t)) by (intros k Hk; apply H; lia).
      rewrite H by lia. reflexivity.
Qed.

Lemma first_fault_some f n : forall t k msg,
  first_fault f t n = Some (k, msg) -> (k < n)%nat /\ f (t + k)%nat = Some msg.
Proof.
  induction n as [|n IH]; intros t k msg H; [discriminate|].
  rewrite first_fault_snoc in H.
  destruct (first_fault f t n) as [[k' msg']|] eqn:E.
  - inversion H; subst. destruct (IH t k msg E). split; [lia | assumption].
  - destruct (f (t + n)%nat) eqn:En; [|discriminate].
    inversion H; subst. split; [lia | exact En].
Qed.

Lemma first_fault_exists f n t :
  (exists k, (k < n)%nat /\ f (t + k)%nat <> None) ->
  exists k msg, first_fault f t n = Some (k, msg).
Proof.
  intros [k [Hk Hf]].
  destruct (first_fault f t n) as [[j msg]|] eqn:E; [eauto|].
  exfalso. apply Hf. apply (proj1 (first_fault_none f n t) E). exact Hk.
Qed.

Lemma len_cons {A} (a : A) (l : list A) : len (a :: l) = 1 + len l.
Proof. unfold len. cbn [List.length]. lia. Qed.

(** [to_sql]: the rows are appended up to the first INSERT that raises. *)
Lemma to_sql_run bid df : forall conn dk t fl c d tr tc,
  to_sql conn bid df (mk_world dk t fl c d tr tc) =
  match first_fault fl t (List.length df) with
  | None => (Ok (appended conn bid df),
             mk_world dk (t + List.length df) fl c d tr tc)
  | Some (k, msg) => (Raise (sqlite3_Error msg),
                      mk_world dk (S (t + k)) fl c d tr tc)
  end.
Proof.
  induction df as [|r df IH]; intros.
  - cbn [to_sql first_fault List.length]. unfold ret, appended.
    rewrite Nat.add_0_r. change (len []) with 0.
    cbn [new_payments]. rewrite app_nil_r, Z.add_0_r. destruct conn; reflexivity.
  - cbn [to_sql first_fault List.length].
    unfold bind at 1. unfold execute, bind, sqlite_call, ret.
    cbn [disk ticks faults clock draws tape_random tape_choice].
    destruct (fl t) as [msg|].
    + rewrite Nat.add_0_r. reflexivity.
    + rewrite IH. destruct (first_fault fl (S t) (List.length df)) as [[k msg]|].
      * replace (S (S t + k)) with (S (t + S k)) by lia. reflexivity.
      * replace (S t + List.length df)%nat with (t + S (List.length df))%nat by lia.
        f_equal. f_equal. unfold appended, insert_farmer_payment, set_payments.
        cbn [farmer_payments users submission_batches payment_history activity_logs
             seq_batches seq_payments seq_history seq_logs new_payments].
        rewrite <- app_assoc, len_cons. cbn [app]. f_equal. lia.
Qed.

(** [log_activity] writes to the activity log and to nothing else, whichever
    of its calls raise. *)
Lemma log_activity_frame uid action details dk t fl c d tr tc :
  exists r D t' c',
    log_activity uid action details (mk_world dk t fl c d tr tc) =
    (r, mk_world D t' fl c' d tr tc) /\ same_but_logs dk D.
Proof.
  unfold log_activity, connect, query, execute, commit, close, sqlite_call,
    datetime_now, bind, ret, raise.
  cbn [disk ticks faults clock draws tape_random tape_choice].
  destruct (fl t).
  { do 4 eexists. split; [reflexivity | apply same_but_logs_refl]. }
  destruct (select_cooperative_name uid dk).
  2:{ do 4 eexists. split; [reflexivity | apply same_but_logs_refl]. }
  cbn [disk ticks faults clock draws tape_random tape_choice].
  destruct (fl (S t)).
  { do 4 eexists. split; [reflexivity | apply same_but_logs_refl]. }
  cbn [disk ticks faults clock draws tape_random tape_choice].
  destruct (fl (S (S t))).
  { do 4 eexists. split; [reflexivity | apply same_but_logs_refl]. }
  do 4 eexists. split; [reflexivity | apply same_but_logs_insert].
Qed.

(* ================================================================== *)
(** ** Submission *)
(* ================================================================== *)

(** [submit_to_admin] on a clicked, non-empty table: either one of the
    persisting calls raises and the error is reported, or the transaction is
    committed. *)
Lemma submit_to_admin_run n_clicks df store session note dk t fl c d tr tc :
  truthy n_clicks = true -> df <> [] ->
  let w := mk_world dk t fl c d tr tc in
  match session with
  | None =>
      submit_to_admin n_clicks df store session note w =
      (Ok (error_outputs (str_exn not_subscriptable)), w)
  | Some s =>
      match first_fault fl t (persisting_calls df) with
      | Some (k, msg) =>
          submit_to_admin n_clicks df store session note w =
          (Ok (error_outputs msg), mk_world dk (S (t + k)) fl (c + 1) d tr tc)
      | None =>
          exists r D t' c',
            submit_to_admin n_clicks df store session note w =
            (Ok r, mk_world D t' fl c' d tr tc) /\
            same_but_logs (submitted s store note df w) D
      end
  end.
Proof.
  intros Hc Hdf w. subst w. unfold submit_to_admin, persisting_calls. rewrite Hc.
  destruct df as [|r0 df0]; [contradiction|]. cbn [negb orb].
  set (df := r0 :: df0).
  unfold try_finally, try_except.
  unfold connect, execute, commit, close, rollback, sqlite_call, datetime_now,
         session_id, bind, ret, raise.
  cbn [disk ticks faults clock draws tape_random tape_choice].
  destruct session as [s|]; [|reflexivity].
  cbn [disk ticks faults clock draws tape_random tape_choice].
  change (first_fault fl t (S (S (List.length df))))
    with (match fl t with
          | Some msg => Some (O, msg)
          | None => match first_fault fl (S t) (S (List.length df)) with
                    | Some (k, msg) => Some (S k, msg)
                    | None => None
                    end
          end).
  rewrite first_fault_snoc.
  destruct (fl t) as [msg|].
  { rewrite Nat.add_0_r. reflexivity. }
  rewrite to_sql_run.
  destruct (first_fault fl (S t) (List.length df)) as [[k msg]|].
  { replace (S (S t + k)) with (S (t + S k)) by lia. reflexivity. }
  cbn [disk ticks faults clock draws tape_random tape_choice].
  destruct (fl (S t + List.length df)%nat) as [msg|].
  { replace (S (S t + List.length df)) with (S (t + S (List.length df))) by lia.
    reflexivity. }
  cbn [disk ticks faults clock draws tape_random tape_choice].
  match goal with
  | |- context [log_activity ?u ?a ?dt (mk_world ?dk' ?t1 fl ?c1 d tr tc)] =>
      destruct (log_activity_frame u a dt dk' t1 fl c1 d tr tc)
        as (r & D & t' & c' & E & HS); rewrite E
  end.
  destruct r as [[]|e];
    cbn [disk ticks faults clock draws tape_random tape_choice];
    do 4 eexists; (split; [reflexivity | exact HS]).
Qed.

Lemma submitted_batches s store note df w :
  submission_batches (submitted s store note df w) =
  (submission_batches (disk w) ++ [new_batch s store note df w])%list.
Proof. reflexivity. Qed.

Lemma submitted_payments s store note df w :
  farmer_payments (submitted s store note df w) =
  (farmer_payments (disk w) ++
     new_payments (seq_payments (disk w)) (seq_batches (disk w) + 1) df)%list.
Proof. reflexivity. Qed.

(** When none of the persisting calls raises, the batch row and the payment
    rows are in the file after the call. *)
Lemma submit_to_admin_commits w n_clicks df store s note :
  truthy n_clicks = true ->
  df <> [] ->
  (forall k, (k < persisting_calls df)%nat -> faults w (ticks w + k)%nat = None) ->
  let run := submit_to_admin n_clicks df store (Some s) note w in
  submission_batches (disk (snd run)) =
    (submission_batches (disk w) ++ [new_batch s store note df w])%list /\
  farmer_payments (disk (snd run)) =
    (farmer_payments (disk w) ++
       new_payments (seq_payments (disk w)) (seq_batches (disk w) + 1) df)%list.
Proof.
  intros Hc Hdf Hk. cbv zeta. destruct w as [dk t fl c d tr tc].
  pose proof (submit_to_admin_run n_clicks df store (Some s) note dk t fl c d tr tc
                Hc Hdf) as R.
  cbv zeta in R. cbn [disk ticks faults] in Hk.
  rewrite (proj2 (first_fault_none fl (persisting_calls df) t) Hk) in R.
  destruct R as (r & D & t' & c' & E & HS). rewrite E. cbn [snd disk].
  destruct HS as (_ & Eb & Ep & _). rewrite Eb, Ep. split; reflexivity.
Qed.

(** C10.  Persisting a submission is all or nothing.  The batch row and the
    payment rows are written through one connection and become visible at
    its commit: when any of the persisting calls raises (or the session is
    missing), the transaction is rolled back, the database file is what it
    was and the error is reported; when none raises, the batch row and all
    the payment rows are in the file together. *)
Theorem submission_is_all_or_nothing w n_clicks df store session note :
  truthy n_clicks = true ->
  df <> [] ->
  let run := submit_to_admin n_clicks df store session note w in
  (session = None \/
   (exists k, (k < persisting_calls df)%nat /\ faults w (ticks w + k)%nat <> None) ->
   disk (snd run) = disk w /\
   exists msg, fst run = Ok (error_outputs msg))
  /\
  (forall s,
      session = Some s ->
      (forall k, (k < persisting_calls df)%nat -> faults w (ticks w + k)%nat = None) ->
      submission_batches (disk (snd run)) =
        (submission_batches (disk w) ++ [new_batch s store note df w])%list /\
      farmer_payments (disk (snd run)) =
        (farmer_payments (disk w) ++
           new_payments (seq_payments (disk w)) (seq_batches (disk w) + 1) df)%list).
Proof.
  intros Hc Hdf. cbv zeta. destruct w as [dk t fl c d tr tc].
  pose proof (submit_to_admin_run n_clicks df store session note dk t fl c d tr tc
                Hc Hdf) as R.
  cbv zeta in R. cbn [disk ticks faults]. split.
  - intros [Hs | Hk].
    + subst session. rewrite R. split; [reflexivity | eexists; reflexivity].
    + destruct session as [s|].
      * destruct (first_fault_exists fl (persisting_calls df) t Hk) as (k & msg & E).
        rewrite E in R. rewrite R. split; [reflexivity | eexists; reflexivity].
      * rewrite R. split; [reflexivity | eexists; reflexivity].
  - intros s Hs Hk. subst session.
    apply (submit_to_admin_commits (mk_world dk t fl c d tr tc)); assumption.
Qed.

Lemma submission_is_all_or_nothing_witness :
  (disk (snd (submit_to_admin (Some 1) three_rows (Some "farmers.csv") kcu_session
                None (faulty_world fresh_db 2))) = fresh_db /\
   exists msg,
     fst (submit_to_admin (Some 1) three_rows (Some "farmers.csv") kcu_session
            None (faulty_world fresh_db 2)) = Ok (error_outputs msg))
  /\
  (map b_id (submission_batches
               (disk (snd (submit_to_admin (Some 1) three_rows (Some "farmers.csv")
                             kcu_session None (sample_world fresh_db always_paid)))))
     = [1] /\
   map p_batch_id (farmer_payments
               (disk (snd (submit_to_admin (Some 1) three_rows (Some "farmers.csv")
                             kcu_session None (sample_world fresh_db always_paid)))))
     = [1; 1; 1]).
Proof.
  split.
  - apply (submission_is_all_or_nothing (faulty_world fresh_db 2) (Some 1)
             three_rows (Some "farmers.csv") kcu_session None).
    + reflexivity.
    + discriminate.
    + right. exists 2%nat. split; [vm_compute; lia | discriminate].
  - destruct (submission_is_all_or_nothing (sample_world fresh_db always_paid)
                (Some 1) three_rows (Some "farmers.csv") kcu_session None
                eq_refl) as [_ H].
    + discriminate.
    + destruct (H (mk_session 2 "kcu" "cooperative" "Kilimanjaro Cooperative Union")
                  eq_refl (fun k _ => eq_refl)) as [Eb Ep].
      rewrite Eb, Ep. split; reflexivity.
Defined.

Lemma submit_to_admin_ok n_clicks df store s note dk t fl c d tr tc :
  (forall k, fl k = None) ->
  truthy n_clicks = true -> df <> [] ->
  select_cooperative_name (s_id s) dk <> None ->
  exists D t',
    submit_to_admin n_clicks df store (Some s) note (mk_world dk t fl c d tr tc) =
    (Ok ("Successfully submitted " ++ str_Z (len df) ++ " records.", true,
         "success", set empty_div, set (c + 2)),
     mk_world D t' fl (c + 3) d tr tc) /\
    same_but_logs (submitted s store note df (mk_world dk t fl c d tr tc)) D.
Proof.
  intros H Hc Hdf Hu. unfold submit_to_admin. rewrite Hc.
  destruct df as [|r0 df0]; [contradiction|]. cbn [negb orb].
  set (df := r0 :: df0).
  unfold try_finally, try_except. run_sqlite H.
  rewrite to_sql_run.
  rewrite (proj2 (first_fault_none fl (List.length df) (S t))) by (intros; apply H).
  run_sqlite H. rewrite log_activity_run by exact H.
  match goal with
  | |- context [select_cooperative_name ?u ?D] =>
      change (select_cooperative_name u D) with (select_cooperative_name (s_id s) dk)
  end.
  destruct (select_cooperative_name (s_id s) dk) as [cn|]; [|contradiction].
  run_sqlite H.
  do 2 eexists. split.
  - replace (c + 1 + 1 + 1) with (c + 3) by lia.
    replace (c + 1 + 1) with (c + 2) by lia. reflexivity.
  - apply same_but_logs_insert.
Qed.

Lemma new_payments_rows bid df : forall sq,
  map row_of_payment (new_payments sq bid df) = df.
Proof.
  induction df as [|r df IH]; intros sq; [reflexivity|].
  cbn [new_payments map]. rewrite IH. destruct r; reflexivity.
Qed.

Lemma new_payments_sum bid df : forall sq,
  sum_p_amount (new_payments sq bid df) = sum_amount df.
Proof.
  induction df as [|r df IH]; intros sq; [reflexivity|].
  cbn [new_payments sum_p_amount sum_amount fold_right p_amount].
  f_equal. apply IH.
Qed.

Lemma new_payments_length bid df : forall sq,
  List.length (new_payments sq bid df) = List.length df.
Proof.
  induction df as [|r df IH]; intros sq; [reflexivity|].
  cbn [new_payments List.length]. f_equal. apply IH.
Qed.

Lemma new_payments_pending bid df : forall sq,
  Forall (fun p => p_status p = "pending" /\ p_failure_reason p = None)
         (new_payments sq bid df).
Proof.
  induction df as [|r df IH]; intros sq; cbn [new_payments]; constructor.
  - split; reflexivity.
  - apply IH.
Qed.

Lemma new_payments_filter bid df : forall sq,
  filter (fun p => p_batch_id p =? bid) (new_payments sq bid df) =
  new_payments sq bid df.
Proof.
  induction df as [|r df IH]; intros sq; [reflexivity|].
  cbn [new_payments filter p_batch_id]. rewrite Z.eqb_refl, IH. reflexivity.
Qed.

Lemma filter_older_batches bid l :
  Forall (fun p => p_batch_id p < bid) l ->
  filter (fun p => p_batch_id p =? bid) l = [].
Proof.
  induction 1 as [|p l Hp _ IH]; [reflexivity|].
  cbn [filter]. destruct (Z.eqb_spec (p_batch_id p) bid); [lia | exact IH].
Qed.

(** The payments of the batch just submitted are the rows just inserted. *)
Lemma payments_of_submitted s store note df w D :
  payments_reference_batches (disk w) ->
  farmer_payments D = farmer_payments (submitted s store note df w) ->
  payments_of (seq_batches (disk w) + 1) D =
  new_payments (seq_payments (disk w)) (seq_batches (disk w) + 1) df.
Proof.
  intros Hwf E. unfold payments_of. rewrite E, submitted_payments, filter_app.
  rewrite filter_older_batches, new_payments_filter; [reflexivity|].
  eapply Forall_impl; [|exact Hwf]. cbv beta. intros p Hp. lia.
Qed.

(** What a submission of a non-empty table by a known user persists: the
    batch row that was added is in status [pending_approval] and its record
    count is the number of its payments; its payments are the submitted rows,
    in order, all [pending].  Its total amount is not a number: it is the
    BLOB of the bytes of the sum. *)
Lemma submission_persists_count_and_rows w n_clicks df store s note :
  fault_free w ->
  truthy n_clicks = true ->
  df <> [] ->
  payments_reference_batches (disk w) ->
  select_cooperative_name (s_id s) (disk w) <> None ->
  let run := submit_to_admin n_clicks df store (Some s) note w in
  let bid := seq_batches (disk w) + 1 in
  let items := payments_of bid (disk (snd run)) in
  (exists ts,
      fst run = Ok ("Successfully submitted " ++ str_Z (len df) ++ " records.",
                    true, "success", set empty_div, set ts))
  /\
  (exists b,
      submission_batches (disk (snd run)) = (submission_batches (disk w) ++ [b])%list /\
      b_id b = bid /\
      b_status b = "pending_approval" /\
      b_total_amount b = sql_blob (int64_le (sum_p_amount items)) /\
      b_record_count b = len items)
  /\
  map row_of_payment items = df
  /\
  Forall (fun p => p_status p = "pending" /\ p_failure_reason p = None) items.
Proof.
  intros H Hc Hdf Hwf Hu. cbv zeta. destruct w as [dk t fl c d tr tc].
  destruct (submit_to_admin_ok n_clicks df store s note dk t fl c d tr tc H Hc Hdf Hu)
    as (D & t' & E & HS).
  rewrite E. cbn [fst snd disk]. destruct HS as (_ & Eb & Ep & _).
  pose proof (payments_of_submitted s store note df (mk_world dk t fl c d tr tc)
                D Hwf Ep) as Ei.
  cbn [disk] in Ei. rewrite Ei.
  split; [eexists; reflexivity|]. split; [|split].
  - exists (new_batch s store note df (mk_world dk t fl c d tr tc)).
    split; [rewrite Eb; apply submitted_batches|].
    split; [reflexivity|]. split; [reflexivity|]. split.
    + rewrite new_payments_sum. reflexivity.
    + unfold len. rewrite new_payments_length. reflexivity.
  - apply new_payments_rows.
  - apply new_payments_pending.
Qed.

(** C5.  The claim is right about the count and the statuses and the code
    misses it on the total.  Submitting the three payments of 1000, 2500 and
    750 succeeds, the batch is persisted in status [pending_approval] with a
    record count of 3 and its three payments [pending]; but the total amount
    persisted is not 4250, the sum of the amounts: [df['amount'].sum()] is a
    [numpy.int64], which is bound as its eight bytes, and the column holds
    the BLOB 9a 10 00 00 00 00 00 00. *)
Theorem submitted_total_is_stored_as_bytes :
  let run := submit_to_admin (Some 1) three_rows (Some "farmers.csv") kcu_session
               None (sample_world fresh_db always_paid) in
  let items := payments_of 1 (disk (snd run)) in
  fst run = Ok ("Successfully submitted 3 records.", true, "success",
                set empty_div, set 102) /\
  submission_batches (disk (snd run)) =
    [mk_batch 1 2 "farmers.csv" 3 (sql_blob [154; 16; 0; 0; 0; 0; 0; 0]) 100
              "pending_approval" None None] /\
  map row_of_payment items = three_rows /\
  map p_status items = ["pending"; "pending"; "pending"] /\
  len items = 3 /\
  sum_p_amount items = 4250 /\
  map b_total_amount (submission_batches (disk (snd run))) <> [sql_real 4250].
Proof.
  cbv zeta. repeat (split; [vm_compute; reflexivity|]). vm_compute. discriminate.
Qed.

(** C3, as the code has it.  A submission with an empty table (or without a
    click) persists nothing: the callback returns at once, raises nothing and
    leaves the alert closed.  The rows of a non-empty table are not checked:
    whatever their amounts and their payee fields, they are persisted as they
    are when no persisting call raises.  There is no [ValidationError]. *)
Theorem submission_is_not_validated w n_clicks df store s note :
  truthy n_clicks = true ->
  df <> [] ->
  (forall k, (k < persisting_calls df)%nat -> faults w (ticks w + k)%nat = None) ->
  (forall n session, submit_to_admin n [] store session note w = (Ok closed_alert, w))
  /\
  (forall session, submit_to_admin None df store session note w = (Ok closed_alert, w))
  /\
  map row_of_payment
      (skipn (List.length (farmer_payments (disk w)))
             (farmer_payments
                (disk (snd (submit_to_admin n_clicks df store (Some s) note w))))) = df.
Proof.
  intros Hc Hdf Hk. split; [|split].
  - intros n session. unfold submit_to_admin.
    rewrite orb_true_r. reflexivity.
  - intros session. reflexivity.
  - destruct (submit_to_admin_commits w n_clicks df store s note Hc Hdf Hk)
      as [_ Ep].
    rewrite Ep.
    rewrite skipn_app, skipn_all, Nat.sub_diag. cbn [skipn app].
    apply new_payments_rows.
Qed.

Lemma submission_is_not_validated_witness :
  (forall n session,
      submit_to_admin n [] (Some "farmers.csv") session None
        (sample_world fresh_db always_paid) =
      (Ok closed_alert, sample_world fresh_db always_paid))
  /\
  (forall session,
      submit_to_admin None invalid_rows (Some "farmers.csv") session None
        (sample_world fresh_db always_paid) =
      (Ok closed_alert, sample_world fresh_db always_paid))
  /\
  map row_of_payment
      (skipn (List.length (farmer_payments (disk (sample_world fresh_db always_paid))))
             (farmer_payments
                (disk (snd (submit_to_admin (Some 1) invalid_rows (Some "farmers.csv")
                              (Some (mk_session 2 "kcu" "cooperative"
                                       "Kilimanjaro Cooperative Union"))
                              None (sample_world fresh_db always_paid))))))
  = invalid_rows.
Proof.
  apply (submission_is_not_validated (sample_world fresh_db always_paid) (Some 1)
           invalid_rows (Some "farmers.csv")
           (mk_session 2 "kcu" "cooperative" "Kilimanjaro Cooperative Union") None).
  - reflexivity.
  - discriminate.
  - intros k _. reflexivity.
Defined.

(** C3 fails as stated: a row with a negative amount and empty payee fields
    is accepted, the submission reports success and the batch and the row are
    persisted. *)
Lemma invalid_row_is_persisted :
  let run := submit_to_admin (Some 1) invalid_rows (Some "farmers.csv") kcu_session
               None (sample_world fresh_db always_paid) in
  fst run = Ok ("Successfully submitted 1 records.", true, "success",
                set empty_div, set 102) /\
  submission_batches fresh_db = [] /\
  farmer_payments fresh_db = [] /\
  submission_batches (disk (snd run)) =
    [mk_batch 1 2 "farmers.csv" 1 (numpy_int64 (-5)) 100 "pending_approval"
              None None] /\
  farmer_payments (disk (snd run)) = [mk_payment 1 1 "" "" "" (-5) "pending" None].
Proof. cbv zeta. repeat split. Qed.

(* ================================================================== *)
(** ** The admin's note *)
(* ================================================================== *)

Lemma save_admin_note_run i v rest n_clicks note notes dk t fl c d tr tc :
  (forall k, fl k = None) ->
  any n_clicks = true ->
  save_admin_note (mk_triggered (save_note_btn i) v :: rest) n_clicks (note :: notes)
    (mk_world dk t fl c d tr tc) =
  (Ok (true, "Response saved successfully!", "success"),
   mk_world (update_admin_notes note i dk) (S (S t)) fl c d tr tc).
Proof.
  intros H Ha. unfold save_admin_note. rewrite Ha. cbn [negb].
  unfold try_except, connect, execute, commit, close, sqlite_call, bind, ret, raise.
  repeat (progress (cbn [t_prop_id disk ticks faults clock draws tape_random
                         tape_choice];
                    rewrite ?H)).
  reflexivity.
Qed.

Lemma map_unchanged {A} (f : A -> A) (l : list A) :
  (forall x, In x l -> f x = x) -> map f l = l.
Proof.
  induction l as [|a l IH]; intros H; [reflexivity|].
  cbn [map]. rewrite H by (left; reflexivity).
  rewrite IH; [reflexivity|]. intros x Hx. apply H. right. exact Hx.
Qed.

(** C9, as the code has it.  Saving the admin's note overwrites the note of
    the batch with that id and changes nothing else: every batch row keeps
    its other columns, the rows of other batches and every other table are
    untouched.  For an id no batch has, the update matches no row: the
    callback still reports success and the database is unchanged.  There is
    no [NotFoundError]. *)
Theorem save_admin_note_sets_only_the_note w i v rest n_clicks note notes :
  fault_free w ->
  any n_clicks = true ->
  let run := save_admin_note (mk_triggered (save_note_btn i) v :: rest) n_clicks
               (note :: notes) w in
  fst run = Ok (true, "Response saved successfully!", "success")
  /\
  Forall2 (fun b b' => same_but_note b b' /\
                       if b_id b =? i then b_admin_notes b' = note else b' = b)
          (submission_batches (disk w)) (submission_batches (disk (snd run)))
  /\
  (users (disk (snd run)) = users (disk w) /\
   farmer_payments (disk (snd run)) = farmer_payments (disk w) /\
   payment_history (disk (snd run)) = payment_history (disk w) /\
   activity_logs (disk (snd run)) = activity_logs (disk w))
  /\
  (find (fun b => b_id b =? i) (submission_batches (disk w)) = None ->
   disk (snd run) = disk w).
Proof.
  intros H Ha. cbv zeta. destruct w as [dk t fl c d tr tc].
  rewrite (save_admin_note_run i v rest n_clicks note notes dk t fl c d tr tc H Ha).
  cbn [fst snd disk]. split; [reflexivity|]. split; [|split].
  - unfold update_admin_notes. cbn [submission_batches set_batches].
    apply Forall2_map_r. intros b _.
    destruct (b_id b =? i).
    + split; [repeat split | reflexivity].
    + split; [repeat split | reflexivity].
  - repeat split.
  - intros Hnone. unfold update_admin_notes, set_batches.
    rewrite map_unchanged.
    + destruct dk; reflexivity.
    + intros b Hb. destruct (b_id b =? i) eqn:E; [|reflexivity].
      exfalso. pose proof (find_none _ _ Hnone b Hb) as Hf. cbv beta in Hf.
      rewrite E in Hf. discriminate.
Qed.

Lemma save_admin_note_sets_only_the_note_witness :
  let run := save_admin_note [mk_triggered (save_note_btn 1) (Some 1)] [Some 1]
               [Some "Paid on Friday."] (sample_world pending_db always_paid) in
  fst run = Ok (true, "Response saved successfully!", "success")
  /\
  Forall2 (fun b b' => same_but_note b b' /\
                       if b_id b =? 1 then b_admin_notes b' = Some "Paid on Friday."
                       else b' = b)
          (submission_batches (disk (sample_world pending_db always_paid)))
          (submission_batches (disk (snd run)))
  /\
  (users (disk (snd run)) = users (disk (sample_world pending_db always_paid)) /\
   farmer_payments (disk (snd run)) =
     farmer_payments (disk (sample_world pending_db always_paid)) /\
   payment_history (disk (snd run)) =
     payment_history (disk (sample_world pending_db always_paid)) /\
   activity_logs (disk (snd run)) =
     activity_logs (disk (sample_world pending_db always_paid)))
  /\
  (find (fun b => b_id b =? 1)
        (submission_batches (disk (sample_world pending_db always_paid))) = None ->
   disk (snd run) = disk (sample_world pending_db always_paid)).
Proof.
  apply (save_admin_note_sets_only_the_note (sample_world pending_db always_paid)
           1 (Some 1) [] [Some 1] (Some "Paid on Friday.") []).
  - intros k. reflexivity.
  - reflexivity.
Defined.

(** C9 fails as stated: saving a note for the id 99, which no batch has,
    raises nothing and reports success. *)
Lemma note_for_absent_batch_reports_success :
  find (fun b => b_id b =? 99) (submission_batches pending_db) = None /\
  save_admin_note [mk_triggered (save_note_btn 99) (Some 1)] [Some 1]
    [Some "Paid on Friday."] (sample_world pending_db always_paid) =
  (Ok (true, "Response saved successfully!", "success"),
   mk_world pending_db 2 no_faults 100 0 always_paid (fun _ => 0%nat)).
Proof. split; reflexivity. Qed.

(* ================================================================== *)
(** ** The notification *)
(* ================================================================== *)

(** C8.  For every notification data the toast is shown, with one header and
    one body, and its icon is [warning] when some payment failed and [success]
    otherwise; the function is defined on every such input. *)
Theorem show_ipn_toast_total (data : ipn) :
  exists header body,
    show_ipn_toast (Some data) =
    (true, header, body, if 0 <? failed data then "warning" else "success").
Proof.
  unfold show_ipn_toast. rewrite Z.gtb_ltb. do 2 eexists. reflexivity.
Qed.

(* ================================================================== *)
(** ** Invariants of the payments table *)
(* ================================================================== *)

Lemma well_formed_fresh : well_formed fresh_db.
Proof. repeat split; constructor. Qed.

Lemma well_formed_same_but_logs d d' :
  same_but_logs d d' -> well_formed d -> well_formed d'.
Proof.
  intros (_ & _ & Ep & _ & Esb & Esp & _) [Hr [Hn Hi]].
  unfold well_formed, payments_reference_batches, payment_ids_issued.
  rewrite Ep, Esb, Esp. repeat split; assumption.
Qed.

Lemma new_payments_ids bid df : forall sq,
  Forall (fun p => sq < p_id p <= sq + len df) (new_payments sq bid df).
Proof.
  induction df as [|r df IH]; intros sq; cbn [new_payments]; constructor.
  - cbn [p_id]. rewrite len_cons. unfold len. lia.
  - eapply Forall_impl; [|apply IH]. cbv beta. intros p Hp.
    rewrite len_cons. lia.
Qed.

Lemma new_payments_NoDup bid df : forall sq,
  NoDup (map p_id (new_payments sq bid df)).
Proof.
  induction df as [|r df IH]; intros sq; cbn [new_payments map]; constructor.
  - cbn [p_id]. intros Hin. apply in_map_iff in Hin. destruct Hin as [p [E Hp]].
    pose proof (new_payments_ids bid df (sq + 1)) as Hall.
    rewrite Forall_forall in Hall. specialize (Hall p Hp). lia.
  - apply IH.
Qed.

Lemma well_formed_submitted s store note df w :
  well_formed (disk w) -> well_formed (submitted s store note df w).
Proof.
  intros [Hr [Hn Hi]]. unfold well_formed, payments_reference_batches,
    payment_ids_issued.
  rewrite submitted_payments.
  change (seq_batches (submitted s store note df w)) with (seq_batches (disk w) + 1).
  change (seq_payments (submitted s store note df w))
    with (seq_payments (disk w) + len df).
  pose proof (new_payments_ids (seq_batches (disk w) + 1) df (seq_payments (disk w)))
    as Hids.
  split; [|split].
  - apply Forall_app. split.
    + eapply Forall_impl; [|exact Hr]. cbv beta. intros p Hp. lia.
    + pose proof (new_payments_filter (seq_batches (disk w) + 1) df
                    (seq_payments (disk w))) as Hf.
      apply Forall_forall. intros p Hp. rewrite <- Hf in Hp.
      apply filter_In in Hp. destruct Hp as [_ Hb]. apply Z.eqb_eq in Hb. lia.
  - rewrite map_app. apply NoDup_app.
    + exact Hn.
    + apply new_payments_NoDup.
    + intros x Hx Hx'. apply in_map_iff in Hx. destruct Hx as [p [E Hp]].
      apply in_map_iff in Hx'. destruct Hx' as [q [E' Hq]].
      rewrite Forall_forall in Hi, Hids.
      specialize (Hi p Hp). specialize (Hids q Hq). lia.
  - apply Forall_app. split.
    + eapply Forall_impl; [|exact Hi]. cbv beta. intros p Hp. unfold len. lia.
    + eapply Forall_impl; [|exact Hids]. cbv beta. intros p Hp. lia.
Qed.

Lemma submit_to_admin_disk w n_clicks df store session note :
  let run := submit_to_admin n_clicks df store session note w in
  disk (snd run) = disk w \/
  exists s, same_but_logs (submitted s store note df w) (disk (snd run)).
Proof.
  cbv zeta. destruct (truthy n_clicks) eqn:Hc.
  2:{ left. unfold submit_to_admin. rewrite Hc. reflexivity. }
  destruct df as [|r0 df0].
  { left. unfold submit_to_admin. rewrite orb_true_r. reflexivity. }
  destruct w as [dk t fl c d tr tc].
  assert (Hdf : r0 :: df0 <> []) by discriminate.
  pose proof (submit_to_admin_run n_clicks (r0 :: df0) store session note
                dk t fl c d tr tc Hc Hdf) as R.
  cbv zeta in R. destruct session as [s|].
  - destruct (first_fault fl t (persisting_calls (r0 :: df0))) as [[k msg]|].
    + left. rewrite R. reflexivity.
    + right. destruct R as (r & D & t' & c' & E & HS). exists s. rewrite E. exact HS.
  - left. rewrite R. reflexivity.
Qed.

(** Submission keeps the payments table well formed, whichever calls raise. *)
Lemma submit_to_admin_well_formed w n_clicks df store session note :
  well_formed (disk w) ->
  well_formed (disk (snd (submit_to_admin n_clicks df store session note w))).
Proof.
  intros Hwf.
  destruct (submit_to_admin_disk w n_clicks df store session note) as [E | [s HS]].
  - rewrite E. exact Hwf.
  - apply (well_formed_same_but_logs _ _ HS). apply well_formed_submitted. exact Hwf.
Qed.

Lemma settled_seqs bid w :
  seq_batches (settled bid w) = seq_batches (disk w) /\
  seq_payments (settled bid w) = seq_payments (disk w).
Proof.
  unfold settled. rewrite executemany_spec.
  destruct (select_batch_info bid (disk w)) as [[[[cn fn] rc] ta]|]; split; reflexivity.
Qed.

(** Settlement keeps the payments table well formed. *)
Lemma process_batch_well_formed w bid session :
  fault_free w ->
  well_formed (disk w) ->
  well_formed (disk (snd (process_batch bid session w))).
Proof.
  intros H [Hr [Hn Hi]].
  apply (well_formed_same_but_logs _ _ (process_batch_disk bid session w H)).
  destruct (settled_seqs bid w) as [Esb Esp].
  unfold well_formed, payments_reference_batches, payment_ids_issued.
  rewrite settled_payments, Esb, Esp. split; [|split].
  - apply Forall_map. eapply Forall_impl; [|exact Hr]. cbv beta. intros p Hp.
    rewrite apply_updates_batch_id. exact Hp.
  - rewrite map_map.
    rewrite (map_ext _ p_id (apply_updates_id (drawn bid w))). exact Hn.
  - apply Forall_map. eapply Forall_impl; [|exact Hi]. cbv beta. intros p Hp.
    rewrite apply_updates_id. exact Hp.
Qed.

(* ================================================================== *)
(** ** A run from submission to notification *)
(* ================================================================== *)

(** Three payments of 1000, 2500 and 750 are submitted and then processed
    with a generator that pays everything: the batch ends [processed], the
    three payments are [paid], and the toast reports 3 of 3 farmers paid.
    The total recorded on the batch, and copied into the one history row, is
    the BLOB of the bytes of 4250. *)
Example three_payments_submitted_and_paid :
  let w1 := snd (submit_to_admin (Some 1) three_rows (Some "farmers.csv") kcu_session
                   None (sample_world fresh_db always_paid)) in
  let run := handle_payment_processing [mk_triggered payment_interval (Some 4)] 4
               (Some 1) admin_session w1 in
  map (fun b => (b_status b, b_total_amount b, b_record_count b))
      (submission_batches (disk (snd run))) =
    [("processed", numpy_int64 4250, 3)] /\
  map p_status (farmer_payments (disk (snd run))) = ["paid"; "paid"; "paid"] /\
  map h_total_amount (payment_history (disk (snd run))) = [numpy_int64 4250] /\
  map l_action (activity_logs (disk (snd run))) =
    ["Data Submission"; "Payment Processed"] /\
  fst run = Ok (set true, set true, set payment_processed, set false, set None,
                set (mk_ipn "Kilimanjaro Cooperative Union" 3 0 3)) /\
  show_ipn_toast (Some (mk_ipn "Kilimanjaro Cooperative Union" 3 0 3)) =
    (true, "IPN: Transaction Complete",
     "Kilimanjaro Cooperative Union: Paid 3/3 farmers. (0 failed)", "success").
Proof. cbv zeta. repeat split. Qed.

(* ================================================================== *)
(** ** Authentication and login *)
(* ================================================================== *)

Lemma authenticate_user_run sha256 username password dk t fl c d tr tc :
  authenticate_user sha256 username password (mk_world dk t fl c d tr tc) =
  match fl t with
  | Some msg => (Raise (sqlite3_Error msg), mk_world dk (S t) fl c d tr tc)
  | None =>
      (Ok match select_user_by_username username dk with
          | Some u => if String.eqb (u_password u) (sha256 password)
                      then Some (session_of username u) else None
          | None => None
          end,
       mk_world dk (S t) fl c d tr tc)
  end.
Proof.
  unfold authenticate_user, connect, query, close, sqlite_call, bind, ret.
  cbn [disk ticks faults clock draws tape_random tape_choice].
  destruct (fl t); [reflexivity|].
  destruct (select_user_by_username username dk) as [u|]; [|reflexivity].
  destruct (String.eqb (u_password u) (sha256 password)); reflexivity.
Qed.

Lemma select_user_by_username_found username d u :
  select_user_by_username username d = Some u ->
  In u (users d) /\ u_username u = username.
Proof.
  unfold select_user_by_username. intros H. apply find_some in H.
  destruct H as [Hin He]. apply String.eqb_eq in He. split; assumption.
Qed.

(** X1.  Authentication is sound: a session is returned only for a row of the
    users table that has the given username and whose stored password is the
    hash of the given password; the session carries the id, the role and the
    cooperative name of that row, and the database is not written. *)
Theorem authenticate_user_sound sha256 username password w s :
  fst (authenticate_user sha256 username password w) = Ok (Some s) ->
  (exists u,
      In u (users (disk w)) /\
      u_username u = username /\
      u_password u = sha256 password /\
      s = mk_session (u_id u) username (u_role u) (u_cooperative_name u)) /\
  disk (snd (authenticate_user sha256 username password w)) = disk w.
Proof.
  destruct w as [dk t fl c d tr tc]. rewrite authenticate_user_run.
  cbn [disk]. destruct (fl t); [discriminate|]. cbn [fst snd disk].
  destruct (select_user_by_username username dk) as [u|] eqn:Eu; [|discriminate].
  destruct (String.eqb (u_password u) (sha256 password)) eqn:Ep; [|discriminate].
  intros H. inversion H; subst s. split; [|reflexivity].
  destruct (select_user_by_username_found _ _ _ Eu) as [Hin Hn].
  exists u. apply String.eqb_eq in Ep. repeat split; assumption.
Qed.

Lemma authenticate_user_sound_witness :
  (exists u,
      In u (users pending_db) /\
      u_username u = "kcu" /\
      u_password u = sample_sha256 "coop123" /\
      mk_session 2 "kcu" "cooperative" "Kilimanjaro Cooperative Union" =
      mk_session (u_id u) "kcu" (u_role u) (u_cooperative_name u)) /\
  disk (snd (authenticate_user sample_sha256 "kcu" "coop123"
               (sample_world pending_db always_paid))) = pending_db.
Proof.
  apply (authenticate_user_sound sample_sha256 "kcu" "coop123"
           (sample_world pending_db always_paid)
           (mk_session 2 "kcu" "cooperative" "Kilimanjaro Cooperative Union")).
  reflexivity.
Defined.

Lemma select_cooperative_name_known u d :
  In u (users d) -> select_cooperative_name (u_id u) d <> None.
Proof.
  intros Hin. unfold select_cooperative_name.
  destruct (find (fun u0 => u_id u0 =? u_id u) (users d)) eqn:E; [discriminate|].
  pose proof (find_none _ _ E u Hin) as Hf. cbv beta in Hf.
  rewrite Z.eqb_refl in Hf. discriminate.
Qed.

Lemma handle_login_frame sha256 n_clicks username password w :
  same_but_logs (disk w)
    (disk (snd (handle_login sha256 n_clicks username password w))).
Proof.
  unfold handle_login.
  destruct (negb (truthy_str username) || negb (truthy_str password)).
  { apply same_but_logs_refl. }
  destruct w as [dk t fl c d tr tc]. unfold bind at 1.
  rewrite authenticate_user_run. destruct (fl t); [apply same_but_logs_refl|].
  destruct (select_user_by_username (str_of username) dk) as [u|];
    [|apply same_but_logs_refl].
  destruct (String.eqb (u_password u) (sha256 (str_of password)));
    [|apply same_but_logs_refl].
  unfold bind at 1.
  match goal with
  | |- context [log_activity ?i ?a ?dt (mk_world dk ?t1 fl c d tr tc)] =>
      destruct (log_activity_frame i a dt dk t1 fl c d tr tc)
        as (r & D & t' & c' & E & HS); rewrite E
  end.
  destruct r as [[]|e]; exact HS.
Qed.

(** X2.  A login writes to the activity log and to nothing else, whatever the
    credentials are and whichever SQLite calls raise. *)
Theorem handle_login_writes_only_the_log sha256 n_clicks username password w :
  same_but_logs (disk w)
    (disk (snd (handle_login sha256 n_clicks username password w))).
Proof. apply handle_login_frame. Qed.

(** X3.  A login that is refused or fails writes nothing at all and never sets a
    session: when a field is empty, when no user has the username, or when
    the stored password is not the hash of the one given. *)
Theorem failed_login_writes_nothing sha256 n_clicks username password w :
  (truthy_str username = true -> truthy_str password = true ->
   forall u, select_user_by_username (str_of username) (disk w) = Some u ->
             u_password u <> sha256 (str_of password)) ->
  disk (snd (handle_login sha256 n_clicks username password w)) = disk w /\
  forall s a,
    fst (handle_login sha256 n_clicks username password w) <> Ok (set (Some s), a).
Proof.
  intros Hbad. unfold handle_login.
  destruct (truthy_str username); [|split; [reflexivity | discriminate]].
  destruct (truthy_str password); [|split; [reflexivity | discriminate]].
  cbn [negb orb]. specialize (Hbad eq_refl eq_refl).
  destruct w as [dk t fl c d tr tc]. unfold bind at 1. unfold bind at 2.
  rewrite authenticate_user_run. cbn [disk] in Hbad.
  destruct (fl t); [split; [reflexivity | discriminate]|].
  destruct (select_user_by_username (str_of username) dk) as [u|];
    [|split; [reflexivity | discriminate]].
  destruct (String.eqb_spec (u_password u) (sha256 (str_of password))) as [E|_].
  - exfalso. apply (Hbad u eq_refl). exact E.
  - split; [reflexivity | discriminate].
Qed.

Lemma failed_login_writes_nothing_witness :
  disk (snd (handle_login sample_sha256 (Some 1) (Some "kcu") (Some "admin123")
               (sample_world pending_db always_paid))) =
    disk (sample_world pending_db always_paid) /\
  forall s a,
    fst (handle_login sample_sha256 (Some 1) (Some "kcu") (Some "admin123")
           (sample_world pending_db always_paid)) <> Ok (set (Some s), a).
Proof.
  apply (failed_login_writes_nothing sample_sha256 (Some 1) (Some "kcu")
           (Some "admin123") (sample_world pending_db always_paid)).
  intros _ _ u Hu. vm_compute in Hu. inversion Hu; subst u. discriminate.
Defined.

Lemma handle_login_ok sha256 n_clicks name pw u cn dk t fl c d tr tc :
  (forall k, fl k = None) ->
  name <> "" -> pw <> "" ->
  select_user_by_username name dk = Some u ->
  u_password u = sha256 pw ->
  select_cooperative_name (u_id u) dk = Some cn ->
  handle_login sha256 n_clicks (Some name) (Some pw) (mk_world dk t fl c d tr tc) =
  (Ok (set (Some (session_of name u)), None),
   mk_world (insert_activity_log c (u_id u) cn "Login"
               ("User '" ++ name ++ "' logged in.") dk)
            (S (S (S (S t)))) fl (c + 1) d tr tc).
Proof.
  intros Hf Hn Hp Hu Hpw Hc. unfold handle_login. cbn [truthy_str].
  apply String.eqb_neq in Hn. apply String.eqb_neq in Hp. rewrite Hn, Hp.
  cbn [negb orb str_of]. unfold bind at 1.
  rewrite authenticate_user_run, (Hf t), Hu, Hpw, String.eqb_refl.
  unfold bind at 1. rewrite log_activity_run by exact Hf.
  cbn [session_of s_id s_username]. rewrite Hc. reflexivity.
Qed.

(** X4.  A login with the right password, when no SQLite call raises: the session
    of the user row is returned, without an alert, and exactly one row,
    a [Login] of that user, is added to the activity log. *)
Theorem successful_login_is_logged sha256 n_clicks name pw u w :
  fault_free w ->
  name <> "" -> pw <> "" ->
  select_user_by_username name (disk w) = Some u ->
  u_password u = sha256 pw ->
  let run := handle_login sha256 n_clicks (Some name) (Some pw) w in
  fst run = Ok (set (Some (session_of name u)), None) /\
  exists row,
    activity_logs (disk (snd run)) = (activity_logs (disk w) ++ [row])%list /\
    l_user_id row = u_id u /\
    l_action row = "Login" /\
    l_details row = "User '" ++ name ++ "' logged in." /\
    l_timestamp row = clock w.
Proof.
  intros H Hn Hp Hu Hpw. cbv zeta. destruct w as [dk t fl c d tr tc].
  cbn [disk clock] in *.
  destruct (select_user_by_username_found _ _ _ Hu) as [Hin _].
  destruct (select_cooperative_name (u_id u) dk) as [cn|] eqn:Ec.
  - rewrite (handle_login_ok sha256 n_clicks name pw u cn dk t fl c d tr tc
               H Hn Hp Hu Hpw Ec).
    cbn [fst snd disk]. split; [reflexivity|].
    eexists. split; [reflexivity|]. repeat split.
  - exfalso. apply (select_cooperative_name_known u dk Hin). exact Ec.
Qed.

Lemma successful_login_is_logged_witness :
  let run := handle_login sample_sha256 (Some 1) (Some "admin") (Some "admin123")
               (sample_world pending_db always_paid) in
  fst run = Ok (set (Some (session_of "admin"
                             (mk_user 1 "admin" "240be518" "admin"
                                      "Farmers Payment Module Admin"))), None) /\
  exists row,
    activity_logs (disk (snd run)) =
      (activity_logs (disk (sample_world pending_db always_paid)) ++ [row])%list /\
    l_user_id row = 1 /\
    l_action row = "Login" /\
    l_details row = "User '" ++ "admin" ++ "' logged in." /\
    l_timestamp row = clock (sample_world pending_db always_paid).
Proof.
  apply (successful_login_is_logged sample_sha256 (Some 1) "admin" "admin123"
           (mk_user 1 "admin" "240be518" "admin" "Farmers Payment Module Admin")
           (sample_world pending_db always_paid)).
  - intros k. reflexivity.
  - discriminate.
  - discriminate.
  - reflexivity.
  - reflexivity.
Defined.

(* ================================================================== *)
(** ** Initialisation of the database *)
(* ================================================================== *)

Lemma insert_users_run rows : forall conn dk t fl c d tr tc,
  (forall k, fl k = None) ->
  insert_users conn rows (mk_world dk t fl c d tr tc) =
  (Ok (fold_left (fun d r => insert_or_ignore_user r d) rows conn),
   mk_world dk (t + List.length rows) fl c d tr tc).
Proof.
  induction rows as [|r rows IH]; intros conn dk t fl c d tr tc H.
  - cbn [insert_users fold_left List.length]. rewrite Nat.add_0_r. reflexivity.
  - cbn [insert_users fold_left List.length]. unfold bind at 1.
    unfold execute, bind, sqlite_call, ret.
    cbn [disk ticks faults clock draws tape_random tape_choice]. rewrite H.
    rewrite IH by exact H. replace (S t + List.length rows)%nat
      with (t + S (List.length rows))%nat by lia. reflexivity.
Qed.

Lemma insert_or_ignore_user_frame row d :
  same_but_users d (insert_or_ignore_user row d).
Proof.
  destruct row as [[[un pw] ro] cn]. unfold insert_or_ignore_user.
  destruct (existsb (fun u => String.eqb (u_username u) un) (users d));
    repeat split.
Qed.

Lemma same_but_users_trans d1 d2 d3 :
  same_but_users d1 d2 -> same_but_users d2 d3 -> same_but_users d1 d3.
Proof.
  unfold same_but_users. intros (A1 & A2 & A3 & A4 & A5 & A6 & A7 & A8)
    (B1 & B2 & B3 & B4 & B5 & B6 & B7 & B8).
  repeat split; congruence.
Qed.

Lemma same_but_users_refl d : same_but_users d d.
Proof. repeat split. Qed.

(** The loop of inserts changes the users in the view and nothing on disk,
    whichever calls raise. *)
Lemma insert_users_frame rows : forall conn dk t fl c d tr tc,
  exists r t',
    insert_users conn rows (mk_world dk t fl c d tr tc) =
    (r, mk_world dk t' fl c d tr tc) /\
    forall conn', r = Ok conn' -> same_but_users conn conn'.
Proof.
  induction rows as [|row rows IH]; intros conn dk t fl c d tr tc.
  - do 2 eexists. split; [reflexivity|].
    intros conn' E. inversion E. apply same_but_users_refl.
  - cbn [insert_users]. unfold bind at 1.
    unfold execute, bind, sqlite_call, ret.
    cbn [disk ticks faults clock draws tape_random tape_choice].
    destruct (fl t).
    + do 2 eexists. split; [reflexivity|]. intros conn' E. discriminate.
    + destruct (IH (insert_or_ignore_user row conn) dk (S t) fl c d tr tc)
        as (r & t' & E & HS).
      rewrite E. do 2 eexists. split; [reflexivity|].
      intros conn' Er. eapply same_but_users_trans;
        [apply insert_or_ignore_user_frame | apply HS; exact Er].
Qed.

Ltac world_fields :=
  cbn [disk ticks faults clock draws tape_random tape_choice].

Ltac init_db_steps fl t close_goal :=
  unfold init_db, connect, execute, query, commit, close, sqlite_call, bind, ret,
    create_table_if_not_exists;
  world_fields;
  destruct (fl t); [solve [close_goal]|]; world_fields;
  destruct (fl (S t)); [solve [close_goal]|]; world_fields;
  destruct (fl (S (S t))); [solve [close_goal]|]; world_fields;
  destruct (fl (S (S (S t)))); [solve [close_goal]|]; world_fields;
  destruct (fl (S (S (S (S t))))); [solve [close_goal]|]; world_fields;
  destruct (fl (S (S (S (S (S t)))))); [solve [close_goal]|]; world_fields.

Lemma init_db_populated sha256 dk t fl c d tr tc :
  users dk <> [] ->
  disk (snd (init_db sha256 (mk_world dk t fl c d tr tc))) = dk.
Proof.
  intros Hu.
  assert (Hc : (select_count_users dk =? 0) = false).
  { unfold select_count_users, len. destruct (users dk); [contradiction|].
    cbn [List.length]. apply Z.eqb_neq. lia. }
  init_db_steps fl t ltac:(reflexivity). rewrite Hc.
  cbn [disk ticks faults clock draws tape_random tape_choice].
  destruct (fl (S (S (S (S (S (S t))))))); reflexivity.
Qed.

Lemma init_db_frame sha256 w :
  same_but_users (disk w) (disk (snd (init_db sha256 w))).
Proof.
  destruct w as [dk t fl c d tr tc]. cbn [disk].
  init_db_steps fl t ltac:(apply same_but_users_refl).
  destruct (select_count_users dk =? 0).
  - destruct (insert_users_frame (users_to_add sha256) dk dk
                (S (S (S (S (S (S t)))))) fl c d tr tc) as (r & t' & E & HS).
    rewrite E. destruct r as [conn'|e]; [|apply same_but_users_refl].
    cbn [disk ticks faults clock draws tape_random tape_choice].
    destruct (fl t'); cbn [snd disk]; [apply same_but_users_refl|].
    apply HS. reflexivity.
  - cbn [disk ticks faults clock draws tape_random tape_choice].
    destruct (fl (S (S (S (S (S (S t))))))); apply same_but_users_refl.
Qed.

Lemma init_db_run sha256 dk t fl c d tr tc :
  (forall k, fl k = None) ->
  exists t',
    init_db sha256 (mk_world dk t fl c d tr tc) =
    (Ok tt,
     mk_world (if select_count_users dk =? 0
               then fold_left (fun d r => insert_or_ignore_user r d)
                              (users_to_add sha256) dk
               else dk)
              t' fl c d tr tc).
Proof.
  intros H.
  unfold init_db, connect, execute, query, commit, close, sqlite_call, bind, ret,
    create_table_if_not_exists.
  repeat (progress (world_fields; rewrite ?H)).
  destruct (select_count_users dk =? 0).
  - rewrite insert_users_run by exact H.
    repeat (progress (world_fields; rewrite ?H)). eexists. reflexivity.
  - repeat (progress (world_fields; rewrite ?H)). eexists. reflexivity.
Qed.

Lemma initial_users_inserted sha256 d :
  users d = [] ->
  users (fold_left (fun d r => insert_or_ignore_user r d) (users_to_add sha256) d) =
  initial_users sha256.
Proof.
  intros Hu. destruct d as [us bs ps hs ls sb sp sh sl]. cbn [users] in Hu. subst us.
  reflexivity.
Qed.

(** In a world where no call raises, [init_db] leaves the default accounts in
    a database that had no user. *)
Lemma init_db_users sha256 w :
  fault_free w ->
  users (disk w) = [] ->
  users (disk (snd (init_db sha256 w))) = initial_users sha256.
Proof.
  intros H Hu. destruct w as [dk t fl c d tr tc]. cbn [disk] in Hu.
  destruct (init_db_run sha256 dk t fl c d tr tc H) as [t' E]. rewrite E.
  cbn [snd disk]. unfold select_count_users. rewrite Hu. cbn [len List.length].
  change (Z.of_nat 0 =? 0) with true. cbv iota.
  apply initial_users_inserted. exact Hu.
Qed.

Lemma init_db_faults sha256 w :
  fault_free w -> faults (snd (init_db sha256 w)) = faults w.
Proof.
  intros H. destruct w as [dk t fl c d tr tc].
  destruct (init_db_run sha256 dk t fl c d tr tc H) as [t' E]. rewrite E.
  reflexivity.
Qed.

(** X5.  [init_db] leaves a database that has users as it is: no account is added
    or reset, whichever SQLite calls raise. *)
Theorem init_db_keeps_existing_users sha256 w :
  users (disk w) <> [] ->
  disk (snd (init_db sha256 w)) = disk w.
Proof.
  intros Hu. destruct w as [dk t fl c d tr tc]. apply init_db_populated. exact Hu.
Qed.

Lemma init_db_keeps_existing_users_witness :
  disk (snd (init_db sample_sha256 (faulty_world pending_db 3))) =
  disk (faulty_world pending_db 3).
Proof.
  apply (init_db_keeps_existing_users sample_sha256 (faulty_world pending_db 3)).
  discriminate.
Defined.

(** X6.  [init_db] never touches the batches, the payments, the history or the
    activity log, whichever SQLite calls raise. *)
Theorem init_db_touches_only_users sha256 w :
  same_but_users (disk w) (disk (snd (init_db sha256 w))).
Proof. apply init_db_frame. Qed.

(** X7.  Running [init_db] a second time changes nothing, when no call raises. *)
Theorem init_db_idempotent sha256 w :
  fault_free w ->
  disk (snd (init_db sha256 (snd (init_db sha256 w)))) =
  disk (snd (init_db sha256 w)).
Proof.
  intros H.
  assert (Hu : users (disk (snd (init_db sha256 w))) <> []).
  { destruct (users (disk w)) as [|u us] eqn:E.
    - rewrite (init_db_users sha256 w H E). discriminate.
    - destruct w as [dk t fl c d tr tc]. cbn [disk] in E.
      rewrite init_db_populated by (rewrite E; discriminate).
      rewrite E. discriminate. }
  destruct (snd (init_db sha256 w)) as [dk t fl c d tr tc].
  apply init_db_populated. exact Hu.
Qed.

Lemma init_db_idempotent_witness :
  disk (snd (init_db sample_sha256
               (snd (init_db sample_sha256 (sample_world blank_db always_paid))))) =
  disk (snd (init_db sample_sha256 (sample_world blank_db always_paid))).
Proof.
  apply (init_db_idempotent sample_sha256 (sample_world blank_db always_paid)).
  intros k. reflexivity.
Defined.

Lemma authenticate_initial_user sha256 name pw role w :
  fault_free w ->
  users (disk w) = initial_users sha256 ->
  In (name, pw, role) default_credentials ->
  exists s,
    fst (authenticate_user sha256 name pw w) = Ok (Some s) /\
    s_username s = name /\ s_role s = role.
Proof.
  intros H Hu Hin. destruct w as [dk t fl c d tr tc]. cbn [disk] in Hu.
  rewrite authenticate_user_run. rewrite (H t : fl t = None). cbn [fst].
  unfold select_user_by_username. rewrite Hu.
  unfold default_credentials in Hin. cbn [In] in Hin.
  repeat (destruct Hin as [Hin | Hin];
          [inversion Hin; subst; cbn [initial_users find u_username];
           cbv [String.eqb Ascii.eqb Bool.eqb]; cbn [u_password];
           rewrite String.eqb_refl; eexists; split; [reflexivity | split; reflexivity]
          |]).
  destruct Hin.
Qed.

(** X8.  After [init_db] on a database without users, in a world where no call
    raises, each of the default accounts authenticates with its password and
    gets its role: [admin] with [admin123] as an admin, the seven
    cooperatives with [coop123]. *)
Theorem default_accounts_authenticate sha256 w :
  fault_free w ->
  users (disk w) = [] ->
  Forall (fun cred =>
            exists s,
              fst (authenticate_user sha256 (fst (fst cred)) (snd (fst cred))
                     (snd (init_db sha256 w))) = Ok (Some s) /\
              s_username s = fst (fst cred) /\ s_role s = snd cred)
         default_credentials.
Proof.
  intros H Hu. apply Forall_forall. intros [[name pw] role] Hin. cbn [fst snd].
  apply authenticate_initial_user.
  - intros k. rewrite init_db_faults by exact H. apply H.
  - apply init_db_users; assumption.
  - exact Hin.
Qed.

Lemma default_accounts_authenticate_witness :
  Forall (fun cred =>
            exists s,
              fst (authenticate_user sample_sha256 (fst (fst cred)) (snd (fst cred))
                     (snd (init_db sample_sha256 (sample_world blank_db always_paid))))
                = Ok (Some s) /\
              s_username s = fst (fst cred) /\ s_role s = snd cred)
         default_credentials.
Proof.
  apply (default_accounts_authenticate sample_sha256
           (sample_world blank_db always_paid)).
  - intros k. reflexivity.
  - reflexivity.
Defined.

(* ================================================================== *)
(** ** What the admin sees *)
(* ================================================================== *)

Lemma update_kpi_cards_run session dk t fl c d tr tc :
  (forall k, fl k = None) ->
  is_admin session = true ->
  update_kpi_cards session (mk_world dk t fl c d tr tc) =
  (Ok (Some (mk_kpi 500000000 c (or_0 (select_sum_paid dk)) (select_count_paid dk)
                    (select_count_pending dk) (select_count_cooperatives dk))),
   mk_world dk (S (S (S (S t)))) fl (c + 1) d tr tc).
Proof.
  intros H Ha. unfold update_kpi_cards. rewrite Ha. cbn [negb].
  run_sqlite H. reflexivity.
Qed.

(** The cards are rendered when every total is a number, and only then. *)
Lemma render_cards_numbers rows : forall w,
  Forall (fun r => exists z, b_total_amount (fst r) = sql_real z) rows ->
  exists cards,
    render_cards rows w = (Ok cards, w) /\
    Forall2 (fun r cd =>
               exists z, b_total_amount (fst r) = sql_real z /\
                         cd = mk_card (u_cooperative_name (snd r)) (b_filename (fst r))
                                      (b_record_count (fst r)) z (b_id (fst r)))
            rows cards.
Proof.
  induction rows as [|r rows IH]; intros w Hall.
  - exists []. split; [reflexivity | constructor].
  - inversion Hall as [|r' rows' [z Hz] Hrest]; subst.
    destruct (IH w Hrest) as (cards & E & HF).
    eexists. split.
    + cbn [render_cards]. unfold bind at 1. unfold card_of, bind, format_amount.
      rewrite Hz. unfold ret at 1 2. rewrite E. reflexivity.
    + constructor; [exists z; split; [exact Hz | reflexivity] | exact HF].
Qed.

Lemma render_cards_bytes rows : forall w,
  Exists (fun r => exists bytes, b_total_amount (fst r) = sql_blob bytes) rows ->
  render_cards rows w =
  (Raise (TypeError "unsupported format string passed to bytes.__format__"), w).
Proof.
  induction rows as [|r rows IH]; intros w Hex; [inversion Hex|].
  cbn [render_cards]. unfold bind at 1. unfold card_of, bind, format_amount.
  destruct (b_total_amount (fst r)) as [z | bytes] eqn:Et.
  - unfold ret at 1 2. rewrite IH; [reflexivity|].
    inversion Hex as [r' rows' [bytes Hb] | r' rows' Hrest]; subst;
      [rewrite Et in Hb; discriminate | exact Hrest].
  - reflexivity.
Qed.

Lemma render_admin_dashboard_run session dk t fl c d tr tc :
  (forall k, fl k = None) ->
  is_admin session = true ->
  render_admin_dashboard session (mk_world dk t fl c d tr tc) =
  match select_pending_batches dk with
  | [] => (Ok (Some no_pending_submissions), mk_world dk (S t) fl c d tr tc)
  | rows =>
      (cards <- render_cards rows ;; ret (Some (pending_submissions cards)))
        (mk_world dk (S t) fl c d tr tc)
  end.
Proof.
  intros H Ha. unfold render_admin_dashboard. rewrite Ha. cbn [negb].
  unfold connect, query, close, sqlite_call. unfold bind at 1 2 3 4. unfold ret at 1 2 3.
  world_fields. rewrite H. destruct (select_pending_batches dk); reflexivity.
Qed.

Lemma toggle_details_modal_run ty bid rest n_clicks dk t fl c d tr tc :
  (forall k, fl k = None) ->
  any n_clicks = true ->
  toggle_details_modal (mk_pattern_id ty bid :: rest) n_clicks
    (mk_world dk t fl c d tr tc) =
  match select_notes bid dk with
  | notes :: _ =>
      (Ok (true,
           Some (mk_details bid (select_payment_rows bid dk)
                   (if truthy_str (snd notes) then snd notes else None)
                   (str_of (fst notes)))),
       mk_world dk (S (S t)) fl c d tr tc)
  | [] => (Raise (IndexError "single positional indexer is out-of-bounds"),
           mk_world dk (S (S t)) fl c d tr tc)
  end.
Proof.
  intros H Ha. unfold toggle_details_modal. rewrite Ha. cbn [negb].
  run_sqlite H. cbn [pat_index].
  destruct (select_notes bid dk); reflexivity.
Qed.

Lemma show_coop_results_modal_run ty bid rest n_clicks dk t fl c d tr tc :
  (forall k, fl k = None) ->
  any n_clicks = true ->
  show_coop_results_modal (mk_pattern_id ty bid :: rest) n_clicks
    (mk_world dk t fl c d tr tc) =
  (Ok (true, Some (bid, select_payment_results bid dk)),
   mk_world dk (S t) fl c d tr tc).
Proof.
  intros H Ha. unfold show_coop_results_modal. rewrite Ha. cbn [negb].
  run_sqlite H. reflexivity.
Qed.

(** Insertion keeps the rows: ordering a selection neither drops nor adds one. *)
Lemma In_insert_desc {A} (key : A -> Z) x y (l : list A) :
  In y (insert_desc key x l) <-> y = x \/ In y l.
Proof.
  induction l as [|z l IH]; cbn [insert_desc].
  - cbn [In]. split; intros [E | E]; auto.
  - destruct (key z <=? key x); cbn [In].
    + split; intros [E | E]; auto.
    + rewrite IH. cbn [In]. split; intros [E | [E | E]]; auto.
Qed.

Lemma In_order_by_desc {A} (key : A -> Z) y (l : list A) :
  In y (order_by_desc key l) <-> In y l.
Proof.
  unfold order_by_desc. induction l as [|x l IH]; cbn [fold_right]; [reflexivity|].
  rewrite In_insert_desc, IH. cbn [In]. split; intros [E | E]; auto.
Qed.

Lemma In_select_pending_batches b u d :
  In (b, u) (select_pending_batches d) <->
  In b (submission_batches d) /\ b_status b = "pending_approval" /\
  In u (users d) /\ u_id u = b_cooperative_id b.
Proof.
  unfold select_pending_batches. rewrite In_order_by_desc, in_flat_map. split.
  - intros [b' [Hb Hin]]. apply filter_In in Hb. destruct Hb as [Hb Hs].
    apply in_map_iff in Hin. destruct Hin as [u' [E Hu]]. inversion E; subst b' u'.
    apply filter_In in Hu. destruct Hu as [Hu Hid].
    apply String.eqb_eq in Hs. apply Z.eqb_eq in Hid. repeat split; assumption.
  - intros (Hb & Hs & Hu & Hid). exists b. split.
    + apply filter_In. split; [exact Hb|]. apply String.eqb_eq. exact Hs.
    + apply in_map. apply filter_In. split; [exact Hu|]. apply Z.eqb_eq. exact Hid.
Qed.

Lemma submit_to_admin_faults w n_clicks df store session note :
  faults (snd (submit_to_admin n_clicks df store session note w)) = faults w.
Proof.
  destruct (truthy n_clicks) eqn:Hc.
  2:{ unfold submit_to_admin. rewrite Hc. reflexivity. }
  destruct df as [|r0 df0].
  { unfold submit_to_admin. rewrite orb_true_r. reflexivity. }
  destruct w as [dk t fl c d tr tc].
  assert (Hdf : r0 :: df0 <> []) by discriminate.
  pose proof (submit_to_admin_run n_clicks (r0 :: df0) store session note
                dk t fl c d tr tc Hc Hdf) as R.
  cbv zeta in R. destruct session as [s|].
  - destruct (first_fault fl t (persisting_calls (r0 :: df0))) as [[k msg]|].
    + rewrite R. reflexivity.
    + destruct R as (r & D & t' & c' & E & HS). rewrite E. reflexivity.
  - rewrite R. reflexivity.
Qed.

(** What a submission leaves on disk when no call raises, all tables but the
    activity log. *)
Lemma submit_to_admin_disk_ok w n_clicks df store s note :
  fault_free w ->
  truthy n_clicks = true ->
  df <> [] ->
  same_but_logs (submitted s store note df w)
    (disk (snd (submit_to_admin n_clicks df store (Some s) note w))).
Proof.
  intros H Hc Hdf. destruct w as [dk t fl c d tr tc].
  pose proof (submit_to_admin_run n_clicks df store (Some s) note dk t fl c d tr tc
                Hc Hdf) as R.
  cbv zeta in R.
  rewrite (proj2 (first_fault_none fl (persisting_calls df) t)) in R
    by (intros; apply H).
  destruct R as (r & D & t' & c' & E & HS). rewrite E. exact HS.
Qed.

Lemma totals_numbers_or_bytes (rows : list (submission_batch * user)) :
  Forall (fun r => exists z, b_total_amount (fst r) = sql_real z) rows \/
  Exists (fun r => exists bytes, b_total_amount (fst r) = sql_blob bytes) rows.
Proof.
  induction rows as [|r rows IH]; [left; constructor|].
  destruct (b_total_amount (fst r)) as [z | bytes] eqn:Et.
  - destruct IH as [Hall | Hex].
    + left. constructor; [exists z; exact Et | exact Hall].
    + right. apply Exists_cons_tl. exact Hex.
  - right. apply Exists_cons_hd. exists bytes. exact Et.
Qed.

(** Rendering the cards reads the rows it is given and nothing else. *)
Lemma render_cards_world rows w : snd (render_cards rows w) = w.
Proof.
  destruct (totals_numbers_or_bytes rows) as [Hall | Hex].
  - destruct (render_cards_numbers rows w Hall) as (cards & E & _).
    rewrite E. reflexivity.
  - rewrite (render_cards_bytes rows w Hex). reflexivity.
Qed.

Lemma Forall2_to_left {A B} (R : A -> B -> Prop) l l' y :
  Forall2 R l l' -> In y l' -> exists x, In x l /\ R x y.
Proof.
  induction 1 as [|a b l l' Hab _ IH]; intros Hin; [destruct Hin|].
  destruct Hin as [E | Hin].
  - subst y. exists a. split; [left; reflexivity | exact Hab].
  - destruct (IH Hin) as [x [Hx HR]]. exists x. split; [right; exact Hx | exact HR].
Qed.

Lemma Forall2_to_right {A B} (R : A -> B -> Prop) l l' x :
  Forall2 R l l' -> In x l -> exists y, In y l' /\ R x y.
Proof.
  induction 1 as [|a b l l' Hab _ IH]; intros Hin; [destruct Hin|].
  destruct Hin as [E | Hin].
  - subst x. exists b. split; [left; reflexivity | exact Hab].
  - destruct (IH Hin) as [y [Hy HR]]. exists y. split; [right; exact Hy | exact HR].
Qed.

(** What the dashboard shows when it is rendered: one card for each row of
    the selection, in order, with the total of the row, a number. *)
Lemma render_admin_dashboard_shown session w dash :
  fault_free w ->
  is_admin session = true ->
  fst (render_admin_dashboard session w) = Ok (Some dash) ->
  Forall2 (fun r cd =>
             exists z, b_total_amount (fst r) = sql_real z /\
                       cd = mk_card (u_cooperative_name (snd r)) (b_filename (fst r))
                                    (b_record_count (fst r)) z (b_id (fst r)))
          (select_pending_batches (disk w)) (cards_of dash).
Proof.
  intros H Ha. destruct w as [dk t fl c d tr tc].
  rewrite (render_admin_dashboard_run session dk t fl c d tr tc H Ha). cbn [disk].
  destruct (select_pending_batches dk) as [|r rows] eqn:Er.
  - cbn [fst]. intros E. inversion E; subst dash. constructor.
  - destruct (totals_numbers_or_bytes (r :: rows)) as [Hall | Hex].
    + destruct (render_cards_numbers (r :: rows) (mk_world dk (S t) fl c d tr tc) Hall)
        as (cards & E & HF).
      unfold bind. rewrite E. cbn [fst ret]. intros E'. inversion E'; subst dash.
      exact HF.
    + unfold bind. rewrite (render_cards_bytes (r :: rows) _ Hex). discriminate.
Qed.

(** The dashboard is rendered when every total of the selection is a number. *)
Lemma render_admin_dashboard_numbers session w :
  fault_free w ->
  is_admin session = true ->
  Forall (fun r => exists z, b_total_amount (fst r) = sql_real z)
         (select_pending_batches (disk w)) ->
  exists dash, fst (render_admin_dashboard session w) = Ok (Some dash).
Proof.
  intros H Ha Hall. destruct w as [dk t fl c d tr tc].
  rewrite (render_admin_dashboard_run session dk t fl c d tr tc H Ha).
  cbn [disk] in Hall.
  destruct (select_pending_batches dk) as [|r rows] eqn:Er.
  - eexists. reflexivity.
  - destruct (render_cards_numbers (r :: rows) (mk_world dk (S t) fl c d tr tc) Hall)
      as (cards & E & _).
    unfold bind. rewrite E. eexists. reflexivity.
Qed.

(** The dashboard raises when a total of the selection is a BLOB. *)
Lemma render_admin_dashboard_bytes session w b u bytes :
  fault_free w ->
  is_admin session = true ->
  In (b, u) (select_pending_batches (disk w)) ->
  b_total_amount b = sql_blob bytes ->
  fst (render_admin_dashboard session w) =
  Raise (TypeError "unsupported format string passed to bytes.__format__").
Proof.
  intros H Ha Hin Hb. destruct w as [dk t fl c d tr tc].
  rewrite (render_admin_dashboard_run session dk t fl c d tr tc H Ha).
  cbn [disk] in Hin.
  destruct (select_pending_batches dk) as [|r rows] eqn:Er; [destruct Hin|].
  unfold bind. rewrite render_cards_bytes; [reflexivity|].
  apply Exists_exists. exists (b, u). split; [exact Hin | exists bytes; exact Hb].
Qed.

(** X9.  The dashboard of an admin, when the totals recorded on the pending
    batches are numbers, offers View Details and Pay Now for exactly the
    batches in status [pending_approval] whose cooperative is a known user,
    with the record count and the total recorded on the batch. *)
Theorem dashboard_lists_pending_batches session w :
  fault_free w ->
  is_admin session = true ->
  Forall (fun b => b_status b = "pending_approval" ->
                   exists z, b_total_amount b = sql_real z)
         (submission_batches (disk w)) ->
  exists dash,
    fst (render_admin_dashboard session w) = Ok (Some dash) /\
    forall cd,
      In cd (cards_of dash) <->
      exists b u z,
        In b (submission_batches (disk w)) /\ b_status b = "pending_approval" /\
        In u (users (disk w)) /\ u_id u = b_cooperative_id b /\
        b_total_amount b = sql_real z /\
        cd = mk_card (u_cooperative_name u) (b_filename b) (b_record_count b)
                     z (b_id b).
Proof.
  intros H Ha Hnum.
  assert (Hall : Forall (fun r => exists z, b_total_amount (fst r) = sql_real z)
                        (select_pending_batches (disk w))).
  { apply Forall_forall. intros [b u] Hin. apply In_select_pending_batches in Hin.
    destruct Hin as (Hb & Hs & _). rewrite Forall_forall in Hnum.
    exact (Hnum b Hb Hs). }
  destruct (render_admin_dashboard_numbers session w H Ha Hall) as [dash E].
  pose proof (render_admin_dashboard_shown session w dash H Ha E) as HF.
  exists dash. split; [exact E|]. intros cd. split.
  - intros Hcd. destruct (Forall2_to_left _ _ _ _ HF Hcd) as [[b u] [Hin [z [Hz Ecd]]]].
    apply In_select_pending_batches in Hin. destruct Hin as (Hb & Hs & Hu & Hid).
    exists b, u, z. repeat split; assumption.
  - intros (b & u & z & Hb & Hs & Hu & Hid & Hz & Ecd).
    assert (Hin : In (b, u) (select_pending_batches (disk w)))
      by (apply In_select_pending_batches; repeat split; assumption).
    destruct (Forall2_to_right _ _ _ _ HF Hin) as [cd' [Hcd' [z' [Hz' Ecd']]]].
    cbn [fst snd] in Hz', Ecd'. rewrite Hz in Hz'. inversion Hz'; subst z'.
    rewrite Ecd. rewrite <- Ecd'. exact Hcd'.
Qed.

Lemma dashboard_lists_pending_batches_witness :
  exists dash,
    fst (render_admin_dashboard admin_session (sample_world pending_db always_paid))
      = Ok (Some dash) /\
    forall cd,
      In cd (cards_of dash) <->
      exists b u z,
        In b (submission_batches (disk (sample_world pending_db always_paid))) /\
        b_status b = "pending_approval" /\
        In u (users (disk (sample_world pending_db always_paid))) /\
        u_id u = b_cooperative_id b /\
        b_total_amount b = sql_real z /\
        cd = mk_card (u_cooperative_name u) (b_filename b) (b_record_count b)
                     z (b_id b).
Proof.
  apply (dashboard_lists_pending_batches admin_session
           (sample_world pending_db always_paid)).
  - intros k. reflexivity.
  - reflexivity.
  - repeat constructor. intros _. exists 1000. reflexivity.
Defined.

(** X10.  Once a batch has been processed, the dashboard offers no Pay Now
    button for its id any more: whenever it is rendered, none of its cards
    has that id; and it is rendered when the totals of the other pending
    batches are numbers. *)
Theorem processed_batch_leaves_dashboard session w bid actor :
  fault_free w ->
  is_admin session = true ->
  (forall dash,
     fst (render_admin_dashboard session (snd (process_batch bid actor w))) =
       Ok (Some dash) ->
     forall cd, In cd (cards_of dash) -> card_index cd <> bid) /\
  (Forall (fun b => b_status b = "pending_approval" -> b_id b <> bid ->
                    exists z, b_total_amount b = sql_real z)
          (submission_batches (disk w)) ->
   exists dash,
     fst (render_admin_dashboard session (snd (process_batch bid actor w))) =
       Ok (Some dash)).
Proof.
  intros H Ha.
  assert (H1 : fault_free (snd (process_batch bid actor w))).
  { intros k. rewrite process_batch_faults by exact H. apply H. }
  assert (Hsel : forall b u,
             In (b, u) (select_pending_batches (disk (snd (process_batch bid actor w)))) ->
             exists b0, In b0 (submission_batches (disk w)) /\ b = b0 /\
                        b_status b0 = "pending_approval" /\ b_id b0 <> bid).
  { intros b u Hin. apply In_select_pending_batches in Hin.
    destruct Hin as (Hb & Hs & _).
    rewrite (process_batch_batches bid actor w H) in Hb.
    apply in_map_iff in Hb. destruct Hb as [b0 [Eb Hb0]].
    exists b0. subst b. unfold mark_processed in *.
    destruct (Z.eqb_spec (b_id b0) bid) as [E0 | N0].
    - cbn [with_status b_status] in Hs. discriminate.
    - repeat split; assumption. }
  split.
  - intros dash E cd Hcd.
    pose proof (render_admin_dashboard_shown session _ dash H1 Ha E) as HF.
    destruct (Forall2_to_left _ _ _ _ HF Hcd) as [[b u] [Hin [z [_ Ecd]]]].
    destruct (Hsel b u Hin) as (b0 & _ & Eb & _ & Hne).
    subst cd b. cbn [card_index fst]. exact Hne.
  - intros Hnum. apply (render_admin_dashboard_numbers session _ H1 Ha).
    apply Forall_forall. intros [b u] Hin.
    destruct (Hsel b u Hin) as (b0 & Hb0 & Eb & Hs & Hne). subst b.
    rewrite Forall_forall in Hnum. exact (Hnum b0 Hb0 Hs Hne).
Qed.

Lemma processed_batch_leaves_dashboard_witness :
  exists dash,
    fst (render_admin_dashboard admin_session
           (snd (process_batch 1 admin_session
                   (sample_world pending_db always_paid)))) = Ok (Some dash) /\
    forall cd, In cd (cards_of dash) -> card_index cd <> 1.
Proof.
  destruct (processed_batch_leaves_dashboard admin_session
              (sample_world pending_db always_paid) 1 admin_session)
    as [Hno Hshown].
  - intros k. reflexivity.
  - reflexivity.
  - destruct Hshown as [dash E].
    + repeat constructor. intros _ Hne. exfalso. apply Hne. reflexivity.
    + exists dash. split; [exact E | exact (Hno dash E)].
Defined.

Lemma update_kpi_cards_result session w :
  fault_free w ->
  is_admin session = true ->
  fst (update_kpi_cards session w) =
  Ok (Some (mk_kpi 500000000 (clock w) (or_0 (select_sum_paid (disk w)))
                   (select_count_paid (disk w)) (select_count_pending (disk w))
                   (select_count_cooperatives (disk w)))).
Proof.
  intros H Ha. destruct w as [dk t fl c d tr tc].
  rewrite (update_kpi_cards_run session dk t fl c d tr tc H Ha). reflexivity.
Qed.

Lemma submit_to_admin_fault_free w n_clicks df store session note :
  fault_free w ->
  fault_free (snd (submit_to_admin n_clicks df store session note w)).
Proof. intros H k. rewrite submit_to_admin_faults. apply H. Qed.

(** X11.  After a submission by a known user the admin's dashboard cannot be
    rendered: the total of the new batch is stored as a BLOB, and formatting
    it for its card raises TypeError. *)
Theorem dashboard_raises_after_a_submission session w n_clicks df store s note u :
  fault_free w ->
  is_admin session = true ->
  truthy n_clicks = true ->
  df <> [] ->
  In u (users (disk w)) ->
  u_id u = s_id s ->
  fst (render_admin_dashboard session
         (snd (submit_to_admin n_clicks df store (Some s) note w))) =
  Raise (TypeError "unsupported format string passed to bytes.__format__").
Proof.
  intros H Ha Hc Hdf Hu Hid.
  pose proof (submit_to_admin_fault_free w n_clicks df store (Some s) note H) as H1.
  destruct (submit_to_admin_disk_ok w n_clicks df store s note H Hc Hdf)
    as (Eu & Eb & _).
  apply (render_admin_dashboard_bytes session _ (new_batch s store note df w) u
           (int64_le (sum_amount df)) H1 Ha); [|reflexivity].
  apply In_select_pending_batches. rewrite Eu, Eb, submitted_batches.
  split; [apply in_or_app; right; left; reflexivity|].
  split; [reflexivity|]. split; [exact Hu | exact Hid].
Qed.

Lemma dashboard_raises_after_a_submission_witness :
  fst (render_admin_dashboard admin_session
         (snd (submit_to_admin (Some 1) three_rows (Some "farmers.csv")
                 (Some (mk_session 2 "kcu" "cooperative"
                          "Kilimanjaro Cooperative Union"))
                 None (sample_world fresh_db always_paid)))) =
  Raise (TypeError "unsupported format string passed to bytes.__format__").
Proof.
  apply (dashboard_raises_after_a_submission admin_session
           (sample_world fresh_db always_paid) (Some 1) three_rows (Some "farmers.csv")
           (mk_session 2 "kcu" "cooperative" "Kilimanjaro Cooperative Union") None
           (mk_user 2 "kcu" "5e884898" "cooperative" "Kilimanjaro Cooperative Union")).
  - intros k. reflexivity.
  - reflexivity.
  - reflexivity.
  - discriminate.
  - right. left. reflexivity.
  - reflexivity.
Defined.

Lemma filter_paid_new_payments sq bid df :
  filter (fun p => String.eqb (p_status p) "paid") (new_payments sq bid df) = [].
Proof.
  revert sq. induction df as [|r df IH]; intros sq; [reflexivity|].
  cbn [new_payments filter p_status].
  change (String.eqb "pending" "paid") with false. cbv iota. apply IH.
Qed.

(** X12.  A submission raises the count of pending submissions on the admin's
    cards by one and leaves the paid total, the number of farmers paid and
    the number of cooperatives as they were. *)
Theorem submission_adds_one_pending session w n_clicks df store s note :
  fault_free w ->
  is_admin session = true ->
  truthy n_clicks = true ->
  df <> [] ->
  exists k k',
    fst (update_kpi_cards session w) = Ok (Some k) /\
    fst (update_kpi_cards session
           (snd (submit_to_admin n_clicks df store (Some s) note w))) = Ok (Some k') /\
    kpi_pending_submissions k' = kpi_pending_submissions k + 1 /\
    kpi_total_paid k' = kpi_total_paid k /\
    kpi_farmers_paid_count k' = kpi_farmers_paid_count k /\
    kpi_coop_count k' = kpi_coop_count k.
Proof.
  intros H Ha Hc Hdf.
  pose proof (submit_to_admin_fault_free w n_clicks df store (Some s) note H) as H1.
  do 2 eexists. split; [apply (update_kpi_cards_result session w H Ha)|].
  split; [apply (update_kpi_cards_result session _ H1 Ha)|].
  destruct (submit_to_admin_disk_ok w n_clicks df store s note H Hc Hdf)
    as (Eu & Eb & Ep & _).
  cbn [kpi_pending_submissions kpi_total_paid kpi_farmers_paid_count kpi_coop_count].
  unfold select_count_pending, select_sum_paid, select_count_paid,
    select_count_cooperatives.
  rewrite Eu, Eb, Ep, submitted_batches, submitted_payments.
  rewrite !filter_app, filter_paid_new_payments, app_nil_r.
  split; [|repeat split].
  unfold len. rewrite length_app. cbn [filter new_batch b_status].
  change (String.eqb "pending_approval" "pending_approval") with true.
  cbn [List.length]. lia.
Qed.

Lemma submission_adds_one_pending_witness :
  exists k k',
    fst (update_kpi_cards admin_session (sample_world pending_db always_paid)) =
      Ok (Some k) /\
    fst (update_kpi_cards admin_session
           (snd (submit_to_admin (Some 1) three_rows (Some "farmers.csv")
                   (Some (mk_session 2 "kcu" "cooperative"
                            "Kilimanjaro Cooperative Union"))
                   None (sample_world pending_db always_paid)))) = Ok (Some k') /\
    kpi_pending_submissions k' = kpi_pending_submissions k + 1 /\
    kpi_total_paid k' = kpi_total_paid k /\
    kpi_farmers_paid_count k' = kpi_farmers_paid_count k /\
    kpi_coop_count k' = kpi_coop_count k.
Proof.
  apply (submission_adds_one_pending admin_session
           (sample_world pending_db always_paid) (Some 1) three_rows
           (Some "farmers.csv")
           (mk_session 2 "kcu" "cooperative" "Kilimanjaro Cooperative Union") None).
  - intros k. reflexivity.
  - reflexivity.
  - reflexivity.
  - discriminate.
Defined.

(* ================================================================== *)
(** ** The details dialog *)
(* ================================================================== *)

Lemma toggle_details_modal_result ty bid rest n_clicks w :
  fault_free w ->
  any n_clicks = true ->
  fst (toggle_details_modal (mk_pattern_id ty bid :: rest) n_clicks w) =
  match select_notes bid (disk w) with
  | notes :: _ =>
      Ok (true,
          Some (mk_details bid (select_payment_rows bid (disk w))
                  (if truthy_str (snd notes) then snd notes else None)
                  (str_of (fst notes))))
  | [] => Raise (IndexError "single positional indexer is out-of-bounds")
  end.
Proof.
  intros H Ha. destruct w as [dk t fl c d tr tc].
  rewrite (toggle_details_modal_run ty bid rest n_clicks dk t fl c d tr tc H Ha).
  cbn [disk]. destruct (select_notes bid dk); reflexivity.
Qed.

Lemma save_admin_note_faults i v rest n_clicks note notes w :
  fault_free w ->
  any n_clicks = true ->
  fault_free (snd (save_admin_note (mk_triggered (save_note_btn i) v :: rest)
                     n_clicks (note :: notes) w)) /\
  disk (snd (save_admin_note (mk_triggered (save_note_btn i) v :: rest)
               n_clicks (note :: notes) w)) = update_admin_notes note i (disk w).
Proof.
  intros H Ha. destruct w as [dk t fl c d tr tc].
  rewrite (save_admin_note_run i v rest n_clicks note notes dk t fl c d tr tc H Ha).
  split; [exact H | reflexivity].
Qed.

Lemma select_notes_updated note i l :
  map (fun b => (b_admin_notes b, b_cooperative_notes b))
      (filter (fun b => b_id b =? i)
         (map (fun b => if b_id b =? i
                        then mk_batch (b_id b) (b_cooperative_id b) (b_filename b)
                               (b_record_count b) (b_total_amount b)
                               (b_submission_timestamp b) (b_status b)
                               note (b_cooperative_notes b)
                        else b) l)) =
  map (fun b => (note, b_cooperative_notes b)) (filter (fun b => b_id b =? i) l).
Proof.
  induction l as [|b l IH]; [reflexivity|].
  cbn [map filter]. destruct (b_id b =? i) eqn:E; cbn [b_id]; rewrite E.
  - cbn [map b_admin_notes b_cooperative_notes]. rewrite IH. reflexivity.
  - exact IH.
Qed.

(** X13.  The note the admin saved for a batch is the one the details dialog of
    that batch shows afterwards in the admin's text area (an absent note
    shows as the empty text). *)
Theorem saved_note_is_shown_in_details i v rest n_clicks note notes ty rest' clicks w b :
  fault_free w ->
  any n_clicks = true ->
  any clicks = true ->
  In b (submission_batches (disk w)) ->
  b_id b = i ->
  exists det,
    fst (toggle_details_modal (mk_pattern_id ty i :: rest') clicks
           (snd (save_admin_note (mk_triggered (save_note_btn i) v :: rest)
                   n_clicks (note :: notes) w))) = Ok (true, Some det) /\
    det_batch_id det = i /\
    det_admin_note det = str_of note /\
    det_rows det = select_payment_rows i (disk w).
Proof.
  intros H Ha Hc Hb Hi.
  destruct (save_admin_note_faults i v rest n_clicks note notes w H Ha) as [H1 Ed].
  rewrite (toggle_details_modal_result ty i rest' clicks _ H1 Hc), Ed.
  unfold select_notes, update_admin_notes. cbn [submission_batches set_batches].
  rewrite select_notes_updated.
  destruct (filter (fun b0 => b_id b0 =? i) (submission_batches (disk w)))
    as [|b0 l] eqn:Ef.
  - exfalso. assert (Hin : In b (filter (fun b0 => b_id b0 =? i)
                                     (submission_batches (disk w)))).
    { apply filter_In. split; [exact Hb|]. apply Z.eqb_eq. exact Hi. }
    rewrite Ef in Hin. destruct Hin.
  - cbn [map fst snd]. eexists. split; [reflexivity|]. repeat split.
Qed.

Lemma saved_note_is_shown_in_details_witness :
  exists det,
    fst (toggle_details_modal [mk_pattern_id "view-details-btn" 1] [Some 1]
           (snd (save_admin_note [mk_triggered (save_note_btn 1) (Some 1)]
                   [Some 1] [Some "Paid on Friday."]
                   (sample_world pending_db always_paid)))) = Ok (true, Some det) /\
    det_batch_id det = 1 /\
    det_admin_note det = str_of (Some "Paid on Friday.") /\
    det_rows det = select_payment_rows 1 (disk (sample_world pending_db always_paid)).
Proof.
  apply (saved_note_is_shown_in_details 1 (Some 1) [] [Some 1]
           (Some "Paid on Friday.") [] "view-details-btn" [] [Some 1]
           (sample_world pending_db always_paid)
           (mk_batch 1 2 "farmers.csv" 1 1000 10 "pending_approval" None None)).
  - intros k. reflexivity.
  - reflexivity.
  - reflexivity.
  - left. reflexivity.
  - reflexivity.
Defined.

(** X14.  Opening the details of an id that no batch has raises IndexError: the
    dialog takes the notes from the first row of an empty selection. *)
Theorem details_of_absent_batch_raise ty i rest clicks w :
  fault_free w ->
  any clicks = true ->
  Forall (fun b => b_id b <> i) (submission_batches (disk w)) ->
  fst (toggle_details_modal (mk_pattern_id ty i :: rest) clicks w) =
    Raise (IndexError "single positional indexer is out-of-bounds") /\
  disk (snd (toggle_details_modal (mk_pattern_id ty i :: rest) clicks w)) = disk w.
Proof.
  intros H Hc Hno.
  assert (E : select_notes i (disk w) = []).
  { unfold select_notes.
    induction Hno as [|b l Hb _ IH]; [reflexivity|].
    cbn [filter]. destruct (Z.eqb_spec (b_id b) i); [contradiction | exact IH]. }
  split.
  - rewrite (toggle_details_modal_result ty i rest clicks w H Hc), E. reflexivity.
  - destruct w as [dk t fl c d tr tc].
    rewrite (toggle_details_modal_run ty i rest clicks dk t fl c d tr tc H Hc).
    cbn [disk] in E. rewrite E. reflexivity.
Qed.

Lemma details_of_absent_batch_raise_witness :
  fst (toggle_details_modal [mk_pattern_id "view-details-btn" 99] [Some 1]
         (sample_world pending_db always_paid)) =
    Raise (IndexError "single positional indexer is out-of-bounds") /\
  disk (snd (toggle_details_modal [mk_pattern_id "view-details-btn" 99] [Some 1]
               (sample_world pending_db always_paid))) =
    disk (sample_world pending_db always_paid).
Proof.
  apply (details_of_absent_batch_raise "view-details-btn" 99 [] [Some 1]
           (sample_world pending_db always_paid)).
  - intros k. reflexivity.
  - reflexivity.
  - repeat constructor. discriminate.
Defined.

Lemma filter_older_batch_rows bid l :
  Forall (fun b => b_id b < bid) l ->
  filter (fun b => b_id b =? bid) l = [].
Proof.
  induction 1 as [|b l Hb _ IH]; [reflexivity|].
  cbn [filter]. destruct (Z.eqb_spec (b_id b) bid); [lia | exact IH].
Qed.

(** X15.  The details dialog of a batch that was just submitted shows the rows of
    the submitted table, in order, the cooperative's note when it is not
    empty, and an empty text area for the admin. *)
Theorem details_show_the_submission w n_clicks df store s note ty rest clicks :
  fault_free w ->
  truthy n_clicks = true ->
  df <> [] ->
  payments_reference_batches (disk w) ->
  batch_ids_issued (disk w) ->
  any clicks = true ->
  fst (toggle_details_modal (mk_pattern_id ty (seq_batches (disk w) + 1) :: rest)
         clicks (snd (submit_to_admin n_clicks df store (Some s) note w))) =
  Ok (true,
      Some (mk_details (seq_batches (disk w) + 1) df
              (if truthy_str note then note else None) "")).
Proof.
  intros H Hc Hdf Hwf Hids Ha.
  pose proof (submit_to_admin_fault_free w n_clicks df store (Some s) note H) as H1.
  rewrite (toggle_details_modal_result ty _ rest clicks _ H1 Ha).
  destruct (submit_to_admin_disk_ok w n_clicks df store s note H Hc Hdf)
    as (_ & Eb & Ep & _).
  unfold select_notes, select_payment_rows.
  rewrite (payments_of_submitted s store note df w _ Hwf Ep), new_payments_rows.
  rewrite Eb, submitted_batches, filter_app, filter_older_batch_rows.
  - cbn [app filter new_batch b_id]. rewrite Z.eqb_refl.
    cbn [map fst snd b_admin_notes b_cooperative_notes str_of]. reflexivity.
  - eapply Forall_impl; [|exact Hids]. cbv beta. intros b Hb. lia.
Qed.

Lemma details_show_the_submission_witness :
  fst (toggle_details_modal
         [mk_pattern_id "view-details-btn"
            (seq_batches (disk (sample_world pending_db always_paid)) + 1)]
         [Some 1]
         (snd (submit_to_admin (Some 1) three_rows (Some "farmers.csv")
                 (Some (mk_session 2 "kcu" "cooperative"
                          "Kilimanjaro Cooperative Union"))
                 (Some "Second delivery.") (sample_world pending_db always_paid)))) =
  Ok (true,
      Some (mk_details (seq_batches (disk (sample_world pending_db always_paid)) + 1)
              three_rows
              (if truthy_str (Some "Second delivery.") then Some "Second delivery."
               else None) "")).
Proof.
  apply (details_show_the_submission (sample_world pending_db always_paid) (Some 1)
           three_rows (Some "farmers.csv")
           (mk_session 2 "kcu" "cooperative" "Kilimanjaro Cooperative Union")
           (Some "Second delivery.") "view-details-btn" [] [Some 1]).
  - intros k. reflexivity.
  - reflexivity.
  - discriminate.
  - repeat constructor. cbn. lia.
  - repeat constructor. cbn. lia.
  - reflexivity.
Defined.

(* ================================================================== *)
(** ** The notification and the results dialog *)
(* ================================================================== *)

(** With update ids unique, the update that names a row decides its outcome. *)
Lemma apply_updates_exact us : forall p u,
  NoDup (map snd us) -> In u us -> snd u = p_id p ->
  apply_updates us p = set_outcome (fst (fst u)) (snd (fst u)) p.
Proof.
  induction us as [|u0 us IH]; intros p u Hnd Hin Hid; [destruct Hin|].
  cbn [map] in Hnd. inversion Hnd as [|x l Hnotin Hnd']; subst.
  rewrite apply_updates_cons. destruct Hin as [E | Hin].
  - subst u0. destruct (update_payment_cases u p) as [[_ Hup] | [Hne _]].
    + rewrite Hup. apply apply_updates_untouched. cbn [set_outcome p_id].
      rewrite <- Hid. exact Hnotin.
    + exfalso. apply Hne. symmetry. exact Hid.
  - destruct (update_payment_cases u0 p) as [[He _] | [_ Hup]].
    + exfalso. apply Hnotin. rewrite <- He, <- Hid. apply in_map. exact Hin.
    + rewrite Hup. apply IH; assumption.
Qed.

Lemma filter_batch_updated us bid ps :
  filter (fun p => p_batch_id p =? bid) (map (apply_updates us) ps) =
  map (apply_updates us) (filter (fun p => p_batch_id p =? bid) ps).
Proof.
  induction ps as [|p ps IH]; [reflexivity|].
  cbn [map filter]. rewrite apply_updates_batch_id.
  destruct (p_batch_id p =? bid); cbn [map]; rewrite IH; reflexivity.
Qed.

(** The rows read for a batch end with the outcomes drawn for them, one for
    one and in order. *)
Lemma outcomes_written us : forall L us',
  NoDup (map snd us) ->
  map p_id L = map snd us' ->
  incl us' us ->
  Forall2 (fun p' u => p_status p' = fst (fst u) /\
                       p_failure_reason p' = snd (fst u))
          (map (apply_updates us) L) us'.
Proof.
  intros L. induction L as [|p L IH]; intros us' Hnd Hmap Hincl.
  - destruct us'; [constructor | discriminate].
  - destruct us' as [|u us']; [discriminate|].
    cbn [map] in Hmap. inversion Hmap as [[Hid Hrest]].
    cbn [map]. constructor.
    + rewrite (apply_updates_exact us p u Hnd); [split; reflexivity | | ].
      * apply Hincl. left. reflexivity.
      * symmetry. exact Hid.
    + apply IH; [exact Hnd | exact Hrest |].
      intros x Hx. apply Hincl. right. exact Hx.
Qed.

Lemma count_status_written st : forall L' us',
  Forall2 (fun p' u => p_status p' = fst (fst u) /\
                       p_failure_reason p' = snd (fst u)) L' us' ->
  len (filter (fun p => String.eqb (p_status p) st) L') = count_status st us'.
Proof.
  induction 1 as [|p' u L' us' [Hs _] _ IH]; [reflexivity|].
  destruct u as [[s r] i]. cbn [fst snd] in Hs.
  rewrite count_status_cons. cbn [filter]. rewrite Hs.
  destruct (String.eqb s st).
  - rewrite len_cons, IH. reflexivity.
  - rewrite IH, Z.add_0_l. reflexivity.
Qed.

Lemma count_status_total us :
  Forall resolved_update us ->
  count_status "paid" us + count_status "failed" us = len us.
Proof.
  induction 1 as [|u us Hu _ IH]; [reflexivity|].
  destruct u as [[s r] i]. rewrite !count_status_cons, len_cons.
  destruct Hu as [[Hs _] | [Hs _]]; cbn [fst snd] in Hs; subst s.
  - change (String.eqb "paid" "paid") with true.
    change (String.eqb "paid" "failed") with false. cbv iota. lia.
  - change (String.eqb "failed" "paid") with false.
    change (String.eqb "failed" "failed") with true. cbv iota. lia.
Qed.

Lemma count_rows_results st ps :
  count_rows st
    (map (fun p => mk_result_row (p_farmer_name p) (p_bank_name p) (p_account_number p)
                                 (p_amount p) (p_status p) (p_failure_reason p)) ps) =
  len (filter (fun p => String.eqb (p_status p) st) ps).
Proof.
  unfold count_rows, len. f_equal.
  induction ps as [|p ps IH]; [reflexivity|].
  cbn [map filter r_status]. destruct (String.eqb (p_status p) st);
    cbn [List.length]; rewrite IH; reflexivity.
Qed.

Lemma NoDup_map_filter {A B} (f : A -> B) (g : A -> bool) (l : list A) :
  NoDup (map f l) -> NoDup (map f (filter g l)).
Proof.
  induction l as [|a l IH]; intros H; [constructor|].
  cbn [map] in H. inversion H as [|x m Hnotin Hnd]; subst.
  cbn [filter]. destruct (g a); [|apply IH; exact Hnd].
  cbn [map]. constructor; [|apply IH; exact Hnd].
  intros Hin. apply Hnotin. apply in_map_iff in Hin. destruct Hin as [y [E Hy]].
  apply filter_In in Hy. rewrite <- E. apply in_map. apply Hy.
Qed.

(** The rows of a batch after its settlement carry the outcomes drawn. *)
Lemma settled_rows_carry_outcomes bid actor w :
  fault_free w ->
  NoDup (map p_id (farmer_payments (disk w))) ->
  Forall2 (fun p' u => p_status p' = fst (fst u) /\
                       p_failure_reason p' = snd (fst u))
          (payments_of bid (disk (snd (process_batch bid actor w))))
          (drawn bid w).
Proof.
  intros H Hnd. unfold payments_of.
  rewrite (process_batch_payments bid actor w H), filter_batch_updated.
  apply outcomes_written.
  - rewrite drawn_pids. unfold select_payment_ids. apply NoDup_map_filter. exact Hnd.
  - rewrite drawn_pids. reflexivity.
  - intros x Hx. exact Hx.
Qed.

(** X16.  The counts of the notification are the counts of the results dialog:
    after the processing step, with payment ids unique, the dialog of the
    batch shows as many [paid] rows as the notification reports successes and
    as many [failed] rows as it reports failures, and the two add up to the
    number of rows of the batch. *)
Theorem notification_counts_match_results w bid s ty rest clicks :
  fault_free w ->
  NoDup (map p_id (farmer_payments (disk w))) ->
  select_batch_info bid (disk w) <> None ->
  select_cooperative_name (s_id s) (disk w) <> None ->
  any clicks = true ->
  let run := process_batch bid (Some s) w in
  exists note rows,
    fst run = Ok (set true, set true, set payment_processed, set false, set None,
                  set note) /\
    fst (show_coop_results_modal (mk_pattern_id ty bid :: rest) clicks (snd run)) =
      Ok (true, Some (bid, rows)) /\
    success note = count_rows "paid" rows /\
    failed note = count_rows "failed" rows /\
    success note + failed note = len rows /\
    len rows = len (payments_of bid (disk w)).
Proof.
  intros H Hnd Hinfo Hname Ha. cbv zeta.
  assert (H1 : fault_free (snd (process_batch bid (Some s) w))).
  { intros k. rewrite process_batch_faults by exact H. apply H. }
  pose proof (settled_rows_carry_outcomes bid (Some s) w H Hnd) as HF.
  rewrite (process_batch_result bid (Some s) w H). unfold settle_result.
  destruct (select_batch_info bid (disk w)) as [[[[cn fn] rc] ta]|]; [|contradiction].
  destruct (select_cooperative_name (s_id s) (disk w)); [|contradiction].
  destruct (snd (process_batch bid (Some s) w)) as [dk t fl c d tr tc] eqn:Ew.
  rewrite (show_coop_results_modal_run ty bid rest clicks dk t fl c d tr tc H1 Ha).
  cbn [disk] in HF. do 2 eexists. split; [reflexivity|]. split; [reflexivity|].
  cbn [success failed]. unfold select_payment_results.
  rewrite !count_rows_results, !(count_status_written _ _ _ HF).
  split; [reflexivity|]. split; [reflexivity|].
  assert (El : len (map (fun p => mk_result_row (p_farmer_name p) (p_bank_name p)
                                     (p_account_number p) (p_amount p) (p_status p)
                                     (p_failure_reason p)) (payments_of bid dk)) =
               len (drawn bid w)).
  { unfold len. rewrite length_map. f_equal. apply (Forall2_length HF). }
  rewrite El. split; [apply count_status_total; apply drawn_resolved|].
  unfold len. f_equal.
  rewrite <- (length_map snd (drawn bid w)), drawn_pids.
  unfold select_payment_ids, payments_of. apply length_map.
Qed.

Lemma notification_counts_match_results_witness :
  let run := process_batch 1
               (Some (mk_session 1 "admin" "admin" "Farmers Payment Module Admin"))
               (sample_world pending_db always_failed) in
  exists note rows,
    fst run = Ok (set true, set true, set payment_processed, set false, set None,
                  set note) /\
    fst (show_coop_results_modal [mk_pattern_id "view-results-btn" 1] [Some 1]
           (snd run)) = Ok (true, Some (1, rows)) /\
    success note = count_rows "paid" rows /\
    failed note = count_rows "failed" rows /\
    success note + failed note = len rows /\
    len rows = len (payments_of 1 (disk (sample_world pending_db always_failed))).
Proof.
  apply (notification_counts_match_results (sample_world pending_db always_failed) 1
           (mk_session 1 "admin" "admin" "Farmers Payment Module Admin")
           "view-results-btn" [] [Some 1]).
  - intros k. reflexivity.
  - cbn. constructor; [intros [] | constructor].
  - discriminate.
  - discriminate.
  - reflexivity.
Defined.

(* ================================================================== *)
(** ** The admin's cards after a settlement *)
(* ================================================================== *)

Lemma apply_updates_other_batch bid w p :
  NoDup (map p_id (farmer_payments (disk w))) ->
  In p (farmer_payments (disk w)) ->
  p_batch_id p <> bid ->
  apply_updates (drawn bid w) p = p.
Proof.
  intros Hnd Hp Hb. apply apply_updates_untouched. rewrite drawn_pids.
  unfold select_payment_ids. intros Hin. apply in_map_iff in Hin.
  destruct Hin as [q [Eid Hq]]. apply filter_In in Hq. destruct Hq as [Hq Hqb].
  apply Z.eqb_eq in Hqb.
  assert (q = p) by (apply (NoDup_map_eq p_id _ Hnd); assumption).
  subst q. contradiction.
Qed.

Lemma filter_map_fixed {A} (h : A -> bool) (F : A -> A) (l : list A) :
  (forall x, h (F x) = h x) ->
  (forall x, In x l -> h x = true -> F x = x) ->
  filter h (map F l) = filter h l.
Proof.
  intros Hh HF. induction l as [|a l IH]; [reflexivity|].
  cbn [map filter]. rewrite Hh.
  rewrite IH by (intros x Hx; apply HF; right; exact Hx).
  destruct (h a) eqn:E; [|reflexivity].
  rewrite HF; [reflexivity | left; reflexivity | exact E].
Qed.

Lemma filter_split_len {A} (f g : A -> bool) (l : list A) :
  len (filter f l) =
  len (filter f (filter g l)) + len (filter f (filter (fun x => negb (g x)) l)).
Proof.
  induction l as [|a l IH]; [reflexivity|].
  cbn [filter]. destruct (g a); cbn [negb filter]; destruct (f a);
    rewrite ?len_cons, IH; lia.
Qed.

Lemma filter_split_sum (f g : farmer_payment -> bool) (l : list farmer_payment) :
  sum_p_amount (filter f l) =
  sum_p_amount (filter f (filter g l)) +
  sum_p_amount (filter f (filter (fun x => negb (g x)) l)).
Proof.
  induction l as [|a l IH]; [reflexivity|].
  cbn [filter]. destruct (g a); cbn [negb filter]; destruct (f a);
    cbn [sum_p_amount fold_right]; fold (sum_p_amount (filter f l));
    fold (sum_p_amount (filter f (filter g l)));
    fold (sum_p_amount (filter f (filter (fun x => negb (g x)) l)));
    rewrite IH; lia.
Qed.

Lemma none_paid_filter ps :
  Forall (fun p => p_status p <> "paid") ps ->
  filter (fun p => String.eqb (p_status p) "paid") ps = [].
Proof.
  induction 1 as [|p ps Hp _ IH]; [reflexivity|].
  cbn [filter]. destruct (String.eqb_spec (p_status p) "paid");
    [contradiction | exact IH].
Qed.

Lemma or_0_select_sum_paid d :
  or_0 (select_sum_paid d) =
  sum_p_amount (filter (fun p => String.eqb (p_status p) "paid") (farmer_payments d)).
Proof.
  unfold select_sum_paid.
  destruct (filter (fun p => String.eqb (p_status p) "paid") (farmer_payments d));
    reflexivity.
Qed.

(** The rows of the other batches are the same rows after a settlement. *)
Lemma other_batches_rows_kept bid actor w :
  fault_free w ->
  NoDup (map p_id (farmer_payments (disk w))) ->
  filter (fun p => negb (p_batch_id p =? bid))
         (farmer_payments (disk (snd (process_batch bid actor w)))) =
  filter (fun p => negb (p_batch_id p =? bid)) (farmer_payments (disk w)).
Proof.
  intros H Hnd. rewrite (process_batch_payments bid actor w H).
  apply filter_map_fixed.
  - intros x. rewrite apply_updates_batch_id. reflexivity.
  - intros x Hx Hb. apply apply_updates_other_batch; [exact Hnd | exact Hx|].
    intros E. apply Z.eqb_eq in E. rewrite E in Hb. discriminate.
Qed.

(** X17.  A settlement of a batch none of whose payments was paid before adds to
    the admin's cards what it paid: the number of farmers paid grows by the
    number of [paid] rows of the batch and the total paid by the sum of their
    amounts; payments of other batches do not move the figures. *)
Theorem settlement_adds_its_paid_rows_to_cards session w bid actor :
  fault_free w ->
  is_admin session = true ->
  NoDup (map p_id (farmer_payments (disk w))) ->
  Forall (fun p => p_status p <> "paid") (payments_of bid (disk w)) ->
  let w' := snd (process_batch bid actor w) in
  let paid := filter (fun p => String.eqb (p_status p) "paid")
                     (payments_of bid (disk w')) in
  exists k k',
    fst (update_kpi_cards session w) = Ok (Some k) /\
    fst (update_kpi_cards session w') = Ok (Some k') /\
    kpi_farmers_paid_count k' = kpi_farmers_paid_count k + len paid /\
    kpi_total_paid k' = kpi_total_paid k + sum_p_amount paid /\
    kpi_coop_count k' = kpi_coop_count k.
Proof.
  intros H Ha Hnd Hnone. cbv zeta.
  assert (H1 : fault_free (snd (process_batch bid actor w))).
  { intros k. rewrite process_batch_faults by exact H. apply H. }
  do 2 eexists. split; [apply (update_kpi_cards_result session w H Ha)|].
  split; [apply (update_kpi_cards_result session _ H1 Ha)|].
  cbn [kpi_farmers_paid_count kpi_total_paid kpi_coop_count].
  pose proof (other_batches_rows_kept bid actor w H Hnd) as Eo.
  pose proof (none_paid_filter _ Hnone) as En. unfold payments_of in *.
  split; [|split].
  - unfold select_count_paid.
    rewrite (filter_split_len _ (fun p => p_batch_id p =? bid)
               (farmer_payments (disk (snd (process_batch bid actor w))))).
    rewrite (filter_split_len _ (fun p => p_batch_id p =? bid)
               (farmer_payments (disk w))).
    rewrite Eo, En. change (len []) with 0. lia.
  - rewrite !or_0_select_sum_paid.
    rewrite (filter_split_sum _ (fun p => p_batch_id p =? bid)
               (farmer_payments (disk (snd (process_batch bid actor w))))).
    rewrite (filter_split_sum _ (fun p => p_batch_id p =? bid)
               (farmer_payments (disk w))).
    rewrite Eo, En. change (sum_p_amount []) with 0. lia.
  - unfold select_count_cooperatives.
    rewrite (process_batch_users bid actor w H). reflexivity.
Qed.

Lemma settlement_adds_its_paid_rows_to_cards_witness :
  let w' := snd (process_batch 1 admin_session
                   (sample_world pending_db always_paid)) in
  let paid := filter (fun p => String.eqb (p_status p) "paid")
                     (payments_of 1 (disk w')) in
  exists k k',
    fst (update_kpi_cards admin_session (sample_world pending_db always_paid)) =
      Ok (Some k) /\
    fst (update_kpi_cards admin_session w') = Ok (Some k') /\
    kpi_farmers_paid_count k' = kpi_farmers_paid_count k + len paid /\
    kpi_total_paid k' = kpi_total_paid k + sum_p_amount paid /\
    kpi_coop_count k' = kpi_coop_count k.
Proof.
  apply (settlement_adds_its_paid_rows_to_cards admin_session
           (sample_world pending_db always_paid) 1 admin_session).
  - intros k. reflexivity.
  - reflexivity.
  - cbn. constructor; [intros [] | constructor].
  - repeat constructor. discriminate.
Defined.

Lemma marked_rest_unchanged bid l :
  ~ In bid (map b_id l) -> map (mark_processed bid) l = l.
Proof.
  intros Hn. apply map_unchanged. intros b Hb. unfold mark_processed.
  destruct (Z.eqb_spec (b_id b) bid) as [E|_]; [|reflexivity].
  exfalso. apply Hn. rewrite <- E. apply in_map. exact Hb.
Qed.

Lemma pending_after_marking bid b l :
  NoDup (map b_id l) ->
  In b l -> b_id b = bid -> b_status b = "pending_approval" ->
  len (filter (fun b => String.eqb (b_status b) "pending_approval")
              (map (mark_processed bid) l)) + 1 =
  len (filter (fun b => String.eqb (b_status b) "pending_approval") l).
Proof.
  intros Hnd. induction l as [|a l IH]; intros Hin Hid Hs; [destruct Hin|].
  cbn [map] in Hnd. inversion Hnd as [|x m Hnotin Hnd']; subst x m.
  cbn [map filter]. destruct Hin as [E | Hin].
  - subst a. rewrite (marked_rest_unchanged bid l) by (rewrite <- Hid; exact Hnotin).
    unfold mark_processed. rewrite Hid, Z.eqb_refl. cbn [with_status b_status].
    change (String.eqb "processed" "pending_approval") with false. cbv iota.
    rewrite Hs. change (String.eqb "pending_approval" "pending_approval") with true.
    cbv iota. rewrite len_cons. lia.
  - assert (Hne : b_id a <> bid).
    { intros E. apply Hnotin. rewrite E, <- Hid. apply in_map. exact Hin. }
    unfold mark_processed at 1. destruct (Z.eqb_spec (b_id a) bid); [contradiction|].
    destruct (String.eqb (b_status a) "pending_approval");
      rewrite ?len_cons; specialize (IH Hnd' Hin Hid Hs); lia.
Qed.

(** X18.  Processing a batch that is pending, with batch ids unique, lowers the
    count of pending submissions on the admin's cards by exactly one. *)
Theorem settlement_removes_one_pending session w bid actor b :
  fault_free w ->
  is_admin session = true ->
  NoDup (map b_id (submission_batches (disk w))) ->
  In b (submission_batches (disk w)) ->
  b_id b = bid ->
  b_status b = "pending_approval" ->
  exists k k',
    fst (update_kpi_cards session w) = Ok (Some k) /\
    fst (update_kpi_cards session (snd (process_batch bid actor w))) = Ok (Some k') /\
    kpi_pending_submissions k' + 1 = kpi_pending_submissions k.
Proof.
  intros H Ha Hnd Hb Hid Hs.
  assert (H1 : fault_free (snd (process_batch bid actor w))).
  { intros k. rewrite process_batch_faults by exact H. apply H. }
  do 2 eexists. split; [apply (update_kpi_cards_result session w H Ha)|].
  split; [apply (update_kpi_cards_result session _ H1 Ha)|].
  cbn [kpi_pending_submissions]. unfold select_count_pending.
  rewrite (process_batch_batches bid actor w H).
  apply (pending_after_marking bid b); assumption.
Qed.

Lemma settlement_removes_one_pending_witness :
  exists k k',
    fst (update_kpi_cards admin_session (sample_world pending_db always_paid)) =
      Ok (Some k) /\
    fst (update_kpi_cards admin_session
           (snd (process_batch 1 admin_session
                   (sample_world pending_db always_paid)))) = Ok (Some k') /\
    kpi_pending_submissions k' + 1 = kpi_pending_submissions k.
Proof.
  apply (settlement_removes_one_pending admin_session
           (sample_world pending_db always_paid) 1 admin_session
           (mk_batch 1 2 "farmers.csv" 1 1000 10 "pending_approval" None None)).
  - intros k. reflexivity.
  - reflexivity.
  - cbn. constructor; [intros [] | constructor].
  - left. reflexivity.
  - reflexivity.
  - reflexivity.
Defined.

(* ================================================================== *)
(** ** Settlement when SQLite calls raise *)
(* ================================================================== *)

Lemma process_batch_atomic bid session w :
  disk (snd (process_batch bid session w)) = disk w \/
  same_but_logs (settled bid w) (disk (snd (process_batch bid session w))).
Proof.
  destruct w as [dk t fl c d tr tc]. unfold process_batch.
  unfold connect, query, execute, commit, close, sqlite_call, datetime_now,
    session_id, bind, ret, raise.
  world_fields.
  destruct (fl t); [left; reflexivity|]. world_fields.
  destruct (fl (S t)); [left; reflexivity|]. world_fields.
  destruct (fl (S (S t))); [left; reflexivity|]. world_fields.
  rewrite draw_outcomes_run. world_fields.
  destruct (fl (S (S (S t)))); [left; reflexivity|]. world_fields.
  change (select_payment_ids bid (update_status_processed bid dk))
    with (select_payment_ids bid dk).
  unfold settled, drawn. world_fields. cbn [app].
  destruct (select_batch_info bid dk) as [[[[cn fn] rc] ta]|].
  - world_fields.
    destruct (fl (S (S (S (S t))))); [left; reflexivity|]. world_fields.
    destruct (fl (S (S (S (S (S t)))))); [left; reflexivity|]. world_fields.
    right. destruct session as [s|]; [|apply same_but_logs_refl].
    match goal with
    | |- context [log_activity ?i ?a ?dt (mk_world ?D ?t1 fl ?c1 ?d1 tr tc)] =>
        destruct (log_activity_frame i a dt D t1 fl c1 d1 tr tc)
          as (r & D' & t' & c' & E & HS); rewrite E
    end.
    destruct r as [[]|e]; exact HS.
  - world_fields.
    destruct (fl (S (S (S (S t))))); [left; reflexivity|]. world_fields.
    right. destruct session as [s|]; apply same_but_logs_refl.
Qed.

(* ================================================================== *)
(** ** Consistency of the batches and the payments *)
(* ================================================================== *)





Lemma same_tables_refl d : same_batches_and_payments d d.
Proof. repeat split. Qed.


Lemma sum_p_amount_app l1 l2 :
  sum_p_amount (l1 ++ l2) = sum_p_amount l1 + sum_p_amount l2.
Proof.
  induction l1 as [|p l1 IH]; [reflexivity|].
  cbn [app sum_p_amount fold_right]. fold (sum_p_amount (l1 ++ l2)).
  fold (sum_p_amount l1). rewrite IH. lia.
Qed.












Lemma rows_resolved_after_updates bid w D :
  farmer_payments D = map (apply_updates (drawn bid w)) (farmer_payments (disk w)) ->
  Forall (fun p => resolved (p_status p) (p_failure_reason p)) (payments_of bid D).
Proof.
  intros E. apply Forall_forall. intros p Hp. unfold payments_of in Hp.
  apply filter_In in Hp. destruct Hp as [Hin Hb]. rewrite E in Hin.
  apply in_map_iff in Hin. destruct Hin as [q [Eq Hq]]. subst p.
  rewrite apply_updates_batch_id in Hb. apply Z.eqb_eq in Hb.
  apply apply_updates_resolved; [apply drawn_resolved|].
  right. rewrite drawn_pids. apply In_select_payment_ids; assumption.
Qed.

(** X20.  The processing step is all or nothing, whichever SQLite calls raise:
    either the database file is what it was, or every batch with the id is
    [processed], every payment of the batch is [paid] or [failed] with its
    reason, and the history row of a known batch is there.  A batch is never
    left [processed] on disk with the outcomes of its payments missing. *)
Theorem settlement_is_all_or_nothing bid session w :
  let d' := disk (snd (process_batch bid session w)) in
  d' = disk w \/
  (Forall (fun b => b_id b = bid -> b_status b = "processed")
          (submission_batches d') /\
   Forall (fun p => resolved (p_status p) (p_failure_reason p)) (payments_of bid d') /\
   List.length (payment_history d') =
     match select_batch_info bid (disk w) with
     | Some _ => S (List.length (payment_history (disk w)))
     | None => List.length (payment_history (disk w))
     end).
Proof.
  cbv zeta. destruct (process_batch_atomic bid session w) as [E | HS];
    [left; exact E | right].
  destruct HS as (_ & Eb & Ep & Eh & _). split; [|split].
  - rewrite Eb, settled_batches. cbn [update_status_processed submission_batches
                                        set_batches].
    apply Forall_map. apply Forall_forall. intros b _.
    destruct (Z.eqb_spec (b_id b) bid) as [E | N]; cbn [b_id b_status].
    + intros _. reflexivity.
    + intros E. contradiction.
  - apply (rows_resolved_after_updates bid w). rewrite Ep. apply settled_payments.
  - rewrite Eh, settled_history.
    destruct (select_batch_info bid (disk w)) as [[[[cn fn] rc] ta]|]; [|reflexivity].
    rewrite length_app. cbn [List.length]. lia.
Qed.

(* ================================================================== *)
(** ** Missing users and missing batches *)
(* ================================================================== *)

(** X21.  [log_activity] for a user id that is not in the users table raises
    TypeError and writes nothing; for a known id it appends one row, stamped
    with the current time and carrying the cooperative name of that user. *)
Theorem log_activity_needs_a_known_user uid action details w :
  fault_free w ->
  match select_cooperative_name uid (disk w) with
  | None =>
      fst (log_activity uid action details w) = Raise not_subscriptable /\
      disk (snd (log_activity uid action details w)) = disk w
  | Some cn =>
      fst (log_activity uid action details w) = Ok tt /\
      activity_logs (disk (snd (log_activity uid action details w))) =
        (activity_logs (disk w) ++
           [mk_log (seq_logs (disk w) + 1) (clock w) uid cn action details])%list /\
      same_but_logs (disk w) (disk (snd (log_activity uid action details w)))
  end.
Proof.
  intros H. destruct w as [dk t fl c d tr tc].
  rewrite (log_activity_run uid action details dk t fl c d tr tc H). cbn [disk clock].
  destruct (select_cooperative_name uid dk) as [cn|].
  - split; [reflexivity|]. split; [reflexivity | apply same_but_logs_insert].
  - split; reflexivity.
Qed.

Lemma log_activity_needs_a_known_user_witness :
  fst (log_activity 7 "Login" "User 'ghost' logged in."
         (sample_world pending_db always_paid)) = Raise not_subscriptable /\
  disk (snd (log_activity 7 "Login" "User 'ghost' logged in."
               (sample_world pending_db always_paid))) =
    disk (sample_world pending_db always_paid).
Proof.
  apply (log_activity_needs_a_known_user 7 "Login" "User 'ghost' logged in."
           (sample_world pending_db always_paid)).
  intros k. reflexivity.
Defined.

(** X22.  A submission whose session names a user that is not in the users table
    is persisted all the same: the batch and its rows are committed before
    the activity is logged, the logging raises TypeError, the rollback finds
    nothing to undo, and the callback reports a database error. *)
Theorem submission_by_unknown_user_is_persisted w n_clicks df store s note :
  fault_free w ->
  truthy n_clicks = true ->
  df <> [] ->
  select_cooperative_name (s_id s) (disk w) = None ->
  let run := submit_to_admin n_clicks df store (Some s) note w in
  fst run = Ok (error_outputs "'NoneType' object is not subscriptable") /\
  submission_batches (disk (snd run)) =
    (submission_batches (disk w) ++ [new_batch s store note df w])%list /\
  farmer_payments (disk (snd run)) =
    (farmer_payments (disk w) ++
       new_payments (seq_payments (disk w)) (seq_batches (disk w) + 1) df)%list /\
  activity_logs (disk (snd run)) = activity_logs (disk w).
Proof.
  intros H Hc Hdf Hu. cbv zeta. destruct w as [dk t fl c d tr tc].
  cbn [disk] in Hu.
  assert (E : submit_to_admin n_clicks df store (Some s) note
                (mk_world dk t fl c d tr tc) =
              (Ok (error_outputs "'NoneType' object is not subscriptable"),
               mk_world (submitted s store note df (mk_world dk t fl c d tr tc))
                        (S (S (S t + List.length df))) fl (c + 1) d tr tc)).
  { unfold submit_to_admin. rewrite Hc.
    destruct df as [|r0 df0]; [contradiction|]. cbn [negb orb].
    set (df := r0 :: df0).
    unfold try_finally, try_except. run_sqlite H.
    rewrite to_sql_run.
    rewrite (proj2 (first_fault_none fl (List.length df) (S t))) by (intros; apply H).
    run_sqlite H. rewrite log_activity_run by exact H.
    match goal with
    | |- context [select_cooperative_name ?u ?D] =>
        change (select_cooperative_name u D) with (select_cooperative_name (s_id s) dk)
    end.
    rewrite Hu. run_sqlite H. reflexivity. }
  rewrite E. cbn [fst snd disk]. repeat split.
Qed.

Lemma submission_by_unknown_user_is_persisted_witness :
  let w := sample_world fresh_db always_paid in
  let s := mk_session 9 "ghost" "cooperative" "Ghost Cooperative" in
  let run := submit_to_admin (Some 1) three_rows (Some "farmers.csv") (Some s) None w in
  fst run = Ok (error_outputs "'NoneType' object is not subscriptable") /\
  submission_batches (disk (snd run)) =
    (submission_batches (disk w) ++
       [new_batch s (Some "farmers.csv") None three_rows w])%list /\
  farmer_payments (disk (snd run)) =
    (farmer_payments (disk w) ++
       new_payments (seq_payments (disk w)) (seq_batches (disk w) + 1) three_rows)%list /\
  activity_logs (disk (snd run)) = activity_logs (disk w).
Proof.
  apply (submission_by_unknown_user_is_persisted (sample_world fresh_db always_paid)
           (Some 1) three_rows (Some "farmers.csv")
           (mk_session 9 "ghost" "cooperative" "Ghost Cooperative") None).
  - intros k. reflexivity.
  - reflexivity.
  - discriminate.
  - reflexivity.
Defined.

Lemma select_batch_info_absent bid d :
  Forall (fun b => b_id b <> bid) (submission_batches d) ->
  select_batch_info bid d = None.
Proof.
  intros Hno. unfold select_batch_info.
  destruct (find (fun b => b_id b =? bid) (submission_batches d)) as [b|] eqn:E;
    [|reflexivity].
  apply find_some in E. destruct E as [Hin Hid]. apply Z.eqb_eq in Hid.
  rewrite Forall_forall in Hno. exfalso. exact (Hno b Hin Hid).
Qed.

(** X23.  The processing step for an id no batch has raises TypeError, after its
    commit; in a database whose payments all belong to batches of the table
    that commit changes no batch and no payment and writes no history row. *)
Theorem processing_an_absent_batch_raises bid session w :
  fault_free w ->
  foreign_keys_hold (disk w) ->
  Forall (fun b => b_id b <> bid) (submission_batches (disk w)) ->
  let run := process_batch bid session w in
  fst run = Raise not_subscriptable /\
  submission_batches (disk (snd run)) = submission_batches (disk w) /\
  farmer_payments (disk (snd run)) = farmer_payments (disk w) /\
  payment_history (disk (snd run)) = payment_history (disk w).
Proof.
  intros H Hf Hno. cbv zeta.
  pose proof (select_batch_info_absent bid (disk w) Hno) as Ei.
  assert (Hnot : ~ In bid (map b_id (submission_batches (disk w)))).
  { intros Hin. apply in_map_iff in Hin. destruct Hin as [b [E Hb]].
    rewrite Forall_forall in Hno. exact (Hno b Hb E). }
  split; [|split; [|split]].
  - rewrite (process_batch_result bid session w H). unfold settle_result.
    rewrite Ei. destruct session; reflexivity.
  - rewrite (process_batch_batches bid session w H).
    apply marked_rest_unchanged. exact Hnot.
  - rewrite (process_batch_payments bid session w H).
    apply map_unchanged. intros p Hp. apply apply_updates_untouched.
    rewrite drawn_pids. unfold select_payment_ids. intros Hin.
    apply in_map_iff in Hin. destruct Hin as [q [_ Hq]].
    apply filter_In in Hq. destruct Hq as [Hq Hb]. apply Z.eqb_eq in Hb.
    unfold foreign_keys_hold in Hf. rewrite Forall_forall in Hf.
    apply Hnot. rewrite <- Hb. apply Hf. exact Hq.
  - rewrite (process_batch_history bid session w H), Ei. reflexivity.
Qed.

Lemma processing_an_absent_batch_raises_witness :
  let run := process_batch 99 admin_session (sample_world pending_db always_paid) in
  fst run = Raise not_subscriptable /\
  submission_batches (disk (snd run)) =
    submission_batches (disk (sample_world pending_db always_paid)) /\
  farmer_payments (disk (snd run)) =
    farmer_payments (disk (sample_world pending_db always_paid)) /\
  payment_history (disk (snd run)) =
    payment_history (disk (sample_world pending_db always_paid)).
Proof.
  apply (processing_an_absent_batch_raises 99 admin_session
           (sample_world pending_db always_paid)).
  - intros k. reflexivity.
  - repeat constructor.
  - repeat constructor. discriminate.
Defined.

(* ================================================================== *)
(** ** Callbacks that only read *)
(* ================================================================== *)

Ltac read_only fl t :=
  unfold connect, query, close, sqlite_call, datetime_now, bind, ret, raise;
  world_fields;
  repeat match goal with
         | |- context [match fl ?k with _ => _ end] =>
             destruct (fl k); [reflexivity|]; world_fields
         end.

(** X24.  The callbacks that render what is stored never write: whatever their
    arguments and whichever SQLite calls raise, the database file after the
    KPI cards, the dashboard, the details dialog, the results dialog or an
    authentication is the file before. *)
Theorem views_never_write sha256 session ctx n_clicks username password w :
  disk (snd (update_kpi_cards session w)) = disk w /\
  disk (snd (render_admin_dashboard session w)) = disk w /\
  disk (snd (toggle_details_modal ctx n_clicks w)) = disk w /\
  disk (snd (show_coop_results_modal ctx n_clicks w)) = disk w /\
  disk (snd (authenticate_user sha256 username password w)) = disk w.
Proof.
  destruct w as [dk t fl c d tr tc]. cbn [disk]. repeat split.
  - unfold update_kpi_cards. destruct (negb (is_admin session)); [reflexivity|].
    read_only fl t. reflexivity.
  - unfold render_admin_dashboard. destruct (negb (is_admin session)); [reflexivity|].
    read_only fl t. destruct (select_pending_batches dk) as [|r rows]; [reflexivity|].
    match goal with
    | |- context [render_cards ?l ?W] =>
        pose proof (render_cards_world l W) as E;
        destruct (render_cards l W) as [[cards | e] w']
    end; cbn [snd] in E; subst w'; reflexivity.
  - unfold toggle_details_modal. destruct (negb (any n_clicks)); [reflexivity|].
    destruct ctx as [|t0 ctx]; [reflexivity|].
    read_only fl t. destruct (select_notes (pat_index t0) dk); reflexivity.
  - unfold show_coop_results_modal. destruct (negb (any n_clicks)); [reflexivity|].
    destruct ctx as [|t0 ctx]; [reflexivity|].
    read_only fl t. reflexivity.
  - rewrite authenticate_user_run. destruct (fl t); reflexivity.
Qed.
